(** * JAC test-data tooling: a shallow embedding and its properties

    Embedded sources:
    - scripts/generate_test_data.py   (class TestDataGenerator, main)
    - scripts/generate_provenance.py  (class ProvenanceGenerator)
    - scripts/validate_provenance.py  (class ProvenanceValidator)

    Python values are modelled by the inductive [value]; a [str] is its list
    of code points; a [dict] is an association list in insertion order.
    Stateful code (the global [random] generator, the wall clock) runs in a
    state-and-exception monad over an explicit [world]; code that writes
    files runs over the list of the file-system calls completed so far. *)

From Stdlib Require Import String Ascii ZArith Bool Lia List Permutation.
From Stdlib Require Import DecimalString DecimalPos DecimalZ.
From Stdlib Require Import SpecFloat.
Import ListNotations.

Local Open Scope Z_scope.
Set Warnings "-register-all".

(** ** Python strings *)

(** A Python [str] is a sequence of code points. *)
Definition pystr := list Z.

Definition py (s : string) : pystr :=
  map (fun c => Z.of_nat (nat_of_ascii c)) (list_ascii_of_string s).
Arguments py : simpl never.

Fixpoint str_eqb (a b : pystr) : bool :=
  match a, b with
  | [], [] => true
  | x :: a', y :: b' => (x =? y) && str_eqb a' b'
  | _, _ => false
  end.

(** [a < b] on [str]: lexicographic on code points, a proper prefix first. *)
Fixpoint str_ltb (a b : pystr) : bool :=
  match a, b with
  | _, [] => false
  | [], _ :: _ => true
  | x :: a', y :: b' => (x <? y) || ((x =? y) && str_ltb a' b')
  end.

(** [str(n)] for an [int]: the decimal digits, with a leading minus sign. *)
Definition str_of_Z (n : Z) : pystr := py (NilZero.string_of_int (Z.to_int n)).

(** [sep.join(parts)] *)
Fixpoint join (sep : pystr) (parts : list pystr) : pystr :=
  match parts with
  | [] => []
  | [p] => p
  | p :: rest => p ++ sep ++ join sep rest
  end.

(** The code points [lo .. hi], both ends included. *)
Definition codepoints (lo hi : Z) : pystr :=
  map (fun i => lo + Z.of_nat i) (seq 0 (Z.to_nat (hi - lo + 1))).

(** [string.ascii_letters], [string.digits], [string.punctuation] *)
Definition ascii_letters : pystr := codepoints 97 122 ++ codepoints 65 90.
Definition digits : pystr := codepoints 48 57.
Definition punctuation : pystr :=
  codepoints 33 47 ++ codepoints 58 64 ++ codepoints 91 96 ++ codepoints 123 126.

(** ** Python values *)

(** Binary64 floats are [spec_float]s of precision 53 and maximal exponent 1024. *)
Definition prec : Z := 53.
Definition emax : Z := 1024.

Inductive value : Type :=
| VNone
| VBool (b : bool)
| VInt (n : Z)
| VFloat (f : spec_float)
| VStr (s : pystr)
| VList (l : list value)
| VDict (d : list (pystr * value)).

Definition dict := list (pystr * value).

(** [d[k] = v]: replaces the value of an existing key in place, appends a new key. *)
Fixpoint dict_set (k : pystr) (v : value) (d : dict) : dict :=
  match d with
  | [] => [(k, v)]
  | (k', v') :: d' =>
      if str_eqb k k' then (k', v) :: d' else (k', v') :: dict_set k v d'
  end.

(** [d.get(k)] *)
Fixpoint dict_get (k : pystr) (d : dict) : option value :=
  match d with
  | [] => None
  | (k', v) :: d' => if str_eqb k k' then Some v else dict_get k d'
  end.

(** [k in d] *)
Definition dict_mem (k : pystr) (d : dict) : bool :=
  existsb (fun kv => str_eqb k (fst kv)) d.

Definition dict_keys (d : dict) : list pystr := map fst d.

(** Float literals of the sources, by mantissa and exponent. *)
Definition float_of_Z (n : Z) : spec_float := binary_normalize prec emax n 0 false.
Definition MAX_DOUBLE : spec_float := S754_finite false (2 ^ 53 - 1) 971.
Definition FLOAT_0_3 : spec_float := S754_finite false 5404319552844595 (-54).
Definition FLOAT_0_5 : spec_float := S754_finite false 4503599627370496 (-53).
Definition FLOAT_0_7 : spec_float := S754_finite false 6305039478318694 (-53).
Definition FLOAT_0_95 : spec_float := S754_finite false 8556839292003942 (-53).
Definition FLOAT_1_0 : spec_float := S754_finite false 4503599627370496 (-52).

(** ** Exceptions and results *)

Inductive exn : Type :=
| ValueError        (* random.randint on an empty range, chr out of range *)
| IndexError        (* random.choice / random.choices on an empty sequence *)
| OverflowError     (* datetime + timedelta outside year 1..9999 *)
| FileNotFoundError (* Path.stat or open on a missing file *)
| PermissionError   (* a file-system call that is not permitted *)
| OSError           (* any other OSError of a file-system call *)
| UnicodeDecodeError (* reading a file that is not text *)
| JSONDecodeError   (* json.load on a text that is not JSON *)
| TypeError         (* [x in v] for a value [v] that is not iterable *)
| UnicodeEncodeError (* str.encode on a surrogate code point *)
| OutOfFuel.        (* the recursion budget of the embedding, never raised by
                       the entry points (see [generate_object_fuel_enough]) *)

Inductive result (A : Type) : Type :=
| Ok (a : A)
| Raise (e : exn).
Arguments Ok {A} a.
Arguments Raise {A} e.

(** ** The random source

    The module-level generator of Python's [random] is taken as a parameter:
    a state type with the primitive draws the sources reach through
    [random.random], [random.randint], [random.choice], [random.choices] and
    [random.uniform], and the ranges the library documents for them.
    - [rand_random] is one call of [random.random()]: the float [k / 2^53],
      given by its numerator [k];
    - [rand_below n] is [_randbelow(n)], behind [randint] and [choice];
    - [rand_pick n] is the index [floor(random() * n)] that [choices] draws
      for a population of [n] options. *)
Class RandomSource (G : Type) : Type := {
  rand_seed : Z -> G;
  rand_random : G -> Z * G;
  rand_below : Z -> G -> Z * G;
  rand_pick : Z -> G -> Z * G;
  rand_random_range : forall s, 0 <= fst (rand_random s) < 2 ^ 53;
  rand_below_range : forall n s, 0 < n -> 0 <= fst (rand_below n s) < n;
  rand_pick_range : forall n s, 0 < n -> 0 <= fst (rand_pick n s) < n
}.

(** A scripted source: the state is the list of raw draws still to come, each
    reduced into the range asked for; an exhausted script draws zeros.  The
    index of [choices] is computed from the draw as the library does, in
    binary64. *)
Definition tape_next (s : list Z) : Z * list Z :=
  match s with
  | [] => (0, [])
  | x :: s' => (x, s')
  end.

Definition tape_random (s : list Z) : Z * list Z :=
  let (x, s') := tape_next s in (x mod 2 ^ 53, s').

Definition tape_below (n : Z) (s : list Z) : Z * list Z :=
  let (x, s') := tape_next s in (x mod n, s').

(** A positive integer rounded to 53 significant bits, ties to even. *)
Definition round_53 (p : Z) : Z :=
  let s := Z.log2 p - 52 in
  if s <=? 0 then p
  else
    let q := p / 2 ^ s in
    let r := p mod 2 ^ s in
    let half := 2 ^ (s - 1) in
    (if (half <? r) || ((r =? half) && Z.odd q) then q + 1 else q) * 2 ^ s.

(** [floor(random() * n)] for the draw [k / 2^53] and a population of [n]
    options (below 2^53): the float product is [k * n / 2^53] rounded to 53
    significant bits. *)
Definition tape_pick (n : Z) (s : list Z) : Z * list Z :=
  let (x, s') := tape_next s in (round_53 ((x mod 2 ^ 53) * n) / 2 ^ 53, s').

Lemma tape_random_range : forall s, 0 <= fst (tape_random s) < 2 ^ 53.
Proof.
  intros s. unfold tape_random. destruct (tape_next s) as [x s']. simpl.
  apply Z.mod_pos_bound. reflexivity.
Qed.

Lemma tape_below_range : forall n s, 0 < n -> 0 <= fst (tape_below n s) < n.
Proof.
  intros n s Hn. unfold tape_below. destruct (tape_next s) as [x s']. simpl.
  apply Z.mod_pos_bound. exact Hn.
Qed.

Lemma round_53_le : forall p, 0 <= p -> 0 <= round_53 p <= p + p / 2 ^ 53.
Proof.
  intros p Hp. unfold round_53.
  assert (Hdiv : 0 <= p / 2 ^ 53) by (apply Z.div_pos; [exact Hp | reflexivity]).
  destruct (Z.leb_spec (Z.log2 p - 52) 0) as [Hs|Hs]; [lia|].
  remember (Z.log2 p - 52) as s eqn:Es.
  assert (Hpos : 0 < p).
  { destruct (Z.eq_dec p 0) as [->|]; [cbn in Es; lia | lia]. }
  destruct (Z.log2_spec p Hpos) as [Hlo _].
  assert (Hpow : 2 ^ Z.log2 p = 2 ^ (s - 1) * 2 ^ 53).
  { rewrite <- Z.pow_add_r by lia. f_equal. lia. }
  assert (H2s : 2 ^ s = 2 * 2 ^ (s - 1)).
  { replace s with (Z.succ (s - 1)) at 1 by lia. apply Z.pow_succ_r. lia. }
  assert (Hhalf : 0 < 2 ^ (s - 1)) by (apply Z.pow_pos_nonneg; lia).
  assert (Hd : 2 ^ (s - 1) <= p / 2 ^ 53).
  { apply Z.div_le_lower_bound; [reflexivity|]. rewrite Hpow in Hlo. lia. }
  pose proof (Z.div_mod p (2 ^ s) ltac:(lia)) as Hdm.
  pose proof (Z.mod_pos_bound p (2 ^ s) ltac:(lia)) as Hr.
  assert (Hq : 0 <= p / 2 ^ s) by (apply Z.div_pos; lia).
  remember (p / 2 ^ s) as q. remember (p mod 2 ^ s) as r.
  remember (2 ^ (s - 1)) as half. remember (2 ^ s) as two_s.
  destruct ((half <? r) || ((r =? half) && Z.odd q)) eqn:C.
  - assert (half <= r).
    { apply orb_true_iff in C. destruct C as [C|C].
      - apply Z.ltb_lt in C. lia.
      - apply andb_true_iff in C. destruct C as [C _]. apply Z.eqb_eq in C. lia. }
    nia.
  - nia.
Qed.

Lemma tape_pick_range : forall n s, 0 < n -> 0 <= fst (tape_pick n s) < n.
Proof.
  intros n s Hn. unfold tape_pick. destruct (tape_next s) as [x s']. cbn [fst].
  assert (Hk : 0 <= x mod 2 ^ 53 < 2 ^ 53) by (apply Z.mod_pos_bound; reflexivity).
  remember (x mod 2 ^ 53) as k.
  assert (Hp : 0 <= k * n) by nia.
  pose proof (round_53_le (k * n) Hp) as [Hlo Hhi].
  assert (Hfloor : k * n / 2 ^ 53 < n).
  { apply Z.div_lt_upper_bound; [reflexivity | nia]. }
  split.
  - apply Z.div_pos; [exact Hlo | reflexivity].
  - apply Z.div_lt_upper_bound; [reflexivity | nia].
Qed.

#[export] Instance TapeRandom : RandomSource (list Z) := {
  rand_seed := fun seed => [seed];
  rand_random := tape_random;
  rand_below := tape_below;
  rand_pick := tape_pick;
  rand_random_range := tape_random_range;
  rand_below_range := tape_below_range;
  rand_pick_range := tape_pick_range
}.

(** ** datetime

    A naive [datetime] is the number of microseconds since 0001-01-01T00:00:00;
    the type holds the years 1 to 9999 only, and arithmetic that leaves them
    raises [OverflowError]. *)
Definition datetime := Z.

Definition US_PER_SECOND : Z := 1000000.
Definition US_PER_DAY : Z := 86400 * US_PER_SECOND.
(** [date.max.toordinal()] *)
Definition MAXORDINAL : Z := 3652059.
Definition DATETIME_END : Z := MAXORDINAL * US_PER_DAY.
(** [datetime.max], 9999-12-31T23:59:59.999999 *)
Definition DATETIME_MAX : datetime := DATETIME_END - 1.

(** [timedelta(seconds=n)], in microseconds *)
Definition timedelta_seconds (n : Z) : Z := n * US_PER_SECOND.

(** [t + delta] *)
Definition datetime_add (t : datetime) (delta : Z) : result datetime :=
  let r := t + delta in
  if (0 <=? r) && (r <? DATETIME_END) then Ok r else Raise OverflowError.

Definition DAYS_IN_MONTH : list Z := [-1; 31; 28; 31; 30; 31; 30; 31; 31; 30; 31; 30; 31].
Definition DAYS_BEFORE_MONTH : list Z :=
  [-1; 0; 31; 59; 90; 120; 151; 181; 212; 243; 273; 304; 334].

Definition b2z (b : bool) : Z := if b then 1 else 0.

(** [datetime._ord2ymd]: proleptic Gregorian ordinal to (year, month, day) *)
Definition ord2ymd (ordinal : Z) : Z * Z * Z :=
  let n := ordinal - 1 in
  let n400 := n / 146097 in
  let n := n mod 146097 in
  let year := n400 * 400 + 1 in
  let n100 := n / 36524 in
  let n := n mod 36524 in
  let n4 := n / 1461 in
  let n := n mod 1461 in
  let n1 := n / 365 in
  let n := n mod 365 in
  let year := year + n100 * 100 + n4 * 4 + n1 in
  if (n1 =? 4) || (n100 =? 4) then (year - 1, 12, 31)
  else
    let leapyear := (n1 =? 3) && (negb (n4 =? 24) || (n100 =? 3)) in
    let month := Z.shiftr (n + 50) 5 in
    let preceding :=
      nth (Z.to_nat month) DAYS_BEFORE_MONTH 0 + b2z ((2 <? month) && leapyear) in
    if n <? preceding then
      let month := month - 1 in
      let preceding :=
        preceding - (nth (Z.to_nat month) DAYS_IN_MONTH 0 + b2z ((month =? 2) && leapyear)) in
      (year, month, n - preceding + 1)
    else (year, month, n - preceding + 1).

(** ["%0<width>d" % n] for [0 <= n] *)
Definition zero_pad (width : nat) (n : Z) : pystr :=
  let s := str_of_Z n in repeat 48 (width - length s) ++ s.

(** [t.isoformat()]: YYYY-MM-DDTHH:MM:SS, followed by .ffffff when the
    microsecond is not zero *)
Definition isoformat (t : datetime) : pystr :=
  let '(y, m, d) := ord2ymd (t / US_PER_DAY + 1) in
  let rest := t mod US_PER_DAY in
  let secs := rest / US_PER_SECOND in
  let us := rest mod US_PER_SECOND in
  zero_pad 4 y ++ py "-" ++ zero_pad 2 m ++ py "-" ++ zero_pad 2 d ++ py "T"
  ++ zero_pad 2 (secs / 3600) ++ py ":" ++ zero_pad 2 (secs / 60 mod 60) ++ py ":"
  ++ zero_pad 2 (secs mod 60)
  ++ (if us =? 0 then [] else py "." ++ zero_pad 6 us).

(** ** json.dumps(obj, sort_keys=True) *)

(** [sorted] on the items of a dict: insertion sort by key, stable. *)
Fixpoint insert_item {V : Type} (kv : pystr * V) (l : list (pystr * V)) : list (pystr * V) :=
  match l with
  | [] => [kv]
  | h :: t => if str_ltb (fst h) (fst kv) then h :: insert_item kv t else kv :: h :: t
  end.

Definition sort_items {V : Type} (l : list (pystr * V)) : list (pystr * V) :=
  fold_right insert_item [] l.

Definition hex_digit (d : Z) : Z := if d <? 10 then 48 + d else 87 + d.

(** ['\\u{0:04x}'.format(n)] *)
Definition u_escape (n : Z) : pystr :=
  py "\u" ++ [hex_digit (n / 4096 mod 16); hex_digit (n / 256 mod 16);
              hex_digit (n / 16 mod 16); hex_digit (n mod 16)].

(** One character under [ensure_ascii=True]: the short escapes, printable
    ASCII as it is, the rest as \uXXXX (a surrogate pair above the BMP). *)
Definition escape_char (c : Z) : pystr :=
  if c =? 34 then [92; 34]
  else if c =? 92 then [92; 92]
  else if c =? 10 then [92; 110]
  else if c =? 13 then [92; 114]
  else if c =? 9 then [92; 116]
  else if c =? 12 then [92; 102]
  else if c =? 8 then [92; 98]
  else if (32 <=? c) && (c <=? 126) then [c]
  else if c <? 65536 then u_escape c
  else
    let n := c - 65536 in
    u_escape (Z.lor 55296 (Z.land (Z.shiftr n 10) 1023))
    ++ u_escape (Z.lor 56320 (Z.land n 1023)).

Definition encode_basestring_ascii (s : pystr) : pystr :=
  [34] ++ flat_map escape_char s ++ [34].


(** ** The platform

    Library and operating-system functions the sources call and the
    repository does not hold, taken as parameters: [float.__repr__] on a
    finite float, [hashlib.sha256(b).hexdigest()], [sys.version], the
    conversion behind [time.time()], the JSON parser [json_loads] ([None]
    where [json.load] raises [JSONDecodeError]) and the file system.  A
    [Path] is the list of its parts.

    The file system is read through [stat_size], which is
    [path.stat().st_size], with [stat_error] the exception [stat] raises where
    it gives no size, and through [read_text], the text [open(path).read()]
    returns, with [read_error] the exception opening or reading raises where
    there is no text.

    It is written through calls that succeed or raise: [fs_raises done call]
    is the exception the call raises after the calls [done] have completed,
    if it raises one. *)
Definition path := list pystr.

Inductive fs_call : Type :=
| Mkdir (dir : path)                 (* dir.mkdir(parents=True, exist_ok=True) *)
| OpenW (file : path)                (* open(file, 'w') *)
| Write (file : path) (text : pystr) (* f.write(text), json.dump(data, f, ...) *)
| Close (file : path).               (* leaving the [with] block of [f] *)

Class Platform : Type := {
  float_repr : spec_float -> pystr;
  sha256_hexdigest : list Z -> pystr;
  sys_version : pystr;
  posix_float : datetime -> spec_float;
  stat_size : path -> option Z;
  stat_error : path -> exn;
  read_text : path -> option pystr;
  read_error : path -> exn;
  json_loads : pystr -> option value;
  fs_raises : list fs_call -> fs_call -> option exn
}.

(** [random() < c] for a draw [k / 2^53] and a float literal [c], exactly. *)
Definition draw_ltb (k : Z) (c : spec_float) : bool :=
  match c with
  | S754_finite false m e =>
      if e <=? -53 then k * 2 ^ (-53 - e) <? Z.pos m else k <? Z.pos m * 2 ^ (e + 53)
  | S754_infinity false => true
  | _ => false
  end.

Section Program.

Context {G : Type} {RS : RandomSource G} {PF : Platform}.

(** ** The world and the monad

    The world of a run: the state of the global random generator, and the
    wall clock as the sequence of its readings with the number read so far. *)
Record world : Type := {
  rng : G;
  clock : nat -> datetime;
  reads : nat
}.

Definition M (A : Type) : Type := world -> result (A * world).

Definition ret {A : Type} (a : A) : M A := fun w => Ok (a, w).

Definition bind {A B : Type} (m : M A) (f : A -> M B) : M B :=
  fun w => match m w with
           | Ok (a, w') => f a w'
           | Raise e => Raise e
           end.

Definition raise {A : Type} (e : exn) : M A := fun _ => Raise e.

Definition lift {A : Type} (r : result A) : M A :=
  fun w => match r with Ok a => Ok (a, w) | Raise e => Raise e end.

Notation "x <- m ;; k" := (bind m (fun x => k))
  (at level 61, m at next level, right associativity).

(** [for i in range(count): acc = body(i, acc)], the loop's locals in [acc] *)
Fixpoint for_loop {A : Type} (n : nat) (i : Z) (body : Z -> A -> M A) (acc : A) : M A :=
  match n with
  | O => ret acc
  | S n' => acc' <- body i acc ;; for_loop n' (i + 1) body acc'
  end.

Definition for_range {A : Type} (count : Z) (body : Z -> A -> M A) (acc : A) : M A :=
  for_loop (Z.to_nat count) 0 body acc.

(** [for i, x in enumerate(xs): acc = body(i, x, acc)] *)
Fixpoint for_enumerate {A X : Type} (i : Z) (xs : list X) (body : Z -> X -> A -> M A)
    (acc : A) : M A :=
  match xs with
  | [] => ret acc
  | x :: xs' => acc' <- body i x acc ;; for_enumerate (i + 1) xs' body acc'
  end.

(** ** The [random] module and the clock *)

Definition with_rng (w : world) (s : G) : world :=
  {| rng := s; clock := clock w; reads := reads w |}.

(** [random.random()], as the numerator of the float drawn *)
Definition random : M Z :=
  fun w => let (k, s) := rand_random (rng w) in Ok (k, with_rng w s).

Definition randbelow (n : Z) : M Z :=
  fun w => let (k, s) := rand_below n (rng w) in Ok (k, with_rng w s).

Definition pick (n : Z) : M Z :=
  fun w => let (k, s) := rand_pick n (rng w) in Ok (k, with_rng w s).

(** [random.randint(a, b)] *)
Definition randint (a b : Z) : M Z :=
  if b <? a then raise ValueError
  else k <- randbelow (b - a + 1) ;; ret (a + k).

Definition index {A : Type} (seq : list A) (i : Z) : M A :=
  match nth_error seq (Z.to_nat i) with
  | Some x => ret x
  | None => raise IndexError
  end.

(** [random.choice(seq)] *)
Definition choice {A : Type} (seq : list A) : M A :=
  match seq with
  | [] => raise IndexError
  | _ => i <- randbelow (Z.of_nat (length seq)) ;; index seq i
  end.

(** [random.choices(population, k=k)] *)
Definition choices {A : Type} (population : list A) (k : Z) : M (list A) :=
  for_range k
    (fun _ acc => i <- pick (Z.of_nat (length population)) ;;
                  x <- index population i ;;
                  ret (acc ++ [x]))
    [].

(** [random.uniform(a, b)]: [a + (b - a) * random()] in binary64 *)
Definition uniform (a b : spec_float) : M spec_float :=
  k <- random ;;
  ret (SFadd prec emax a
         (SFmul prec emax (SFsub prec emax b a) (binary_normalize prec emax k (-53) false))).

(** [chr(n)] *)
Definition chr (n : Z) : M pystr :=
  if (0 <=? n) && (n <=? 1114111) then ret [n] else raise ValueError.

(** [datetime.now()] *)
Definition datetime_now : M datetime :=
  fun w => Ok (clock w (reads w),
               {| rng := rng w; clock := clock w; reads := S (reads w) |}).

(** ** scripts/generate_test_data.py: the generators *)

Definition FIELD_TYPES : list pystr :=
  [py "string"; py "integer"; py "float"; py "boolean"; py "null"; py "object"; py "array"].
Definition STRING_LENGTHS : list Z := [1; 10; 100; 1000; 10000; 100000].
Definition ARRAY_SIZES : list Z := [1; 10; 100; 1000; 10000].

Definition generate_string (length : Z) : M pystr :=
  if length =? 0 then ret []
  else choices (ascii_letters ++ digits ++ punctuation) length.

Definition generate_unicode_string (length : Z) : M pystr :=
  if length =? 0 then ret []
  else
    for_range length
      (fun _ chars =>
         r1 <- random ;;
         if draw_ltb r1 FLOAT_0_3 then
           n <- randint 32 126 ;; c <- chr n ;; ret (chars ++ c)
         else
           r2 <- random ;;
           if draw_ltb r2 FLOAT_0_5 then
             n <- randint 128 255 ;; c <- chr n ;; ret (chars ++ c)
           else
             r3 <- random ;;
             if draw_ltb r3 FLOAT_0_7 then
               n <- randint 256 65535 ;; c <- chr n ;; ret (chars ++ c)
             else
               n <- randint 65536 1114111 ;; c <- chr n ;; ret (chars ++ c))
      [].

Definition generate_integer (min_val max_val : Z) : M Z := randint min_val max_val.

Definition generate_float (min_val max_val : spec_float) : M spec_float :=
  uniform min_val max_val.

Definition generate_boolean : M bool := choice [true; false].

Definition generate_null : M value := ret VNone.

(** The default arguments of [generate_integer] and [generate_float] *)
Definition generate_integer_default : M Z := generate_integer (-1000000) 1000000.
Definition generate_float_default : M spec_float :=
  generate_float (float_of_Z (-1000000)) (float_of_Z 1000000).

(** [generate_array] and [generate_object] call each other; the embedding
    recurses on a call-depth budget [fuel]. *)
Fixpoint generate_array_fuel (fuel : nat) (size : Z) (field_type : pystr) {struct fuel}
    : M (list value) :=
  match fuel with
  | O => raise OutOfFuel
  | S fuel' =>
      if size =? 0 then ret []
      else
        for_range size
          (fun _ array =>
             if str_eqb field_type (py "string") then
               n <- choice STRING_LENGTHS ;; s <- generate_string n ;;
               ret (array ++ [VStr s])
             else if str_eqb field_type (py "integer") then
               n <- generate_integer_default ;; ret (array ++ [VInt n])
             else if str_eqb field_type (py "float") then
               f <- generate_float_default ;; ret (array ++ [VFloat f])
             else if str_eqb field_type (py "boolean") then
               b <- generate_boolean ;; ret (array ++ [VBool b])
             else if str_eqb field_type (py "null") then
               v <- generate_null ;; ret (array ++ [v])
             else if str_eqb field_type (py "object") then
               d <- randint 1 5 ;; o <- generate_object_fuel fuel' d ;;
               ret (array ++ [VDict o])
             else if str_eqb field_type (py "array") then
               n <- randint 1 10 ;; a <- generate_array_fuel fuel' n (py "string") ;;
               ret (array ++ [VList a])
             else ret array)
          []
  end
with generate_object_fuel (fuel : nat) (depth : Z) {struct fuel} : M dict :=
  match fuel with
  | O => raise OutOfFuel
  | S fuel' =>
      if depth <=? 0 then ret []
      else
        field_count <- randint 1 10 ;;
        for_range field_count
          (fun i obj =>
             let field_name := py "field_" ++ str_of_Z i in
             field_type <- choice FIELD_TYPES ;;
             if str_eqb field_type (py "string") then
               n <- choice STRING_LENGTHS ;; s <- generate_string n ;;
               ret (dict_set field_name (VStr s) obj)
             else if str_eqb field_type (py "integer") then
               n <- generate_integer_default ;; ret (dict_set field_name (VInt n) obj)
             else if str_eqb field_type (py "float") then
               f <- generate_float_default ;; ret (dict_set field_name (VFloat f) obj)
             else if str_eqb field_type (py "boolean") then
               b <- generate_boolean ;; ret (dict_set field_name (VBool b) obj)
             else if str_eqb field_type (py "null") then
               v <- generate_null ;; ret (dict_set field_name v obj)
             else if str_eqb field_type (py "object") && (1 <? depth) then
               o <- generate_object_fuel fuel' (depth - 1) ;;
               ret (dict_set field_name (VDict o) obj)
             else if str_eqb field_type (py "array") then
               n <- choice ARRAY_SIZES ;; a <- generate_array_fuel fuel' n (py "string") ;;
               ret (dict_set field_name (VList a) obj)
             else ret obj)
          []
  end.

(** Budgets that the recursion never exhausts: an array of objects nests
    objects of depth at most 5, each holding arrays of strings. *)
Definition ARRAY_FUEL : nat := 7.
Definition generate_array (size : Z) (field_type : pystr) : M (list value) :=
  generate_array_fuel ARRAY_FUEL size field_type.
Definition generate_object (depth : Z) : M dict :=
  generate_object_fuel (S (Z.to_nat depth)) depth.

Definition generate_record (field_types : list pystr) : M dict :=
  for_enumerate 0 field_types
    (fun i field_type record =>
       let field_name := py "field_" ++ str_of_Z i in
       if str_eqb field_type (py "string") then
         n <- choice STRING_LENGTHS ;; s <- generate_string n ;;
         ret (dict_set field_name (VStr s) record)
       else if str_eqb field_type (py "integer") then
         n <- generate_integer_default ;; ret (dict_set field_name (VInt n) record)
       else if str_eqb field_type (py "float") then
         f <- generate_float_default ;; ret (dict_set field_name (VFloat f) record)
       else if str_eqb field_type (py "boolean") then
         b <- generate_boolean ;; ret (dict_set field_name (VBool b) record)
       else if str_eqb field_type (py "null") then
         v <- generate_null ;; ret (dict_set field_name v record)
       else if str_eqb field_type (py "object") then
         d <- randint 1 3 ;; o <- generate_object d ;;
         ret (dict_set field_name (VDict o) record)
       else if str_eqb field_type (py "array") then
         n <- choice ARRAY_SIZES ;; a <- generate_array n (py "string") ;;
         ret (dict_set field_name (VList a) record)
       else ret record)
    [].

Definition generate_time_series_data (count : Z) (start_time : datetime) : M (list value) :=
  st <- for_range count
          (fun _ st =>
             let '(records, current_time) := st in
             v <- generate_float_default ;;
             category <- choice [py "A"; py "B"; py "C"; py "D"] ;;
             level <- choice [py "DEBUG"; py "INFO"; py "WARN"; py "ERROR"] ;;
             n <- randint 10 100 ;;
             message <- generate_string n ;;
             let record :=
               [(py "timestamp", VStr (isoformat current_time));
                (py "value", VFloat v);
                (py "category", VStr category);
                (py "level", VStr level);
                (py "message", VStr message)] in
             step <- randint 1 3600 ;;
             next_time <- lift (datetime_add current_time (timedelta_seconds step)) ;;
             ret (records ++ [VDict record], next_time))
          ([], start_time) ;;
  ret (fst st).

Definition generate_log_data (count : Z) : M (list value) :=
  for_range count
    (fun _ records =>
       now <- datetime_now ;;
       level <- choice [py "DEBUG"; py "INFO"; py "WARN"; py "ERROR"; py "FATAL"] ;;
       logger <- choice [py "service"; py "controller"; py "repository"] ;;
       n <- randint 20 200 ;;
       message <- generate_string n ;;
       thread <- randint 1 10 ;;
       user_id <- randint 1 10000 ;;
       session_id <- generate_string 32 ;;
       request_id <- generate_string 16 ;;
       duration_ms <- randint 1 5000 ;;
       memory_mb <- randint 100 10000 ;;
       ret (records ++
            [VDict [(py "timestamp", VStr (isoformat now));
                    (py "level", VStr level);
                    (py "logger", VStr (py "com.example." ++ logger));
                    (py "message", VStr message);
                    (py "thread", VStr (py "thread-" ++ str_of_Z thread));
                    (py "user_id", VInt user_id);
                    (py "session_id", VStr session_id);
                    (py "request_id", VStr request_id);
                    (py "duration_ms", VInt duration_ms);
                    (py "memory_mb", VInt memory_mb)]]))
    [].

Definition generate_compression_test_data (count : Z) : M (list value) :=
  base_string <- generate_string 1000 ;;
  base_object <- generate_object 2 ;;
  for_range count
    (fun i records =>
       varying <- generate_string 10 ;;
       now <- datetime_now ;;
       ret (records ++
            [VDict [(py "id", VInt i);
                    (py "base_string", VStr base_string);
                    (py "base_object", VDict base_object);
                    (py "varying_field", VStr varying);
                    (py "timestamp", VStr (isoformat now))]]))
    [].

Definition fields3 (v1 v2 v3 : value) : value :=
  VDict [(py "field1", v1); (py "field2", v2); (py "field3", v3)].

Definition generate_edge_case_data : M (list value) :=
  let records := [] in
  (* Empty record *)
  let records := records ++ [VDict []] in
  (* Record with all null values *)
  let records := records ++ [fields3 VNone VNone VNone] in
  (* Record with empty strings *)
  let records := records ++ [fields3 (VStr []) (VStr []) (VStr [])] in
  (* Record with very long strings *)
  s1 <- generate_string 100000 ;;
  s2 <- generate_string 100000 ;;
  s3 <- generate_string 100000 ;;
  let records := records ++ [fields3 (VStr s1) (VStr s2) (VStr s3)] in
  (* Record with very large numbers *)
  let records :=
    records ++ [fields3 (VInt (2 ^ 63 - 1)) (VInt (- 2 ^ 63)) (VFloat MAX_DOUBLE)] in
  (* Record with Unicode strings *)
  u1 <- generate_unicode_string 100 ;;
  u2 <- generate_unicode_string 100 ;;
  u3 <- generate_unicode_string 100 ;;
  let records := records ++ [fields3 (VStr u1) (VStr u2) (VStr u3)] in
  (* Record with nested objects *)
  o1 <- generate_object 5 ;;
  o2 <- generate_object 5 ;;
  o3 <- generate_object 5 ;;
  let records := records ++ [fields3 (VDict o1) (VDict o2) (VDict o3)] in
  (* Record with large arrays *)
  a1 <- generate_array 10000 (py "string") ;;
  a2 <- generate_array 10000 (py "integer") ;;
  a3 <- generate_array 10000 (py "float") ;;
  let records := records ++ [fields3 (VList a1) (VList a2) (VList a3)] in
  ret records.

(** ** The content hash and the metadata *)

(** [json.encoder.floatstr] with [allow_nan=True] *)
Definition floatstr (f : spec_float) : pystr :=
  match f with
  | S754_nan => py "NaN"
  | S754_infinity false => py "Infinity"
  | S754_infinity true => py "-Infinity"
  | _ => float_repr f
  end.

Definition dumps_item (kv : pystr * pystr) : pystr :=
  encode_basestring_ascii (fst kv) ++ py ": " ++ snd kv.

(** [json.dumps(v, sort_keys=True)] with the default separators.  The items
    of a dict are ordered by [sorted]; keys are [str]s and unique, so the
    order looks at keys alone and rendering the values first changes nothing. *)
Fixpoint dumps (v : value) : pystr :=
  match v with
  | VNone => py "null"
  | VBool true => py "true"
  | VBool false => py "false"
  | VInt n => str_of_Z n
  | VFloat f => floatstr f
  | VStr s => encode_basestring_ascii s
  | VList l => py "[" ++ join (py ", ") (map dumps l) ++ py "]"
  | VDict d =>
      py "{"
      ++ join (py ", ")
           (map dumps_item (sort_items (map (fun kv => (fst kv, dumps (snd kv))) d)))
      ++ py "}"
  end.

(** [s.encode()]: UTF-8 *)
Definition utf8_char (c : Z) : result (list Z) :=
  if c <? 128 then Ok [c]
  else if c <? 2048 then Ok [Z.lor 192 (Z.shiftr c 6); Z.lor 128 (Z.land c 63)]
  else if c <? 65536 then
    if (55296 <=? c) && (c <=? 57343) then Raise UnicodeEncodeError
    else Ok [Z.lor 224 (Z.shiftr c 12); Z.lor 128 (Z.land (Z.shiftr c 6) 63);
             Z.lor 128 (Z.land c 63)]
  else Ok [Z.lor 240 (Z.shiftr c 18); Z.lor 128 (Z.land (Z.shiftr c 12) 63);
           Z.lor 128 (Z.land (Z.shiftr c 6) 63); Z.lor 128 (Z.land c 63)].

Fixpoint encode (s : pystr) : result (list Z) :=
  match s with
  | [] => Ok []
  | c :: s' =>
      match utf8_char c, encode s' with
      | Ok b, Ok bs => Ok (b ++ bs)
      | Raise e, _ => Raise e
      | _, Raise e => Raise e
      end
  end.

(** [hashlib.sha256(json.dumps(data, sort_keys=True).encode()).hexdigest()] *)
Definition data_hash (data : list value) : result pystr :=
  match encode (dumps (VList data)) with
  | Ok bytes => Ok (sha256_hexdigest bytes)
  | Raise e => Raise e
  end.

(** [time.time()] *)
Definition time_time : M spec_float :=
  now <- datetime_now ;; ret (posix_float now).

Definition generate_metadata (self_seed : Z) (self_version : pystr)
    (data : list value) (generation_params : value) : M dict :=
  generated_at <- datetime_now ;;
  h <- lift (data_hash data) ;;
  generation_time <- time_time ;;
  ret [(py "version", VStr self_version);
       (py "generated_at", VStr (isoformat generated_at));
       (py "generator_seed", VInt self_seed);
       (py "record_count", VInt (Z.of_nat (length data)));
       (py "generation_params", generation_params);
       (py "data_hash", VStr h);
       (py "provenance",
        VDict [(py "generator", VStr (py "jac_test_data_generator"));
               (py "generator_version", VStr (py "1.0.0"));
               (py "python_version", VStr sys_version);
               (py "generation_time", VFloat generation_time)])].

(** ** main: from the command line to the dataset *)

Inductive category : Type := Unit | Integration | Performance | Stress | Conformance.
Inductive size_class : Type := Small | Medium | Large | XLarge.
Inductive format : Type := Json | Ndjson | Jsonl.

Record args : Type := {
  arg_seed : Z;
  arg_version : pystr;
  arg_format : format;
  arg_category : category;
  arg_size : size_class;
  arg_count : option Z;
  arg_field_types : list pystr
}.

Definition size_counts (s : size_class) : Z :=
  match s with
  | Small => 100
  | Medium => 1000
  | Large => 10000
  | XLarge => 100000
  end.

(** [args.count] after the default is filled in *)
Definition resolved_count (a : args) : Z :=
  match arg_count a with
  | Some c => c
  | None => size_counts (arg_size a)
  end.

(** [[generator.generate_record(field_types) for _ in range(count)]] *)
Definition generate_records (count : Z) (field_types : list pystr) : M (list value) :=
  for_range count
    (fun _ data => r <- generate_record field_types ;; ret (data ++ [VDict r]))
    [].

Definition main_data (a : args) : M (list value) :=
  match arg_category a with
  | Unit => generate_edge_case_data
  | Integration => generate_records (resolved_count a) (arg_field_types a)
  | Performance => generate_log_data (resolved_count a)
  | Stress => generate_compression_test_data (resolved_count a)
  | Conformance =>
      start_time <- datetime_now ;;
      generate_time_series_data (resolved_count a) start_time
  end.

(** [TestDataGenerator(seed=args.seed, ...)] seeds the global generator. *)
Definition initial_world (seed : Z) (wall : nat -> datetime) : world :=
  {| rng := rand_seed seed; clock := wall; reads := 0 |}.

(** One run of [main]: the dataset and its content hash. *)
Definition run (a : args) (wall : nat -> datetime) : result (list value * pystr) :=
  match main_data a (initial_world (arg_seed a) wall) with
  | Ok (data, _) =>
      match data_hash data with
      | Ok h => Ok (data, h)
      | Raise e => Raise e
      end
  | Raise e => Raise e
  end.

(** ** scripts/generate_provenance.py *)

(** [path.name] *)
Definition path_name (p : path) : pystr := last p [].

(** [str(path)] *)
Definition path_str (p : path) : pystr :=
  match p with
  | root :: rest => if str_eqb root (py "/") then root ++ join (py "/") rest
                    else join (py "/") p
  | [] => py "."
  end.

(** [x in path.parts] *)
Definition in_parts (x : pystr) (p : path) : bool := existsb (str_eqb x) p.

(** [name.rfind(".")], or -1 *)
Fixpoint rfind_dot (name : pystr) (i : Z) (found : Z) : Z :=
  match name with
  | [] => found
  | c :: rest => rfind_dot rest (i + 1) (if c =? 46 then i else found)
  end.

(** [path.suffix] *)
Definition path_suffix (p : path) : pystr :=
  let name := path_name p in
  let i := rfind_dot name 0 (-1) in
  if (0 <? i) && (i <? Z.of_nat (length name) - 1) then skipn (Z.to_nat i) name else [].

(** [sum(1 for line in f)] *)
Fixpoint count_lines (text : pystr) (pending : bool) : Z :=
  match text with
  | [] => b2z pending
  | c :: rest => if c =? 10 then 1 + count_lines rest false else count_lines rest true
  end.

Definition generate_id (fixture_path : path) : M pystr :=
  bytes <- lift (encode (path_str fixture_path)) ;;
  ret (firstn 16 (sha256_hexdigest bytes)).

(** [if name in parts: tags.append(name)] *)
Definition tag_if_part (fixture_path : path) (name : string) : list value :=
  if in_parts (py name) fixture_path then [VStr (py name)] else [].

Definition extract_tags (fixture_path : path) : list value :=
  tag_if_part fixture_path "unit" ++ tag_if_part fixture_path "integration"
  ++ tag_if_part fixture_path "performance" ++ tag_if_part fixture_path "stress"
  ++ tag_if_part fixture_path "conformance"
  ++ tag_if_part fixture_path "small" ++ tag_if_part fixture_path "medium"
  ++ tag_if_part fixture_path "large" ++ tag_if_part fixture_path "xlarge".

Definition get_transformations (fixture_path : path) : value := VList [].

(** Every exception of the body is caught and answered by 0. *)
Definition count_records (fixture_path : path) : Z :=
  match read_text fixture_path with
  | None => 0
  | Some text =>
      if str_eqb (path_suffix fixture_path) (py ".ndjson") then count_lines text false
      else
        match json_loads text with
        | None => 0
        | Some (VList data) => Z.of_nat (length data)
        | Some _ => 1
        end
  end.

Definition assess_quality (fixture_path : path) : M value :=
  now <- datetime_now ;;
  let records := count_records fixture_path in
  match stat_size fixture_path with
  | None => raise (stat_error fixture_path)
  | Some size =>
      ret (VDict
        [(py "validation",
          VDict [(py "timestamp", VStr (isoformat now));
                 (py "tool", VStr (py "jac_data_validator"));
                 (py "version", VStr (py "1.0.0"));
                 (py "results",
                  VDict [(py "format_valid", VBool true);
                         (py "schema_valid", VBool true);
                         (py "integrity_valid", VBool true);
                         (py "quality_score", VFloat FLOAT_0_95)]);
                 (py "issues", VList [])]);
         (py "metrics",
          VDict [(py "record_count", VInt records);
                 (py "file_size_bytes", VInt size);
                 (py "compression_ratio", VFloat FLOAT_1_0);
                 (py "encoding", VStr (py "utf-8"));
                 (py "line_ending", VStr (py "unix"))])])
  end.

Definition track_usage (fixture_path : path) : M value :=
  now <- datetime_now ;;
  ret (VDict
    [(py "test_runs", VList []);
     (py "access_count", VInt 0);
     (py "last_accessed", VStr (isoformat now));
     (py "access_patterns",
      VDict [(py "daily", VInt 0); (py "weekly", VInt 0); (py "monthly", VInt 0)])]).

Definition build_lineage (fixture_path : path) : value :=
  VDict [(py "nodes", VList []); (py "edges", VList [])].

Definition track_dependencies (fixture_path : path) : value :=
  VDict [(py "direct", VList []); (py "transitive", VList []); (py "tools", VList [])].

Definition check_compliance (fixture_path : path) : value :=
  VDict [(py "standards", VList []); (py "certifications", VList [])].

Definition build_audit_trail (fixture_path : path) : M value :=
  now <- datetime_now ;;
  ret (VList
    [VDict [(py "timestamp", VStr (isoformat now));
            (py "actor", VStr (py "system"));
            (py "action", VStr (py "provenance_generated"));
            (py "resource", VStr (path_str fixture_path));
            (py "details", VDict [(py "result", VStr (py "success"))])]]).

Definition generate_provenance (fixture_path : path) (source_info : value) : M dict :=
  id <- generate_id fixture_path ;;
  created_at <- datetime_now ;;
  let tags := extract_tags fixture_path in
  let transformations := get_transformations fixture_path in
  quality <- assess_quality fixture_path ;;
  usage <- track_usage fixture_path ;;
  let lineage := build_lineage fixture_path in
  let dependencies := track_dependencies fixture_path in
  let compliance := check_compliance fixture_path in
  audit_trail <- build_audit_trail fixture_path ;;
  ret [(py "provenance",
        VDict [(py "id", VStr id);
               (py "version", VStr (py "1.0.0"));
               (py "created_at", VStr (isoformat created_at));
               (py "created_by", VStr (py "system"));
               (py "description", VStr (py "Provenance for " ++ path_name fixture_path));
               (py "tags", VList tags);
               (py "status", VStr (py "active"))]);
       (py "source", source_info);
       (py "transformations", transformations);
       (py "quality", quality);
       (py "usage", usage);
       (py "lineage", lineage);
       (py "dependencies", dependencies);
       (py "compliance", compliance);
       (py "audit_trail", audit_trail)].

(** ** scripts/validate_provenance.py *)

Record validation_results : Type := {
  valid : bool;
  errors : list pystr;
  warnings : list pystr;
  check_schema_valid : bool;
  check_checksums_valid : bool;
  check_timestamps_valid : bool;
  check_dependencies_valid : bool
}.

Definition REQUIRED_FIELDS : list pystr :=
  [py "provenance"; py "source"; py "transformations"; py "quality"].

(** [s.startswith(a)] *)
Fixpoint str_startswith (s a : pystr) : bool :=
  match a, s with
  | [], _ => true
  | x :: a', y :: s' => (x =? y) && str_startswith s' a'
  | _ :: _, [] => false
  end.

(** [a in s] for two strings: [a] occurs somewhere in [s] *)
Fixpoint str_contains (s a : pystr) : bool :=
  str_startswith s a
  || match s with
     | [] => false
     | _ :: s' => str_contains s' a
     end.

(** [field in provenance], where [provenance] is whatever [json.load]
    returned: a key of an object, an element of an array, a substring of a
    string; [None], a boolean and a number are not iterable. *)
Definition contains (provenance : value) (field : pystr) : result bool :=
  match provenance with
  | VDict d => Ok (dict_mem field d)
  | VList l =>
      Ok (existsb (fun x => match x with
                            | VStr s => str_eqb field s
                            | _ => false
                            end) l)
  | VStr s => Ok (str_contains s field)
  | VNone | VBool _ | VInt _ | VFloat _ => Raise TypeError
  end.

(** [all(field in provenance for field in fields)]: the fields are tested in
    order, up to the first that is missing. *)
Fixpoint all_in (provenance : value) (fields : list pystr) : result bool :=
  match fields with
  | [] => Ok true
  | field :: rest =>
      match contains provenance field with
      | Ok true => all_in provenance rest
      | Ok false => Ok false
      | Raise e => Raise e
      end
  end.

Definition validate_schema (provenance : value) : result bool :=
  all_in provenance REQUIRED_FIELDS.

Definition validate_checksums (provenance : value) : bool := true.
Definition validate_timestamps (provenance : value) : bool := true.
Definition validate_dependencies (provenance : value) : bool := true.

(** The body of [validate_provenance] after [json.load]: [provenance] is the
    document read, any JSON value. *)
Definition validate_document (provenance : value) : result validation_results :=
  let r := {| valid := true; errors := []; warnings := [];
              check_schema_valid := false; check_checksums_valid := false;
              check_timestamps_valid := false; check_dependencies_valid := false |} in
  match validate_schema provenance with
  | Raise e => Raise e
  | Ok schema_valid =>
      let r :=
        if schema_valid then
          {| valid := valid r; errors := errors r; warnings := warnings r;
             check_schema_valid := true; check_checksums_valid := check_checksums_valid r;
             check_timestamps_valid := check_timestamps_valid r;
             check_dependencies_valid := check_dependencies_valid r |}
        else
          {| valid := false; errors := errors r ++ [py "Invalid provenance schema"];
             warnings := warnings r;
             check_schema_valid := check_schema_valid r;
             check_checksums_valid := check_checksums_valid r;
             check_timestamps_valid := check_timestamps_valid r;
             check_dependencies_valid := check_dependencies_valid r |} in
      let r :=
        if validate_checksums provenance then
          {| valid := valid r; errors := errors r; warnings := warnings r;
             check_schema_valid := check_schema_valid r; check_checksums_valid := true;
             check_timestamps_valid := check_timestamps_valid r;
             check_dependencies_valid := check_dependencies_valid r |}
        else
          {| valid := valid r; errors := errors r;
             warnings := warnings r ++ [py "Checksum validation failed"];
             check_schema_valid := check_schema_valid r;
             check_checksums_valid := check_checksums_valid r;
             check_timestamps_valid := check_timestamps_valid r;
             check_dependencies_valid := check_dependencies_valid r |} in
      let r :=
        if validate_timestamps provenance then
          {| valid := valid r; errors := errors r; warnings := warnings r;
             check_schema_valid := check_schema_valid r;
             check_checksums_valid := check_checksums_valid r;
             check_timestamps_valid := true;
             check_dependencies_valid := check_dependencies_valid r |}
        else
          {| valid := valid r; errors := errors r;
             warnings := warnings r ++ [py "Timestamp validation failed"];
             check_schema_valid := check_schema_valid r;
             check_checksums_valid := check_checksums_valid r;
             check_timestamps_valid := check_timestamps_valid r;
             check_dependencies_valid := check_dependencies_valid r |} in
      let r :=
        if validate_dependencies provenance then
          {| valid := valid r; errors := errors r; warnings := warnings r;
             check_schema_valid := check_schema_valid r;
             check_checksums_valid := check_checksums_valid r;
             check_timestamps_valid := check_timestamps_valid r;
             check_dependencies_valid := true |}
        else
          {| valid := valid r; errors := errors r;
             warnings := warnings r ++ [py "Dependency validation failed"];
             check_schema_valid := check_schema_valid r;
             check_checksums_valid := check_checksums_valid r;
             check_timestamps_valid := check_timestamps_valid r;
             check_dependencies_valid := check_dependencies_valid r |} in
      Ok r
  end.

(** [validate_provenance(provenance_file)]: the file is opened and parsed,
    then checked; what opening, reading or parsing raises is raised. *)
Definition validate_provenance (provenance_file : path) : result validation_results :=
  match read_text provenance_file with
  | None => Raise (read_error provenance_file)
  | Some text =>
      match json_loads text with
      | None => Raise JSONDecodeError
      | Some provenance => validate_document provenance
      end
  end.

(** ** Shapes of generated values *)

(** The nesting depth of objects in a value: 0 for a scalar, one more than
    its deepest field for a dict, that of its deepest element for a list. *)
Fixpoint nesting (v : value) : Z :=
  match v with
  | VDict d => 1 + fold_right (fun kv acc => Z.max (nesting (snd kv)) acc) 0 d
  | VList l => fold_right (fun x acc => Z.max (nesting x) acc) 0 l
  | _ => 0
  end.

(** [field_type in FIELD_TYPES] *)
Definition in_palette (field_type : pystr) : bool := existsb (str_eqb field_type) FIELD_TYPES.

(** The characters [generate_string] draws from *)
Definition PALETTE : pystr := ascii_letters ++ digits ++ punctuation.

Definition is_string (len : Z) (s : pystr) : Prop :=
  length s = Z.to_nat len /\ Forall (fun c => In c PALETTE) s.

(** [generate_string(random.choice(STRING_LENGTHS))] as a value *)
Definition is_random_string (v : value) : Prop :=
  exists s n, v = VStr s /\ In n STRING_LENGTHS /\ is_string n s.

(** What [generate_object depth] returns. *)
Definition object_ok (depth : Z) (d : dict) : Prop :=
  (length d <= 10)%nat /\ (depth <= 0 -> d = []) /\ nesting (VDict d) <= Z.max 1 depth.

(** An element of [generate_array size field_type]. *)
Definition elem_ok (field_type : pystr) (v : value) : Prop :=
  if str_eqb field_type (py "string") then is_random_string v
  else if str_eqb field_type (py "integer") then
    exists n, v = VInt n /\ -1000000 <= n <= 1000000
  else if str_eqb field_type (py "float") then exists f, v = VFloat f
  else if str_eqb field_type (py "boolean") then exists b, v = VBool b
  else if str_eqb field_type (py "null") then v = VNone
  else if str_eqb field_type (py "object") then
    exists d depth, v = VDict d /\ 1 <= depth <= 5 /\ object_ok depth d
  else if str_eqb field_type (py "array") then
    exists l, v = VList l /\ (1 <= length l <= 10)%nat /\ Forall is_random_string l
  else False.

(** What [generate_array size field_type] returns: [size] elements of the
    type asked for, none when the type is not in the palette. *)
Definition array_ok (size : Z) (field_type : pystr) (l : list value) : Prop :=
  length l = (if in_palette field_type then Z.to_nat size else 0%nat)
  /\ Forall (elem_ok field_type) l.

End Program.

Arguments world G : clear implicits.
Arguments M G A : clear implicits.

Notation "x <- m ;; k" := (bind m (fun x => k))
  (at level 61, m at next level, right associativity).

(** [f"field_{i}"] *)
Definition field_name (i : Z) : pystr := py "field_" ++ str_of_Z i.

(** The positions, counted from [i], of the field types that are in the palette. *)
Fixpoint palette_positions (i : Z) (field_types : list pystr) : list Z :=
  match field_types with
  | [] => []
  | t :: ts => (if in_palette t then [i] else []) ++ palette_positions (i + 1) ts
  end.

(** The four code-point ranges [generate_unicode_string] draws from. *)
Definition in_unicode_bands (c : Z) : Prop :=
  32 <= c <= 126 \/ 128 <= c <= 255 \/ 256 <= c <= 65535 \/ 65536 <= c <= 1114111.

Definition is_unicode_string (len : Z) (s : pystr) : Prop :=
  length s = Z.to_nat len /\ Forall in_unicode_bands s.

(** [generate_integer()] and [generate_float()] as values *)
Definition is_integer_value (v : value) : Prop :=
  exists n, v = VInt n /\ -1000000 <= n <= 1000000.

Definition is_float_value (v : value) : Prop := exists f, v = VFloat f.

(** The eight records of [generate_edge_case_data], in order. *)
Definition edge_case_shape (records : list value) : Prop :=
  exists s1 s2 s3 u1 u2 u3 o1 o2 o3 a1 a2 a3,
    records =
      [VDict [];
       fields3 VNone VNone VNone;
       fields3 (VStr []) (VStr []) (VStr []);
       fields3 (VStr s1) (VStr s2) (VStr s3);
       fields3 (VInt (2 ^ 63 - 1)) (VInt (- 2 ^ 63)) (VFloat MAX_DOUBLE);
       fields3 (VStr u1) (VStr u2) (VStr u3);
       fields3 (VDict o1) (VDict o2) (VDict o3);
       fields3 (VList a1) (VList a2) (VList a3)]
    /\ (is_string 100000 s1 /\ is_string 100000 s2 /\ is_string 100000 s3)
    /\ (is_unicode_string 100 u1 /\ is_unicode_string 100 u2 /\ is_unicode_string 100 u3)
    /\ (object_ok 5 o1 /\ object_ok 5 o2 /\ object_ok 5 o3)
    /\ ((Z.of_nat (length a1) = 10000 /\ Forall is_random_string a1)
        /\ (Z.of_nat (length a2) = 10000 /\ Forall is_integer_value a2)
        /\ (Z.of_nat (length a3) = 10000 /\ Forall is_float_value a3)).

(** Record [i] of [generate_compression_test_data]. *)
Definition compression_record (base_string : pystr) (base_object : dict) (i : nat)
    (r : value) : Prop :=
  exists varying now,
    r = VDict [(py "id", VInt (Z.of_nat i));
               (py "base_string", VStr base_string);
               (py "base_object", VDict base_object);
               (py "varying_field", VStr varying);
               (py "timestamp", VStr (isoformat now))]
    /\ is_string 10 varying.

Definition compression_shape (count : Z) (records : list value) : Prop :=
  exists base_string base_object,
    is_string 1000 base_string /\ object_ok 2 base_object
    /\ length records = Z.to_nat count
    /\ forall i r, nth_error records i = Some r ->
                   compression_record base_string base_object i r.

(** A record of [generate_time_series_data] stamped with the time [t]. *)
Definition time_series_record (t : datetime) (r : value) : Prop :=
  exists v category level message n,
    r = VDict [(py "timestamp", VStr (isoformat t));
               (py "value", VFloat v);
               (py "category", VStr category);
               (py "level", VStr level);
               (py "message", VStr message)]
    /\ In category [py "A"; py "B"; py "C"; py "D"]
    /\ In level [py "DEBUG"; py "INFO"; py "WARN"; py "ERROR"]
    /\ 10 <= n <= 100 /\ is_string n message.

(** Each time exceeds the one before it by 1 to 3600 seconds. *)
Fixpoint steps_ok (times : list datetime) : Prop :=
  match times with
  | t :: rest =>
      match rest with
      | t' :: _ => timedelta_seconds 1 <= t' - t <= timedelta_seconds 3600
      | [] => True
      end /\ steps_ok rest
  | [] => True
  end.


(** The code-point band a character of [generate_unicode_string] is drawn
    from, by the three calls of [random.random()] its branches make: the
    second is made when the first is not below 0.3, the third when the second
    is not below 0.5. *)
Inductive band : Type := Ascii | Latin1 | Bmp | Supplementary.

Definition band_of_draws (r1 r2 r3 : Z) : band :=
  if draw_ltb r1 FLOAT_0_3 then Ascii
  else if draw_ltb r2 FLOAT_0_5 then Latin1
  else if draw_ltb r3 FLOAT_0_7 then Bmp
  else Supplementary.

Definition band_range (b : band) : Z * Z :=
  match b with
  | Ascii => (32, 126)
  | Latin1 => (128, 255)
  | Bmp => (256, 65535)
  | Supplementary => (65536, 1114111)
  end.

Definition band_eqb (a b : band) : bool :=
  match a, b with
  | Ascii, Ascii | Latin1, Latin1 | Bmp, Bmp | Supplementary, Supplementary => true
  | _, _ => false
  end.

(** The draws of the scripted source that one character consumes. *)
Definition band_tape (r1 r2 r3 : Z) : list Z :=
  match band_of_draws r1 r2 r3 with
  | Ascii => [r1]
  | Latin1 => [r1; r2]
  | _ => [r1; r2; r3]
  end.

(** [sum f(k) for k in range(n)] *)
Fixpoint sum_below (n : nat) (f : Z -> Z) : Z :=
  match n with
  | O => 0
  | S n' => sum_below n' f + f (Z.of_nat n')
  end.

(** [random.random()] has [2^53] equally likely values. *)
Definition DRAWS : nat := Z.to_nat (2 ^ 53).

(** The number of triples of draws that select the band [b]. *)
Definition band_count (b : band) : Z :=
  sum_below DRAWS (fun r1 =>
    sum_below DRAWS (fun r2 =>
      sum_below DRAWS (fun r3 => b2z (band_eqb (band_of_draws r1 r2 r3) b)))).

(** ** Concrete worlds, for evaluation *)

(** A world over the scripted source. *)
Definition tape_world (tape : list Z) (wall : nat -> datetime) : world (list Z) :=
  {| rng := tape; clock := wall; reads := 0 |}.

(** A wall clock that starts at [t0] and advances one second per reading. *)
Definition ticking (t0 : datetime) (n : nat) : datetime := t0 + Z.of_nat n * US_PER_SECOND.

(** A platform with no file to read, a file system that lets every write
    through, and digits for digests. *)
#[export] Instance ToyPlatform : Platform := {
  float_repr := fun _ => py "0.0";
  sha256_hexdigest := fun bytes => str_of_Z (fold_left (fun h b => (h * 31 + b) mod 2 ^ 64) bytes 7);
  sys_version := py "3";
  posix_float := fun _ => float_of_Z 0;
  stat_size := fun _ => None;
  stat_error := fun _ => FileNotFoundError;
  read_text := fun _ => None;
  read_error := fun _ => FileNotFoundError;
  json_loads := fun _ => None;
  fs_raises := fun _ _ => None
}.

(** * Properties *)

Section Properties.

Context {G : Type} {RS : RandomSource G} {PF : Platform}.


(** ** Strings and dicts *)

Lemma str_eqb_eq : forall a b, str_eqb a b = true <-> a = b.
Proof.
  induction a as [|x a IH]; destruct b as [|y b]; simpl; split; intros H;
    try reflexivity; try discriminate.
  - apply andb_true_iff in H. destruct H as [H1 H2].
    apply Z.eqb_eq in H1. apply IH in H2. subst. reflexivity.
  - inversion H; subst. rewrite Z.eqb_refl. simpl. apply IH. reflexivity.
Qed.

Lemma str_eqb_refl : forall a, str_eqb a a = true.
Proof. intros a. apply str_eqb_eq. reflexivity. Qed.

Lemma str_eqb_neq : forall a b, str_eqb a b = false <-> a <> b.
Proof.
  intros a b. split.
  - intros H E. apply str_eqb_eq in E. congruence.
  - intros H. destruct (str_eqb a b) eqn:E; [apply str_eqb_eq in E; contradiction | reflexivity].
Qed.





(** ** The provenance validator (C9) *)

(** The report for a document that passes, and for one that fails, the schema
    check. *)
Definition REPORT_VALID : validation_results :=
  {| valid := true; errors := []; warnings := [];
     check_schema_valid := true; check_checksums_valid := true;
     check_timestamps_valid := true; check_dependencies_valid := true |}.

Definition REPORT_INVALID : validation_results :=
  {| valid := false; errors := [py "Invalid provenance schema"]; warnings := [];
     check_schema_valid := false; check_checksums_valid := true;
     check_timestamps_valid := true; check_dependencies_valid := true |}.

Lemma validate_document_report : forall provenance,
  validate_document provenance =
    match validate_schema provenance with
    | Ok true => Ok REPORT_VALID
    | Ok false => Ok REPORT_INVALID
    | Raise e => Raise e
    end.
Proof.
  intros provenance. unfold validate_document.
  destruct (validate_schema provenance) as [[|]|e]; reflexivity.
Qed.

(** The four tests of the schema check, when no test raises. *)
Lemma validate_schema_four : forall provenance (test : pystr -> bool),
  (forall field, contains provenance field = Ok (test field)) ->
  validate_schema provenance
  = Ok (test (py "provenance") && test (py "source")
        && test (py "transformations") && test (py "quality")).
Proof.
  intros provenance test H. unfold validate_schema, REQUIRED_FIELDS.
  cbn [all_in]. rewrite !H.
  destruct (test (py "provenance")), (test (py "source")),
    (test (py "transformations")), (test (py "quality")); reflexivity.
Qed.

Lemma validate_schema_not_iterable : forall provenance,
  contains provenance (py "provenance") = Raise TypeError ->
  validate_schema provenance = Raise TypeError.
Proof.
  intros provenance H. unfold validate_schema, REQUIRED_FIELDS.
  cbn [all_in]. rewrite H. reflexivity.
Qed.

Lemma report_of_tests : forall a b c d : bool,
  exists r,
    match Ok (a && b && c && d) with
    | Ok true => Ok REPORT_VALID
    | Ok false => Ok REPORT_INVALID
    | Raise e => Raise e
    end = Ok r
    /\ ((valid r = true /\ errors r = [])
        <-> (a = true /\ b = true /\ c = true /\ d = true))
    /\ ((valid r = false /\ errors r = [py "Invalid provenance schema"])
        <-> (a = false \/ b = false \/ c = false \/ d = false))
    /\ warnings r = []
    /\ (valid r = true <-> (a = true /\ b = true /\ c = true /\ d = true)).
Proof.
  intros [|] [|] [|] [|]; eexists; (split; [reflexivity|]); cbn;
    intuition (try discriminate; try reflexivity).
Qed.

Lemma existsb_VStr : forall field l,
  existsb (fun x => match x with
                    | VStr s => str_eqb field s
                    | _ => false
                    end) l = true
  <-> In (VStr field) l.
Proof.
  intros field l. rewrite existsb_exists. split.
  - intros [x [Hx E]]. destruct x; try discriminate.
    apply str_eqb_eq in E. subst. exact Hx.
  - intros H. exists (VStr field). split; [exact H | apply str_eqb_refl].
Qed.

Lemma generate_provenance_outcome : forall fixture_path source_info (w : world G),
  match generate_provenance fixture_path source_info w with
  | Ok (doc, _) =>
      dict_keys doc =
        [py "provenance"; py "source"; py "transformations"; py "quality"; py "usage";
         py "lineage"; py "dependencies"; py "compliance"; py "audit_trail"]
      /\ stat_size fixture_path <> None
  | Raise e =>
      (e = UnicodeEncodeError /\ encode (path_str fixture_path) = Raise UnicodeEncodeError)
      \/ (e = stat_error fixture_path /\ stat_size fixture_path = None)
  end.
Proof.
  intros fixture_path source_info w.
  unfold generate_provenance, generate_id, assess_quality, track_usage,
    build_audit_trail, bind, lift, ret, raise, datetime_now.
  destruct (encode (path_str fixture_path)) as [bytes|e] eqn:Eenc.
  - destruct (stat_size fixture_path) as [size|] eqn:Estat.
    + split; [reflexivity | discriminate].
    + right. split; reflexivity.
  - left. assert (e = UnicodeEncodeError) as ->; [|split; reflexivity].
    clear - Eenc. revert e Eenc. generalize (path_str fixture_path) as s.
    induction s as [|c s IH]; intros e H; simpl in H; [discriminate|].
    destruct (utf8_char c) as [b|e1] eqn:Ec.
    * destruct (encode s) as [bs|e2]; [discriminate|].
      inversion H; subst. apply IH. reflexivity.
    * inversion H; subst. unfold utf8_char in Ec.
      repeat match type of Ec with
             | (if ?c then _ else _) = _ => destruct c
             end; try discriminate; congruence.
Qed.

(** C9. What [validate_provenance] reports, by the kind of document
    [json.load] returned.  For a JSON object the report is valid, with no
    error, exactly when the four keys provenance, source, transformations and
    quality are all present, a missing key is the only source of an error and
    of [valid = False], and nothing adds a warning.  The test is
    [field in provenance] on whatever was read, and nothing checks that it is
    an object: an array is reported valid when the four names are among its
    elements, a string when the four names occur in it, and [None], a boolean
    or a number raises [TypeError] and gives no report.  So the array of the
    four names, which has no key at all, is reported valid.  Every document
    [generate_provenance] returns is an object holding the four keys and is
    reported valid; [generate_provenance] fails to return only when the path
    cannot be encoded or [stat] raises. *)
Theorem validate_provenance_by_document_kind :
  (forall d : dict,
     exists r,
       validate_document (VDict d) = Ok r
       /\ ((valid r = true /\ errors r = [])
           <-> (dict_mem (py "provenance") d = true /\ dict_mem (py "source") d = true
                /\ dict_mem (py "transformations") d = true
                /\ dict_mem (py "quality") d = true))
       /\ ((valid r = false /\ errors r = [py "Invalid provenance schema"])
           <-> (dict_mem (py "provenance") d = false \/ dict_mem (py "source") d = false
                \/ dict_mem (py "transformations") d = false
                \/ dict_mem (py "quality") d = false))
       /\ warnings r = [])
  /\ (forall l : list value,
        exists r,
          validate_document (VList l) = Ok r
          /\ (valid r = true
              <-> (In (VStr (py "provenance")) l /\ In (VStr (py "source")) l
                   /\ In (VStr (py "transformations")) l /\ In (VStr (py "quality")) l)))
  /\ (forall s : pystr,
        exists r,
          validate_document (VStr s) = Ok r
          /\ (valid r = true
              <-> (str_contains s (py "provenance") = true
                   /\ str_contains s (py "source") = true
                   /\ str_contains s (py "transformations") = true
                   /\ str_contains s (py "quality") = true)))
  /\ (forall v : value,
        match v with
        | VDict _ | VList _ | VStr _ => True
        | VNone | VBool _ | VInt _ | VFloat _ => validate_document v = Raise TypeError
        end)
  /\ validate_document
       (VList [VStr (py "provenance"); VStr (py "source"); VStr (py "transformations");
               VStr (py "quality")])
     = Ok REPORT_VALID
  /\ (forall provenance_file,
        validate_provenance provenance_file
        = match read_text provenance_file with
          | None => Raise (read_error provenance_file)
          | Some text =>
              match json_loads text with
              | None => Raise JSONDecodeError
              | Some provenance => validate_document provenance
              end
          end)
  /\ (forall fixture_path source_info (w : world G),
        match generate_provenance fixture_path source_info w with
        | Ok (doc, _) =>
            dict_mem (py "provenance") doc = true /\ dict_mem (py "source") doc = true
            /\ dict_mem (py "transformations") doc = true
            /\ dict_mem (py "quality") doc = true
            /\ validate_document (VDict doc) = Ok REPORT_VALID
        | Raise e =>
            (e = UnicodeEncodeError
             /\ encode (path_str fixture_path) = Raise UnicodeEncodeError)
            \/ (e = stat_error fixture_path /\ stat_size fixture_path = None)
        end).
Proof.
  split; [|split; [|split; [|split; [|split; [|split]]]]].
  - intros d. rewrite validate_document_report.
    rewrite (validate_schema_four (VDict d) (fun field => dict_mem field d))
      by (intros field; reflexivity).
    destruct (report_of_tests (dict_mem (py "provenance") d) (dict_mem (py "source") d)
                (dict_mem (py "transformations") d) (dict_mem (py "quality") d))
      as (r & E & Hvalid & Hinvalid & Hwarn & _).
    exists r. auto.
  - intros l. rewrite validate_document_report.
    pose (test := fun field => existsb (fun x => match x with
                                                 | VStr s => str_eqb field s
                                                 | _ => false
                                                 end) l).
    rewrite (validate_schema_four (VList l) test) by (intros field; reflexivity).
    destruct (report_of_tests (test (py "provenance")) (test (py "source"))
                (test (py "transformations")) (test (py "quality")))
      as (r & E & _ & _ & _ & Hvalid).
    exists r. split; [exact E|]. unfold test in Hvalid.
    rewrite <- !existsb_VStr. exact Hvalid.
  - intros s0. rewrite validate_document_report.
    rewrite (validate_schema_four (VStr s0) (fun field => str_contains s0 field))
      by (intros field; reflexivity).
    destruct (report_of_tests (str_contains s0 (py "provenance"))
                (str_contains s0 (py "source")) (str_contains s0 (py "transformations"))
                (str_contains s0 (py "quality")))
      as (r & E & _ & _ & _ & Hvalid).
    exists r. auto.
  - intros v. destruct v; try exact I;
      rewrite validate_document_report, validate_schema_not_iterable; reflexivity.
  - reflexivity.
  - intros provenance_file. reflexivity.
  - intros fixture_path source_info w.
    pose proof (generate_provenance_outcome fixture_path source_info w) as H.
    destruct (generate_provenance fixture_path source_info w) as [[doc w']|e]; [|exact H].
    destruct H as [Hkeys _].
    assert (Hmem : forall field,
              In field [py "provenance"; py "source"; py "transformations"; py "quality"] ->
              dict_mem field doc = true).
    { intros field Hin. unfold dict_mem. apply existsb_exists.
      assert (Hk : In field (dict_keys doc)) by (rewrite Hkeys; simpl in *; tauto).
      unfold dict_keys in Hk. apply in_map_iff in Hk. destruct Hk as [kv [<- Hkv]].
      exists kv. split; [exact Hkv | apply str_eqb_refl]. }
    assert (H1 := Hmem (py "provenance") ltac:(simpl; tauto)).
    assert (H2 := Hmem (py "source") ltac:(simpl; tauto)).
    assert (H3 := Hmem (py "transformations") ltac:(simpl; tauto)).
    assert (H4 := Hmem (py "quality") ltac:(simpl; tauto)).
    repeat (split; [assumption|]).
    rewrite validate_document_report.
    rewrite (validate_schema_four (VDict doc) (fun field => dict_mem field doc))
      by (intros field; reflexivity).
    rewrite H1, H2, H3, H4. reflexivity.
Qed.

(** ** Reasoning about computations

    [returns m P]: from every world, [m] returns (it raises nothing) and its
    result satisfies [P]. *)
Definition returns {A : Type} (m : M G A) (P : A -> Prop) : Prop :=
  forall w, exists a w', m w = Ok (a, w') /\ P a.

Lemma returns_ret : forall {A : Type} (a : A) (P : A -> Prop), P a -> returns (ret a) P.
Proof. intros A a P H w. exists a, w. split; [reflexivity | exact H]. Qed.

Lemma returns_bind : forall {A B : Type} (m : M G A) (f : A -> M G B) (P : A -> Prop)
    (Q : B -> Prop),
  returns m P -> (forall a, P a -> returns (f a) Q) -> returns (bind m f) Q.
Proof.
  intros A B m f P Q Hm Hf w. destruct (Hm w) as (a & w1 & E & Ha).
  destruct (Hf a Ha w1) as (b & w2 & E2 & Hb).
  exists b, w2. unfold bind. rewrite E. split; assumption.
Qed.

Lemma returns_impl : forall {A : Type} (m : M G A) (P Q : A -> Prop),
  returns m P -> (forall a, P a -> Q a) -> returns m Q.
Proof.
  intros A m P Q Hm H w. destruct (Hm w) as (a & w' & E & Ha).
  exists a, w'. split; [exact E | apply H; exact Ha].
Qed.

Lemma returns_for_loop : forall {A : Type} (Inv : Z -> A -> Prop) (body : Z -> A -> M G A)
    (n : nat) (i : Z) (acc : A),
  Inv i acc ->
  (forall j a, i <= j < i + Z.of_nat n -> Inv j a -> returns (body j a) (Inv (j + 1))) ->
  returns (for_loop n i body acc) (Inv (i + Z.of_nat n)).
Proof.
  intros A Inv body n. induction n as [|n IH]; intros i acc H0 Hstep.
  - cbn [for_loop]. apply returns_ret. replace (i + Z.of_nat 0) with i by lia. exact H0.
  - cbn [for_loop]. apply returns_bind with (P := Inv (i + 1)).
    + apply Hstep; [lia | exact H0].
    + intros a Ha. replace (i + Z.of_nat (S n)) with (i + 1 + Z.of_nat n) by lia.
      apply IH; [exact Ha|]. intros j b Hj. apply Hstep. lia.
Qed.

Lemma returns_for_range : forall {A : Type} (Inv : Z -> A -> Prop) (body : Z -> A -> M G A)
    (count : Z) (acc : A),
  Inv 0 acc ->
  (forall j a, 0 <= j < Z.max 0 count -> Inv j a -> returns (body j a) (Inv (j + 1))) ->
  returns (for_range count body acc) (Inv (Z.max 0 count)).
Proof.
  intros A Inv body count acc H0 Hstep. unfold for_range.
  replace (Z.max 0 count) with (0 + Z.of_nat (Z.to_nat count)) by lia.
  apply returns_for_loop; [exact H0|]. intros j a Hj. apply Hstep. lia.
Qed.

Lemma returns_for_enumerate : forall {A X : Type} (Inv : Z -> A -> Prop)
    (body : Z -> X -> A -> M G A) (xs : list X) (i : Z) (acc : A),
  Inv i acc ->
  (forall k x a, nth_error xs k = Some x -> Inv (i + Z.of_nat k) a ->
                 returns (body (i + Z.of_nat k) x a) (Inv (i + Z.of_nat k + 1))) ->
  returns (for_enumerate i xs body acc) (Inv (i + Z.of_nat (length xs))).
Proof.
  intros A X Inv body xs. induction xs as [|x xs IH]; intros i acc H0 Hstep.
  - cbn [for_enumerate length]. apply returns_ret.
    replace (i + Z.of_nat 0) with i by lia. exact H0.
  - cbn [for_enumerate]. apply returns_bind with (P := Inv (i + 1)).
    + specialize (Hstep 0%nat x acc eq_refl).
      replace (i + Z.of_nat 0) with i in Hstep by lia. apply Hstep. exact H0.
    + intros a Ha.
      replace (i + Z.of_nat (length (x :: xs))) with (i + 1 + Z.of_nat (length xs))
        by (simpl length; lia).
      apply IH; [exact Ha|]. intros k y b Hk Hb.
      specialize (Hstep (S k) y b Hk).
      replace (i + Z.of_nat (S k)) with (i + 1 + Z.of_nat k) in Hstep by lia.
      apply Hstep. exact Hb.
Qed.

Lemma returns_random : returns random (fun k => 0 <= k < 2 ^ 53).
Proof.
  intros w. unfold random. pose proof (rand_random_range (rng w)) as H.
  destruct (rand_random (rng w)) as [k s]. exists k, (with_rng w s).
  split; [reflexivity | exact H].
Qed.

Lemma returns_randbelow : forall n, 0 < n -> returns (randbelow n) (fun k => 0 <= k < n).
Proof.
  intros n Hn w. unfold randbelow. pose proof (rand_below_range n (rng w) Hn) as H.
  destruct (rand_below n (rng w)) as [k s]. exists k, (with_rng w s).
  split; [reflexivity | exact H].
Qed.

Lemma returns_pick : forall n, 0 < n -> returns (pick n) (fun k => 0 <= k < n).
Proof.
  intros n Hn w. unfold pick. pose proof (rand_pick_range n (rng w) Hn) as H.
  destruct (rand_pick n (rng w)) as [k s]. exists k, (with_rng w s).
  split; [reflexivity | exact H].
Qed.

Lemma returns_randint : forall a b, a <= b -> returns (randint a b) (fun k => a <= k <= b).
Proof.
  intros a b Hab. unfold randint.
  destruct (b <? a) eqn:E; [apply Z.ltb_lt in E; lia|].
  apply returns_bind with (P := fun k => 0 <= k < b - a + 1).
  - apply returns_randbelow. lia.
  - intros k Hk. apply returns_ret. lia.
Qed.

Lemma returns_index : forall {A : Type} (seq : list A) (i : Z),
  0 <= i < Z.of_nat (length seq) -> returns (index seq i) (fun x => In x seq).
Proof.
  intros A seq i Hi. unfold index.
  destruct (nth_error seq (Z.to_nat i)) as [x|] eqn:E.
  - apply returns_ret. apply nth_error_In with (n := Z.to_nat i). exact E.
  - apply nth_error_None in E. lia.
Qed.

Lemma returns_choice : forall {A : Type} (seq : list A),
  seq <> [] -> returns (choice seq) (fun x => In x seq).
Proof.
  intros A seq Hne. unfold choice. destruct seq as [|x0 seq0] eqn:Eseq; [contradiction|].
  rewrite <- Eseq.
  apply returns_bind with (P := fun i => 0 <= i < Z.of_nat (length seq)).
  - apply returns_randbelow. subst seq. simpl length. lia.
  - intros i Hi. apply returns_index. exact Hi.
Qed.

Lemma returns_choices : forall {A : Type} (population : list A) (k : Z),
  population <> [] ->
  returns (choices population k)
    (fun l => length l = Z.to_nat k /\ Forall (fun x => In x population) l).
Proof.
  intros A population k Hne. unfold choices.
  pose (Inv := fun (j : Z) (l : list A) =>
                 Z.of_nat (length l) = j /\ Forall (fun x => In x population) l).
  apply returns_impl with (P := Inv (Z.max 0 k)).
  - apply (returns_for_range Inv).
    + split; [reflexivity | constructor].
    + intros j l Hj [Hlen Hall].
      apply returns_bind with (P := fun i => 0 <= i < Z.of_nat (length population)).
      * apply returns_pick. destruct population; [contradiction | simpl length; lia].
      * intros i Hi. apply returns_bind with (P := fun x => In x population).
        -- apply returns_index. exact Hi.
        -- intros x Hx. apply returns_ret. split.
           ++ rewrite length_app. simpl length. lia.
           ++ apply Forall_app. split; [exact Hall | constructor; [exact Hx | constructor]].
  - intros l [Hlen Hall]. split; [lia | exact Hall].
Qed.

Lemma returns_chr : forall n, 0 <= n <= 1114111 -> returns (chr n) (fun c => c = [n]).
Proof.
  intros n Hn. unfold chr.
  destruct ((0 <=? n) && (n <=? 1114111)) eqn:E.
  - apply returns_ret. reflexivity.
  - apply andb_false_iff in E. destruct E as [E|E]; [apply Z.leb_gt in E | apply Z.leb_gt in E]; lia.
Qed.

Lemma returns_uniform : forall a b, returns (uniform a b) (fun _ => True).
Proof.
  intros a b. unfold uniform. apply returns_bind with (P := fun _ => True).
  - apply returns_impl with (1 := returns_random). trivial.
  - intros k _. apply returns_ret. exact I.
Qed.

Lemma returns_datetime_now : returns datetime_now (fun _ => True).
Proof. intros w. unfold datetime_now. eexists _, _. split; [reflexivity | exact I]. Qed.

(** ** What the generators return *)

Lemma returns_generate_string : forall len, returns (generate_string len) (is_string len).
Proof.
  intros len. unfold generate_string. destruct (len =? 0) eqn:E.
  - apply Z.eqb_eq in E. subst. apply returns_ret. split; [reflexivity | constructor].
  - apply returns_choices. discriminate.
Qed.

Lemma returns_random_string :
  returns (n <- choice STRING_LENGTHS ;; generate_string n)
    (fun s => is_random_string (VStr s)).
Proof.
  apply returns_bind with (P := fun n => In n STRING_LENGTHS).
  - apply returns_choice. discriminate.
  - intros n Hn. apply returns_impl with (1 := returns_generate_string n).
    intros s Hs. exists s, n. auto.
Qed.

Lemma returns_generate_integer_default :
  returns generate_integer_default (fun n => -1000000 <= n <= 1000000).
Proof. apply returns_randint. lia. Qed.

Lemma returns_generate_float_default : returns generate_float_default (fun _ => True).
Proof. apply returns_uniform. Qed.

Lemma returns_generate_boolean : returns generate_boolean (fun _ => True).
Proof.
  apply returns_impl with (P := fun b => In b [true; false]); [|trivial].
  apply returns_choice. discriminate.
Qed.

Lemma dict_set_length : forall k v d, (length (dict_set k v d) <= S (length d))%nat.
Proof.
  intros k v d. induction d as [|[k' v'] d IH]; simpl; [lia|].
  destruct (str_eqb k k'); simpl; lia.
Qed.

Lemma dict_set_Forall : forall (Q : value -> Prop) k v d,
  Forall (fun kv => Q (snd kv)) d -> Q v -> Forall (fun kv => Q (snd kv)) (dict_set k v d).
Proof.
  intros Q k v d Hd Hv. induction Hd as [|[k' v'] d Hk Hd IH]; simpl.
  - constructor; [exact Hv | constructor].
  - destruct (str_eqb k k'); constructor; auto.
Qed.

Lemma nesting_dict_le : forall d n,
  0 <= n -> Forall (fun kv => nesting (snd kv) <= n) d -> nesting (VDict d) <= 1 + n.
Proof.
  intros d n Hn H. cbn [nesting].
  enough (fold_right (fun kv acc => Z.max (nesting (snd kv)) acc) 0 d <= n) by lia.
  induction H as [|kv d Hkv Hd IH]; simpl; lia.
Qed.

Lemma nesting_list_le : forall l n,
  0 <= n -> Forall (fun x => nesting x <= n) l -> nesting (VList l) <= n.
Proof.
  intros l n Hn H. cbn [nesting].
  induction H as [|x l Hx Hl IH]; simpl; lia.
Qed.

Lemma nesting_random_strings : forall l, Forall is_random_string l -> nesting (VList l) <= 0.
Proof.
  intros l H. apply nesting_list_le; [lia|].
  apply Forall_impl with (2 := H). intros v (s & n & -> & _). simpl. lia.
Qed.

Lemma array_ok_nil : forall ft, array_ok 0 ft [].
Proof. intros ft. split; [destruct (in_palette ft); reflexivity | constructor]. Qed.

Lemma in_palette_false : forall ft,
  str_eqb ft (py "string") = false -> str_eqb ft (py "integer") = false ->
  str_eqb ft (py "float") = false -> str_eqb ft (py "boolean") = false ->
  str_eqb ft (py "null") = false -> str_eqb ft (py "object") = false ->
  str_eqb ft (py "array") = false -> in_palette ft = false.
Proof.
  intros ft H1 H2 H3 H4 H5 H6 H7. unfold in_palette, FIELD_TYPES. cbn [existsb].
  rewrite H1, H2, H3, H4, H5, H6, H7. reflexivity.
Qed.

Lemma in_palette_true : forall ft t,
  In t FIELD_TYPES -> str_eqb ft t = true -> in_palette ft = true.
Proof.
  intros ft t Hin E. unfold in_palette. apply existsb_exists. exists t. auto.
Qed.

(** One call of [generate_array], given what its recursive calls return. *)
Lemma returns_generate_array_step : forall fuel size ft,
  (str_eqb ft (py "object") = true ->
   forall d, 1 <= d <= 5 -> returns (generate_object_fuel fuel d) (object_ok d)) ->
  (str_eqb ft (py "array") = true ->
   forall n, returns (generate_array_fuel fuel n (py "string")) (array_ok n (py "string"))) ->
  returns (generate_array_fuel (S fuel) size ft) (array_ok size ft).
Proof.
  intros fuel size ft Hobj Harr. cbn [generate_array_fuel].
  destruct (size =? 0) eqn:Esize.
  { apply Z.eqb_eq in Esize. subst. apply returns_ret. apply array_ok_nil. }
  pose (Inv := fun (j : Z) (l : list value) =>
                 Z.of_nat (length l) = (if in_palette ft then j else 0)
                 /\ Forall (elem_ok ft) l).
  apply returns_impl with (P := Inv (Z.max 0 size)).
  2:{ intros l [Hlen Hall]. split; [|exact Hall].
      destruct (in_palette ft); cbv iota in Hlen |- *; lia. }
  apply (returns_for_range Inv).
  { split; [destruct (in_palette ft); reflexivity | constructor]. }
  intros j array Hj [Hlen Hall].
  assert (Hpush : forall v, in_palette ft = true -> elem_ok ft v -> Inv (j + 1) (array ++ [v])).
  { intros v Hp Hv. split.
    - rewrite length_app. cbn [length]. rewrite Hp in Hlen |- *. lia.
    - apply Forall_app. split; [exact Hall | constructor; [exact Hv | constructor]]. }
  destruct (str_eqb ft (py "string")) eqn:E1.
  { eapply returns_bind; [apply returns_choice; discriminate|]. intros n Hn.
    eapply returns_bind; [apply returns_generate_string|]. intros s0 Hs.
    apply returns_ret. apply Hpush.
    - apply in_palette_true with (t := py "string"); [simpl; tauto | exact E1].
    - unfold elem_ok. rewrite E1. exists s0, n. auto. }
  destruct (str_eqb ft (py "integer")) eqn:E2.
  { eapply returns_bind; [apply returns_generate_integer_default|]. intros n Hn.
    apply returns_ret. apply Hpush.
    - apply in_palette_true with (t := py "integer"); [simpl; tauto | exact E2].
    - unfold elem_ok. rewrite E1, E2. exists n. auto. }
  destruct (str_eqb ft (py "float")) eqn:E3.
  { eapply returns_bind; [apply returns_generate_float_default|]. intros f _.
    apply returns_ret. apply Hpush.
    - apply in_palette_true with (t := py "float"); [simpl; tauto | exact E3].
    - unfold elem_ok. rewrite E1, E2, E3. exists f. reflexivity. }
  destruct (str_eqb ft (py "boolean")) eqn:E4.
  { eapply returns_bind; [apply returns_generate_boolean|]. intros b _.
    apply returns_ret. apply Hpush.
    - apply in_palette_true with (t := py "boolean"); [simpl; tauto | exact E4].
    - unfold elem_ok. rewrite E1, E2, E3, E4. exists b. reflexivity. }
  destruct (str_eqb ft (py "null")) eqn:E5.
  { unfold generate_null. eapply returns_bind; [apply returns_ret with (P := eq VNone); reflexivity|].
    intros v <-. apply returns_ret. apply Hpush.
    - apply in_palette_true with (t := py "null"); [simpl; tauto | exact E5].
    - unfold elem_ok. rewrite E1, E2, E3, E4, E5. reflexivity. }
  destruct (str_eqb ft (py "object")) eqn:E6.
  { eapply returns_bind; [apply returns_randint; lia|]. intros d Hd.
    eapply returns_bind; [apply (Hobj eq_refl d Hd)|]. intros o Ho.
    apply returns_ret. apply Hpush.
    - apply in_palette_true with (t := py "object"); [simpl; tauto | exact E6].
    - unfold elem_ok. rewrite E1, E2, E3, E4, E5, E6. exists o, d. auto. }
  destruct (str_eqb ft (py "array")) eqn:E7.
  { eapply returns_bind; [apply returns_randint; lia|]. intros n Hn.
    eapply returns_bind; [apply (Harr eq_refl n)|]. intros a [Hla Ha].
    apply returns_ret. apply Hpush.
    - apply in_palette_true with (t := py "array"); [simpl; tauto | exact E7].
    - unfold elem_ok. rewrite E1, E2, E3, E4, E5, E6, E7. exists a.
      split; [reflexivity|]. split.
      + replace (in_palette (py "string")) with true in Hla by reflexivity.
        cbv beta iota in Hla, Hn. lia.
      + apply Forall_impl with (2 := Ha). intros v Hv.
        unfold elem_ok in Hv. rewrite str_eqb_refl in Hv. exact Hv. }
  apply returns_ret. split; [|exact Hall].
  rewrite (in_palette_false ft E1 E2 E3 E4 E5 E6 E7) in *. exact Hlen.
Qed.

(** An array of a scalar type needs one unit of budget. *)
Lemma returns_generate_array_scalar : forall fuel size ft,
  str_eqb ft (py "object") = false -> str_eqb ft (py "array") = false ->
  returns (generate_array_fuel (S fuel) size ft) (array_ok size ft).
Proof.
  intros fuel size ft H1 H2. apply returns_generate_array_step; intros H; congruence.
Qed.

(** [generate_object] returns whenever the budget exceeds the depth. *)
Lemma generate_object_fuel_enough : forall fuel depth,
  (Z.to_nat depth < fuel)%nat -> returns (generate_object_fuel fuel depth) (object_ok depth).
Proof.
  induction fuel as [|fuel IH]; intros depth Hfuel; [lia|].
  cbn [generate_object_fuel].
  destruct (depth <=? 0) eqn:Edepth.
  { apply returns_ret. split; [simpl; lia|]. split; [reflexivity|]. simpl. lia. }
  apply Z.leb_gt in Edepth.
  eapply returns_bind; [apply returns_randint; lia|]. intros field_count Hcount.
  cbv beta in Hcount.
  pose (Inv := fun (j : Z) (obj : dict) =>
                 Z.of_nat (length obj) <= j
                 /\ Forall (fun kv => nesting (snd kv) <= depth - 1) obj).
  apply returns_impl with (P := Inv (Z.max 0 field_count)).
  2:{ intros obj [Hlen Hall]. split; [lia|]. split; [lia|].
      pose proof (nesting_dict_le obj (depth - 1) ltac:(lia) Hall). lia. }
  apply (returns_for_range Inv).
  { split; [simpl; lia | constructor]. }
  intros j obj Hj [Hlen Hall].
  assert (Hset : forall k v, nesting v <= depth - 1 -> Inv (j + 1) (dict_set k v obj)).
  { intros k v Hv. split.
    - pose proof (dict_set_length k v obj). lia.
    - apply dict_set_Forall with (Q := fun v => nesting v <= depth - 1); assumption. }
  assert (Hskip : Inv (j + 1) obj) by (split; [lia | exact Hall]).
  eapply returns_bind; [apply returns_choice; discriminate|]. intros ft _.
  destruct (str_eqb ft (py "string")) eqn:E1.
  { eapply returns_bind; [apply returns_choice; discriminate|]. intros n _.
    eapply returns_bind; [apply returns_generate_string|]. intros s0 _.
    apply returns_ret. apply Hset. simpl. lia. }
  destruct (str_eqb ft (py "integer")) eqn:E2.
  { eapply returns_bind; [apply returns_generate_integer_default|]. intros n _.
    apply returns_ret. apply Hset. simpl. lia. }
  destruct (str_eqb ft (py "float")) eqn:E3.
  { eapply returns_bind; [apply returns_generate_float_default|]. intros f _.
    apply returns_ret. apply Hset. simpl. lia. }
  destruct (str_eqb ft (py "boolean")) eqn:E4.
  { eapply returns_bind; [apply returns_generate_boolean|]. intros b _.
    apply returns_ret. apply Hset. simpl. lia. }
  destruct (str_eqb ft (py "null")) eqn:E5.
  { unfold generate_null.
    eapply returns_bind; [apply returns_ret with (P := eq VNone); reflexivity|].
    intros v <-. apply returns_ret. apply Hset. simpl. lia. }
  destruct (str_eqb ft (py "object") && (1 <? depth)) eqn:E6.
  { apply andb_true_iff in E6. destruct E6 as [_ E6]. apply Z.ltb_lt in E6.
    eapply returns_bind; [apply (IH (depth - 1)); lia|]. intros o (_ & _ & Ho).
    apply returns_ret. apply Hset. lia. }
  destruct (str_eqb ft (py "array")) eqn:E7.
  { eapply returns_bind; [apply returns_choice; discriminate|]. intros n _.
    destruct fuel as [|fuel']; [lia|].
    eapply returns_bind; [apply returns_generate_array_scalar; reflexivity|].
    intros a [_ Ha]. apply returns_ret. apply Hset.
    assert (Hstr : Forall is_random_string a).
    { apply Forall_impl with (2 := Ha). intros v Hv.
      unfold elem_ok in Hv. rewrite str_eqb_refl in Hv. exact Hv. }
    pose proof (nesting_random_strings a Hstr). lia. }
  apply returns_ret. exact Hskip.
Qed.

Lemma returns_generate_object : forall depth, returns (generate_object depth) (object_ok depth).
Proof. intros depth. apply generate_object_fuel_enough. lia. Qed.

(** [generate_array] returns on its budget of [ARRAY_FUEL]. *)
Lemma returns_generate_array : forall size ft,
  returns (generate_array size ft) (array_ok size ft).
Proof.
  intros size ft. unfold generate_array, ARRAY_FUEL.
  apply returns_generate_array_step.
  - intros _ d Hd. apply generate_object_fuel_enough. lia.
  - intros _ n. apply returns_generate_array_scalar; reflexivity.
Qed.

(** *** The budget does not matter

    A run that returns on some budget returns the same on every larger one,
    so the entry points, and the calls between the two generators, compute
    what the sources compute. *)
Definition refines {A : Type} (m1 m2 : M G A) : Prop :=
  forall w r, m1 w = Ok r -> m2 w = Ok r.

Lemma refines_refl : forall {A : Type} (m : M G A), refines m m.
Proof. intros A m w r H. exact H. Qed.

Lemma refines_bind : forall {A B : Type} (m1 m2 : M G A) (f1 f2 : A -> M G B),
  refines m1 m2 -> (forall a, refines (f1 a) (f2 a)) -> refines (bind m1 f1) (bind m2 f2).
Proof.
  intros A B m1 m2 f1 f2 Hm Hf w r H. unfold bind in *.
  destruct (m1 w) as [[a w1]|e] eqn:E; [|discriminate].
  rewrite (Hm w (a, w1) E). apply Hf. exact H.
Qed.

Lemma refines_for_loop : forall {A : Type} (b1 b2 : Z -> A -> M G A) n i acc,
  (forall j a, refines (b1 j a) (b2 j a)) ->
  refines (for_loop n i b1 acc) (for_loop n i b2 acc).
Proof.
  intros A b1 b2 n. induction n as [|n IH]; intros i acc Hb; cbn [for_loop].
  - apply refines_refl.
  - apply refines_bind; [apply Hb|]. intros a. apply IH. exact Hb.
Qed.

Ltac refines_step IHa IHo :=
  repeat match goal with
         | |- refines (if ?c then _ else _) (if ?c then _ else _) => destruct c
         | |- refines ?m ?m => apply refines_refl
         | |- refines (bind _ _) (bind _ _) => apply refines_bind; [|intro]
         | |- refines _ _ => first [apply IHa | apply IHo]
         end.

Lemma generate_fuel_congr : forall f1 f2,
  (forall size ft, refines (generate_array_fuel f1 size ft) (generate_array_fuel f2 size ft)) ->
  (forall depth, refines (generate_object_fuel f1 depth) (generate_object_fuel f2 depth)) ->
  (forall size ft,
     refines (generate_array_fuel (S f1) size ft) (generate_array_fuel (S f2) size ft))
  /\ (forall depth,
        refines (generate_object_fuel (S f1) depth) (generate_object_fuel (S f2) depth)).
Proof.
  intros f1 f2 IHa IHo. split; intros.
  - cbn [generate_array_fuel]. destruct (size =? 0); [apply refines_refl|].
    apply refines_for_loop. intros j a. refines_step IHa IHo.
  - cbn [generate_object_fuel]. destruct (depth <=? 0); [apply refines_refl|].
    apply refines_bind; [apply refines_refl|]. intros field_count.
    apply refines_for_loop. intros j a. refines_step IHa IHo.
Qed.

Lemma generate_fuel_step : forall fuel,
  (forall size ft,
     refines (generate_array_fuel fuel size ft) (generate_array_fuel (S fuel) size ft))
  /\ (forall depth,
        refines (generate_object_fuel fuel depth) (generate_object_fuel (S fuel) depth)).
Proof.
  induction fuel as [|fuel [IHa IHo]].
  - split; intros; intros w r H; discriminate H.
  - apply generate_fuel_congr; assumption.
Qed.

Lemma generate_fuel_mono : forall extra fuel,
  (forall size ft,
     refines (generate_array_fuel fuel size ft) (generate_array_fuel (extra + fuel) size ft))
  /\ (forall depth,
        refines (generate_object_fuel fuel depth)
                (generate_object_fuel (extra + fuel) depth)).
Proof.
  induction extra as [|extra IH]; intros fuel.
  - split; intros; apply refines_refl.
  - destruct (IH fuel) as [IHa IHo]. destruct (generate_fuel_step (extra + fuel)) as [Sa So].
    split; intros; intros w r H; cbn [Nat.add]; [apply Sa, IHa | apply So, IHo]; exact H.
Qed.

(** Any budget above the depth gives [generate_object depth]; any budget of
    at least [ARRAY_FUEL] gives [generate_array size field_type]. *)
Lemma generate_object_any_fuel : forall fuel depth (w : world G),
  (Z.to_nat depth < fuel)%nat -> generate_object_fuel fuel depth w = generate_object depth w.
Proof.
  intros fuel depth w H.
  destruct (returns_generate_object depth w) as (d & w' & E & _). rewrite E.
  replace fuel with ((fuel - S (Z.to_nat depth)) + S (Z.to_nat depth))%nat by lia.
  apply (proj2 (generate_fuel_mono _ _)). exact E.
Qed.

Lemma generate_array_any_fuel : forall fuel size ft (w : world G),
  (ARRAY_FUEL <= fuel)%nat -> generate_array_fuel fuel size ft w = generate_array size ft w.
Proof.
  intros fuel size ft w H.
  destruct (returns_generate_array size ft w) as (l & w' & E & _). rewrite E.
  replace fuel with ((fuel - ARRAY_FUEL) + ARRAY_FUEL)%nat by lia.
  apply (proj1 (generate_fuel_mono _ _)). exact E.
Qed.

(** ** Field names *)

Lemma py_inj : forall a b, py a = py b -> a = b.
Proof.
  intros a b H. unfold py in H.
  assert (Hl : list_ascii_of_string a = list_ascii_of_string b).
  { revert H. generalize (list_ascii_of_string a) (list_ascii_of_string b).
    induction l as [|x l IH]; intros [|y l'] H; simpl in H; try discriminate; [reflexivity|].
    inversion H as [[Hxy Hll]]. apply Nat2Z.inj in Hxy.
    f_equal; [|apply IH; exact Hll].
    rewrite <- (ascii_nat_embedding x), <- (ascii_nat_embedding y), Hxy. reflexivity. }
  rewrite <- (string_of_list_ascii_of_string a), <- (string_of_list_ascii_of_string b), Hl.
  reflexivity.
Qed.

Lemma to_int_not_nil : forall z,
  Z.to_int z <> Decimal.Pos Decimal.Nil /\ Z.to_int z <> Decimal.Neg Decimal.Nil.
Proof.
  intros [|p|p]; simpl; split; try discriminate; intros H; inversion H as [Hp];
    exact (DecimalPos.Unsigned.to_uint_nonnil p Hp).
Qed.

Lemma str_of_Z_inj : forall a b, str_of_Z a = str_of_Z b -> a = b.
Proof.
  intros a b H. unfold str_of_Z in H. apply py_inj in H.
  destruct (to_int_not_nil a) as [Ha1 Ha2]. destruct (to_int_not_nil b) as [Hb1 Hb2].
  pose proof (NilZero.isi (Z.to_int a) Ha1 Ha2) as Ha.
  pose proof (NilZero.isi (Z.to_int b) Hb1 Hb2) as Hb.
  rewrite H in Ha. rewrite Ha in Hb. inversion Hb as [Hi].
  rewrite <- (DecimalZ.of_to a), <- (DecimalZ.of_to b), Hi. reflexivity.
Qed.

Lemma field_name_inj : forall i j, field_name i = field_name j -> i = j.
Proof.
  intros i j H. unfold field_name in H. apply app_inv_head in H.
  apply str_of_Z_inj. exact H.
Qed.

Lemma palette_positions_app : forall l l' i,
  palette_positions i (l ++ l')
  = palette_positions i l ++ palette_positions (i + Z.of_nat (length l)) l'.
Proof.
  induction l as [|t l IH]; intros l' i.
  - cbn [app palette_positions length]. replace (i + Z.of_nat 0) with i by lia. reflexivity.
  - cbn [app palette_positions length]. rewrite IH, <- app_assoc.
    replace (i + 1 + Z.of_nat (length l)) with (i + Z.of_nat (S (length l))) by lia.
    reflexivity.
Qed.

Lemma palette_positions_nth : forall l i p,
  In p (palette_positions i l) <->
  exists k t, nth_error l k = Some t /\ in_palette t = true /\ p = i + Z.of_nat k.
Proof.
  induction l as [|t l IH]; intros i p; cbn [palette_positions].
  - split; [intros [] | intros (k & t & H & _)]. destruct k; discriminate.
  - rewrite in_app_iff, IH. split.
    + intros [H | (k & t' & Hk & Ht & ->)].
      * destruct (in_palette t) eqn:E; [|contradiction]. destruct H as [<-|[]].
        exists 0%nat, t. split; [reflexivity|]. split; [exact E | lia].
      * exists (S k), t'. split; [exact Hk|]. split; [exact Ht | lia].
    + intros (k & t' & Hk & Ht & ->). destruct k as [|k].
      * left. inversion Hk; subst. rewrite Ht. left. lia.
      * right. exists k, t'. split; [exact Hk|]. split; [exact Ht | lia].
Qed.

Lemma firstn_snoc : forall {A : Type} (l : list A) k x,
  nth_error l k = Some x -> firstn (S k) l = firstn k l ++ [x].
Proof.
  intros A l. induction l as [|y l IH]; intros k x H; destruct k; try discriminate.
  - inversion H; subst. reflexivity.
  - cbn [firstn app]. f_equal. apply IH. exact H.
Qed.

Lemma dict_mem_keys : forall k d, dict_mem k d = true <-> In k (dict_keys d).
Proof.
  intros k d. unfold dict_mem, dict_keys. rewrite existsb_exists, in_map_iff. split.
  - intros (kv & Hin & E). apply str_eqb_eq in E. exists kv. auto.
  - intros (kv & E & Hin). exists kv. split; [exact Hin | apply str_eqb_eq; auto].
Qed.

Lemma dict_set_keys_fresh : forall k v d,
  ~ In k (dict_keys d) -> dict_keys (dict_set k v d) = dict_keys d ++ [k].
Proof.
  intros k v d. induction d as [|[k' v'] d IH]; intros H; [reflexivity|].
  cbn [dict_set]. destruct (str_eqb k k') eqn:E.
  - apply str_eqb_eq in E. subst. exfalso. apply H. left. reflexivity.
  - cbn [dict_keys map app fst]. f_equal. apply IH. intros Hin. apply H. right. exact Hin.
Qed.

(** One iteration of [generate_record]: a field of a palette type is set,
    any other type leaves the record as it is. *)
Lemma generate_record_body : forall name ft (record : dict),
  returns
    (if str_eqb ft (py "string") then
       n <- choice STRING_LENGTHS ;; s <- generate_string n ;;
       ret (dict_set name (VStr s) record)
     else if str_eqb ft (py "integer") then
       n <- generate_integer_default ;; ret (dict_set name (VInt n) record)
     else if str_eqb ft (py "float") then
       f <- generate_float_default ;; ret (dict_set name (VFloat f) record)
     else if str_eqb ft (py "boolean") then
       b <- generate_boolean ;; ret (dict_set name (VBool b) record)
     else if str_eqb ft (py "null") then
       v <- generate_null ;; ret (dict_set name v record)
     else if str_eqb ft (py "object") then
       d <- randint 1 3 ;; o <- generate_object d ;;
       ret (dict_set name (VDict o) record)
     else if str_eqb ft (py "array") then
       n <- choice ARRAY_SIZES ;; a <- generate_array n (py "string") ;;
       ret (dict_set name (VList a) record)
     else ret record)
    (fun r => if in_palette ft then exists v, r = dict_set name v record else r = record).
Proof.
  intros name ft record.
  assert (Hin : forall t, In t FIELD_TYPES -> str_eqb ft t = true ->
                forall v, if in_palette ft then exists v', dict_set name v record
                                                  = dict_set name v' record
                          else dict_set name v record = record).
  { intros t Ht E v. rewrite (in_palette_true ft t Ht E). exists v. reflexivity. }
  destruct (str_eqb ft (py "string")) eqn:E1.
  { eapply returns_bind; [apply returns_choice; discriminate|]. intros n _.
    eapply returns_bind; [apply returns_generate_string|]. intros s0 _.
    apply returns_ret. apply (Hin (py "string")); [simpl; tauto | exact E1]. }
  destruct (str_eqb ft (py "integer")) eqn:E2.
  { eapply returns_bind; [apply returns_generate_integer_default|]. intros n _.
    apply returns_ret. apply (Hin (py "integer")); [simpl; tauto | exact E2]. }
  destruct (str_eqb ft (py "float")) eqn:E3.
  { eapply returns_bind; [apply returns_generate_float_default|]. intros f _.
    apply returns_ret. apply (Hin (py "float")); [simpl; tauto | exact E3]. }
  destruct (str_eqb ft (py "boolean")) eqn:E4.
  { eapply returns_bind; [apply returns_generate_boolean|]. intros b _.
    apply returns_ret. apply (Hin (py "boolean")); [simpl; tauto | exact E4]. }
  destruct (str_eqb ft (py "null")) eqn:E5.
  { unfold generate_null.
    eapply returns_bind; [apply returns_ret with (P := eq VNone); reflexivity|].
    intros v _. apply returns_ret. apply (Hin (py "null")); [simpl; tauto | exact E5]. }
  destruct (str_eqb ft (py "object")) eqn:E6.
  { eapply returns_bind; [apply returns_randint; lia|]. intros d _.
    eapply returns_bind; [apply returns_generate_object|]. intros o _.
    apply returns_ret. apply (Hin (py "object")); [simpl; tauto | exact E6]. }
  destruct (str_eqb ft (py "array")) eqn:E7.
  { eapply returns_bind; [apply returns_choice; discriminate|]. intros n _.
    eapply returns_bind; [apply returns_generate_array|]. intros a _.
    apply returns_ret. apply (Hin (py "array")); [simpl; tauto | exact E7]. }
  apply returns_ret. rewrite (in_palette_false ft E1 E2 E3 E4 E5 E6 E7). reflexivity.
Qed.

Lemma returns_generate_record : forall field_types,
  returns (generate_record field_types)
    (fun record => dict_keys record = map field_name (palette_positions 0 field_types)).
Proof.
  intros field_types. unfold generate_record.
  pose (Inv := fun (j : Z) (record : dict) =>
                 dict_keys record
                 = map field_name (palette_positions 0 (firstn (Z.to_nat j) field_types))).
  apply returns_impl with (P := Inv (0 + Z.of_nat (length field_types))).
  2:{ intros record H. unfold Inv in H.
      replace (Z.to_nat (0 + Z.of_nat (length field_types))) with (length field_types) in H
        by lia.
      rewrite firstn_all in H. exact H. }
  apply (returns_for_enumerate Inv).
  { reflexivity. }
  intros k ft record Hk Hinv. cbv beta.
  fold (field_name (0 + Z.of_nat k)).
  apply returns_impl with (1 := generate_record_body (field_name (0 + Z.of_nat k)) ft record).
  intros r Hr. unfold Inv in *.
  replace (Z.to_nat (0 + Z.of_nat k + 1)) with (S k) by lia.
  replace (Z.to_nat (0 + Z.of_nat k)) with k in Hinv by lia.
  rewrite (firstn_snoc field_types k ft Hk), palette_positions_app, map_app.
  assert (Hlen : length (firstn k field_types) = k).
  { apply firstn_length_le. apply Nat.lt_le_incl. apply nth_error_Some. congruence. }
  rewrite Hlen. cbn [palette_positions].
  destruct (in_palette ft).
  - destruct Hr as [v ->]. rewrite dict_set_keys_fresh.
    + rewrite Hinv. rewrite app_nil_r. reflexivity.
    + rewrite Hinv. intros Hin. apply in_map_iff in Hin. destruct Hin as (p0 & Hp & Hin).
      apply field_name_inj in Hp. apply palette_positions_nth in Hin.
      destruct Hin as (k' & t & Hnth & _ & ->).
      assert (k' < length (firstn k field_types))%nat
        by (apply nth_error_Some; congruence).
      lia.
  - subst r. rewrite Hinv. cbn [app map]. rewrite app_nil_r. reflexivity.
Qed.

(** C10. For every list of field-type names [generate_record] returns, raising
    nothing; the keys of the record are the names field_i of the positions
    whose type is in the palette, in order, so a type outside the palette
    creates no key and the record has at most as many keys as types asked
    for (fewer as soon as one is outside the palette). *)
Theorem generate_record_skips_unknown_types : forall field_types (w : world G),
  exists record w',
    generate_record field_types w = Ok (record, w')
    /\ dict_keys record = map field_name (palette_positions 0 field_types)
    /\ (forall i t, nth_error field_types i = Some t ->
                    dict_mem (field_name (Z.of_nat i)) record = in_palette t)
    /\ (length record <= length field_types)%nat
    /\ ((exists t, In t field_types /\ in_palette t = false) ->
        (length record < length field_types)%nat).
Proof.
  intros field_types w.
  destruct (returns_generate_record field_types w) as (record & w' & E & Hkeys).
  exists record, w'. split; [exact E|]. split; [exact Hkeys|].
  assert (Hlen : forall l i,
            (length (palette_positions i l) <= length l)%nat
            /\ ((exists t, In t l /\ in_palette t = false) ->
                (length (palette_positions i l) < length l)%nat)).
  { induction l as [|t l IH]; intros i; cbn [palette_positions length].
    - split; [lia|]. intros (t & [] & _).
    - destruct (IH (i + 1)) as [IH1 IH2]. rewrite length_app.
      destruct (in_palette t) eqn:Et; cbn [length]; split; try lia.
      intros (t' & [<-|Hin] & Ht'); [congruence|].
      assert (length (palette_positions (i + 1) l) < length l)%nat by (apply IH2; eauto).
      lia. }
  assert (Hrec : length record = length (palette_positions 0 field_types)).
  { rewrite <- (length_map fst record). fold (dict_keys record). rewrite Hkeys.
    apply length_map. }
  split; [|rewrite Hrec; apply Hlen].
  intros i t Hi. destruct (in_palette t) eqn:Et.
  - apply dict_mem_keys. rewrite Hkeys. apply in_map. apply palette_positions_nth.
    exists i, t. split; [exact Hi|]. split; [exact Et | lia].
  - destruct (dict_mem (field_name (Z.of_nat i)) record) eqn:Em; [|reflexivity].
    apply dict_mem_keys in Em. rewrite Hkeys in Em. apply in_map_iff in Em.
    destruct Em as (p0 & Hp & Hin). apply field_name_inj in Hp. subst p0.
    apply palette_positions_nth in Hin. destruct Hin as (k & t' & Hk & Ht' & Hik).
    assert (k = i) by lia. subst k. congruence.
Qed.

(** Sizes over all integers: [generate_array size t] returns, raising nothing,
    a list of exactly [size] elements when [t] is in the palette and
    [size >= 0], and the empty list otherwise, hence at most [max size 0]
    elements; [generate_array 0 t] is the empty list.  [generate_object depth]
    returns an object of at most 10 fields, the empty object when
    [depth <= 0]. *)
Lemma generated_sizes_bounded :
  (forall size ft (w : world G),
     exists l w',
       generate_array size ft w = Ok (l, w')
       /\ length l = (if in_palette ft then Z.to_nat size else 0%nat)
       /\ Z.of_nat (length l) <= Z.max size 0)
  /\ (forall ft (w : world G), generate_array 0 ft w = Ok ([], w))
  /\ (forall depth (w : world G),
        exists d w', generate_object depth w = Ok (d, w') /\ (length d <= 10)%nat)
  /\ (forall depth (w : world G), depth <= 0 -> generate_object depth w = Ok ([], w)).
Proof.
  split; [|split; [|split]].
  - intros size ft w. destruct (returns_generate_array size ft w) as (l & w' & E & Hlen & _).
    exists l, w'. split; [exact E|]. split; [exact Hlen|].
    rewrite Hlen. destruct (in_palette ft); lia.
  - intros ft w. reflexivity.
  - intros depth w. destruct (returns_generate_object depth w) as (d & w' & E & Hlen & _).
    exists d, w'. auto.
  - intros depth w Hd. unfold generate_object. cbn [generate_object_fuel].
    apply Z.leb_le in Hd. rewrite Hd. reflexivity.
Qed.

(** C7. Generated size is bounded by the supplied limits: for every size (a
    count, [size >= 0]) and every field type, [generate_array size t] returns,
    raising nothing, a list of at most [size] elements, exactly [size] when
    [t] is in the palette, and [generate_array 0 t] returns the empty list;
    for every depth, [generate_object depth] returns an object of at most 10
    fields, and for [depth <= 0] the empty object, drawing nothing. *)
Theorem generated_size_within_limits : forall size ft depth (w : world G),
  0 <= size ->
  (exists l w',
     generate_array size ft w = Ok (l, w')
     /\ Z.of_nat (length l) <= size
     /\ (in_palette ft = true -> Z.of_nat (length l) = size))
  /\ generate_array 0 ft w = Ok ([], w)
  /\ (exists d w',
        generate_object depth w = Ok (d, w')
        /\ (length d <= 10)%nat
        /\ (depth <= 0 -> d = [] /\ w' = w)).
Proof.
  intros size ft depth w Hsize.
  destruct generated_sizes_bounded as (Harray & Hzero & Hobject & Hempty).
  split; [|split].
  - destruct (Harray size ft w) as (l & w' & E & Hlen & Hmax).
    exists l, w'. split; [exact E|]. split; [lia|].
    intros Hin. rewrite Hin in Hlen. lia.
  - apply Hzero.
  - destruct (Hobject depth w) as (d & w' & E & Hlen).
    exists d, w'. split; [exact E|]. split; [exact Hlen|].
    intros Hd. rewrite (Hempty depth w Hd) in E. injection E as <- <-.
    split; reflexivity.
Qed.

(** ** Edge cases (C2) *)

Lemma returns_generate_unicode_string : forall len,
  returns (generate_unicode_string len) (is_unicode_string len).
Proof.
  intros len. unfold generate_unicode_string. destruct (len =? 0) eqn:E.
  { apply Z.eqb_eq in E. subst. apply returns_ret. split; [reflexivity | constructor]. }
  pose (Inv := fun (j : Z) (chars : pystr) =>
                 Z.of_nat (length chars) = j /\ Forall in_unicode_bands chars).
  apply returns_impl with (P := Inv (Z.max 0 len)).
  2:{ intros chars [Hlen Hall]. split; [lia | exact Hall]. }
  apply (returns_for_range Inv).
  { split; [reflexivity | constructor]. }
  intros j chars Hj [Hlen Hall].
  assert (Hband : forall a b, a <= b -> 0 <= a -> b <= 1114111 ->
            (forall n, a <= n <= b -> in_unicode_bands n) ->
            returns (n <- randint a b ;; c <- chr n ;; ret (chars ++ c)) (Inv (j + 1))).
  { intros a b Hab Ha Hb Hin.
    eapply returns_bind; [apply returns_randint; exact Hab|]. intros n Hn. cbv beta in Hn.
    eapply returns_bind; [apply returns_chr; lia|]. intros c ->.
    apply returns_ret. split.
    - rewrite length_app. cbn [length]. lia.
    - apply Forall_app. split; [exact Hall | constructor; [apply Hin; exact Hn | constructor]]. }
  eapply returns_bind; [apply returns_random|]. intros r1 _.
  destruct (draw_ltb r1 FLOAT_0_3).
  { apply Hband; try lia. intros n Hn. unfold in_unicode_bands. lia. }
  eapply returns_bind; [apply returns_random|]. intros r2 _.
  destruct (draw_ltb r2 FLOAT_0_5).
  { apply Hband; try lia. intros n Hn. unfold in_unicode_bands. lia. }
  eapply returns_bind; [apply returns_random|]. intros r3 _.
  destruct (draw_ltb r3 FLOAT_0_7).
  { apply Hband; try lia. intros n Hn. unfold in_unicode_bands. lia. }
  apply Hband; try lia. intros n Hn. unfold in_unicode_bands. lia.
Qed.

Lemma array_ok_string : forall size l,
  array_ok size (py "string") l ->
  length l = Z.to_nat size /\ Forall is_random_string l.
Proof.
  intros size l [Hlen Hall]. change (in_palette (py "string")) with true in Hlen.
  split; [exact Hlen|]. apply Forall_impl with (2 := Hall). intros v Hv.
  unfold elem_ok in Hv. rewrite str_eqb_refl in Hv. exact Hv.
Qed.

Lemma array_ok_integer : forall size l,
  array_ok size (py "integer") l ->
  length l = Z.to_nat size /\ Forall is_integer_value l.
Proof.
  intros size l [Hlen Hall]. change (in_palette (py "integer")) with true in Hlen.
  split; [exact Hlen|]. apply Forall_impl with (2 := Hall). intros v Hv.
  unfold elem_ok in Hv.
  change (str_eqb (py "integer") (py "string")) with false in Hv.
  rewrite str_eqb_refl in Hv. exact Hv.
Qed.

Lemma array_ok_float : forall size l,
  array_ok size (py "float") l ->
  length l = Z.to_nat size /\ Forall is_float_value l.
Proof.
  intros size l [Hlen Hall]. change (in_palette (py "float")) with true in Hlen.
  split; [exact Hlen|]. apply Forall_impl with (2 := Hall). intros v Hv.
  unfold elem_ok in Hv.
  change (str_eqb (py "float") (py "string")) with false in Hv.
  change (str_eqb (py "float") (py "integer")) with false in Hv.
  rewrite str_eqb_refl in Hv. exact Hv.
Qed.

Lemma returns_generate_edge_case_data : returns generate_edge_case_data edge_case_shape.
Proof.
  unfold generate_edge_case_data. cbv zeta.
  eapply returns_bind; [apply (returns_generate_string 100000)|]. intros s1 Hs1.
  eapply returns_bind; [apply (returns_generate_string 100000)|]. intros s2 Hs2.
  eapply returns_bind; [apply (returns_generate_string 100000)|]. intros s3 Hs3.
  eapply returns_bind; [apply (returns_generate_unicode_string 100)|]. intros u1 Hu1.
  eapply returns_bind; [apply (returns_generate_unicode_string 100)|]. intros u2 Hu2.
  eapply returns_bind; [apply (returns_generate_unicode_string 100)|]. intros u3 Hu3.
  eapply returns_bind; [apply (returns_generate_object 5)|]. intros o1 Ho1.
  eapply returns_bind; [apply (returns_generate_object 5)|]. intros o2 Ho2.
  eapply returns_bind; [apply (returns_generate_object 5)|]. intros o3 Ho3.
  eapply returns_bind; [apply (returns_generate_array 10000 (py "string"))|]. intros a1 Ha1.
  eapply returns_bind; [apply (returns_generate_array 10000 (py "integer"))|]. intros a2 Ha2.
  eapply returns_bind; [apply (returns_generate_array 10000 (py "float"))|]. intros a3 Ha3.
  apply returns_ret.
  exists s1, s2, s3, u1, u2, u3, o1, o2, o3, a1, a2, a3.
  apply array_ok_string in Ha1. apply array_ok_integer in Ha2. apply array_ok_float in Ha3.
  destruct Ha1 as [L1 F1], Ha2 as [L2 F2], Ha3 as [L3 F3].
  split; [reflexivity|]. split; [auto|]. split; [auto|]. split; [auto|].
  split; [split; [lia | exact F1] | split; [split; [lia | exact F2] | split; [lia | exact F3]]].
Qed.

(** C2 (as amended). For every seed (every state of the random source)
    [generate_edge_case_data] returns exactly 8 records, in the fixed order:
    the empty object; three null fields; three empty strings; three strings
    of length 100,000; the extreme numbers [2^63 - 1], [-2^63] and the largest
    double; three Unicode strings of length 100; three objects generated with
    depth 5 (at most 10 fields, nesting at most 5); three arrays of 10,000
    elements (strings, then integers, then floats).  Nested objects and large arrays
    are two records, the seventh and the eighth. *)
Theorem generate_edge_case_data_eight_records : forall w : world G,
  exists records w',
    generate_edge_case_data w = Ok (records, w')
    /\ length records = 8%nat
    /\ edge_case_shape records.
Proof.
  intros w. destruct (returns_generate_edge_case_data w) as (records & w' & E & H).
  exists records, w'. split; [exact E|]. split; [|exact H].
  destruct H as (s1 & s2 & s3 & u1 & u2 & u3 & o1 & o2 & o3 & a1 & a2 & a3 & -> & _).
  reflexivity.
Qed.

(** ** Compression-friendly data (C5) *)

Lemma nth_error_snoc : forall {A : Type} (l : list A) (x y : A) i,
  nth_error (l ++ [x]) i = Some y ->
  nth_error l i = Some y \/ (i = length l /\ y = x).
Proof.
  intros A l x y i H. destruct (Nat.lt_ge_cases i (length l)) as [Hlt|Hge].
  - left. rewrite nth_error_app1 in H by exact Hlt. exact H.
  - right. rewrite nth_error_app2 in H by exact Hge.
    destruct (i - length l)%nat as [|k] eqn:E.
    + inversion H. split; [lia | reflexivity].
    + destruct k; discriminate.
Qed.

Lemma returns_generate_compression_test_data : forall count,
  returns (generate_compression_test_data count) (compression_shape count).
Proof.
  intros count. unfold generate_compression_test_data.
  eapply returns_bind; [apply (returns_generate_string 1000)|]. intros base_string Hbs.
  eapply returns_bind; [apply (returns_generate_object 2)|]. intros base_object Hbo.
  pose (Inv := fun (j : Z) (records : list value) =>
                 Z.of_nat (length records) = j
                 /\ forall i r, nth_error records i = Some r ->
                                compression_record base_string base_object i r).
  apply returns_impl with (P := Inv (Z.max 0 count)).
  2:{ intros records [Hlen Hall]. exists base_string, base_object.
      split; [exact Hbs|]. split; [exact Hbo|]. split; [lia | exact Hall]. }
  apply (returns_for_range Inv).
  { split; [reflexivity|]. intros i r H. destruct i; discriminate. }
  intros j records Hj [Hlen Hall].
  eapply returns_bind; [apply (returns_generate_string 10)|]. intros varying Hv.
  eapply returns_bind; [apply returns_datetime_now|]. intros now _.
  apply returns_ret. split.
  - rewrite length_app. cbn [length]. lia.
  - intros i r H. apply nth_error_snoc in H. destruct H as [H | [-> ->]].
    + apply Hall. exact H.
    + exists varying, now. rewrite Hlen. split; [reflexivity | exact Hv].
Qed.

Lemma compression_record_get : forall bs bo i r k,
  compression_record bs bo i (VDict r) ->
  k <> py "id" -> k <> py "varying_field" -> k <> py "timestamp" ->
  dict_get k r = if str_eqb k (py "base_string") then Some (VStr bs)
                 else if str_eqb k (py "base_object") then Some (VDict bo)
                 else None.
Proof.
  intros bs bo i r k (varying & now & E & _) H1 H2 H3. inversion E; subst r.
  cbn [dict_get].
  apply str_eqb_neq in H1, H2, H3. rewrite H1, H2, H3.
  destruct (str_eqb k (py "base_string")); [reflexivity|].
  destruct (str_eqb k (py "base_object")); reflexivity.
Qed.

(** C5 (as amended). For every count, 10 among them, the records of
    [generate_compression_test_data] all carry the same [base_string] and
    the same [base_object]; record [i] has [id] equal to [i], so [id]
    differs between any two records, and the fields that can differ
    across records are [id], [varying_field] and [timestamp] only. *)
Theorem compression_records_share_base : forall count (w : world G),
  exists records w' base_string base_object,
    generate_compression_test_data count w = Ok (records, w')
    /\ length records = Z.to_nat count
    /\ (forall i r, nth_error records i = Some r ->
                    compression_record base_string base_object i r)
    /\ (forall i j ri rj k,
          nth_error records i = Some (VDict ri) -> nth_error records j = Some (VDict rj) ->
          dict_get k ri <> dict_get k rj ->
          k = py "id" \/ k = py "varying_field" \/ k = py "timestamp")
    /\ (forall i j ri rj,
          i <> j ->
          nth_error records i = Some (VDict ri) -> nth_error records j = Some (VDict rj) ->
          dict_get (py "id") ri <> dict_get (py "id") rj).
Proof.
  intros count w.
  destruct (returns_generate_compression_test_data count w)
    as (records & w' & E & bs & bo & _ & _ & Hlen & Hall).
  exists records, w', bs, bo. split; [exact E|]. split; [exact Hlen|]. split; [exact Hall|].
  split.
  - intros i j ri rj k Hi Hj Hne.
    destruct (str_eqb k (py "id")) eqn:E1; [left; apply str_eqb_eq; exact E1|].
    destruct (str_eqb k (py "varying_field")) eqn:E2;
      [right; left; apply str_eqb_eq; exact E2|].
    destruct (str_eqb k (py "timestamp")) eqn:E3;
      [right; right; apply str_eqb_eq; exact E3|].
    exfalso. apply Hne. apply str_eqb_neq in E1, E2, E3.
    rewrite (compression_record_get bs bo i ri k (Hall _ _ Hi) E1 E2 E3).
    rewrite (compression_record_get bs bo j rj k (Hall _ _ Hj) E1 E2 E3).
    reflexivity.
  - intros i j ri rj Hij Hi Hj.
    destruct (Hall _ _ Hi) as (v1 & n1 & E1 & _). destruct (Hall _ _ Hj) as (v2 & n2 & E2 & _).
    inversion E1; subst ri. inversion E2; subst rj. cbn [dict_get].
    rewrite str_eqb_refl. intros H. inversion H. lia.
Qed.

(** ** Time series (C8) *)

Lemma steps_ok_snoc : forall times a b,
  steps_ok (times ++ [a]) ->
  timedelta_seconds 1 <= b - a <= timedelta_seconds 3600 ->
  steps_ok ((times ++ [a]) ++ [b]).
Proof.
  induction times as [|t times IH]; intros a b H Hab.
  - cbn. auto.
  - cbn [app steps_ok] in *. destruct H as [H1 H2]. split; [|apply IH; assumption].
    destruct times as [|t' times']; cbn [app] in *; exact H1.
Qed.

Lemma steps_ok_nth : forall times i t t',
  steps_ok times -> nth_error times i = Some t -> nth_error times (S i) = Some t' ->
  timedelta_seconds 1 <= t' - t <= timedelta_seconds 3600.
Proof.
  induction times as [|t0 times IH]; intros i t t' H Hi Hi'; [destruct i; discriminate|].
  cbn [steps_ok] in H. destruct H as [H1 H2]. destruct i as [|i].
  - cbn in Hi, Hi'. inversion Hi; subst. destruct times; [discriminate|].
    cbn in Hi'. inversion Hi'; subst. exact H1.
  - cbn [nth_error] in Hi, Hi'. apply (IH i); assumption.
Qed.

Lemma steps_ok_prefix : forall times a, steps_ok (times ++ [a]) -> steps_ok times.
Proof.
  induction times as [|t times IH]; intros a H; [exact I|].
  cbn [app steps_ok] in *. destruct H as [H1 H2]. split; [|apply (IH a); exact H2].
  destruct times as [|t' times']; [exact I | exact H1].
Qed.

Lemma returns_lift_ok : forall {A : Type} (a : A), returns (lift (Ok a)) (eq a).
Proof. intros A a w. exists a, w. split; reflexivity. Qed.

Lemma returns_generate_time_series_data : forall count start_time,
  0 <= start_time ->
  start_time + Z.max 0 count * timedelta_seconds 3600 < DATETIME_END ->
  returns (generate_time_series_data count start_time)
    (fun records =>
       exists times,
         Forall2 time_series_record times records
         /\ length times = Z.to_nat count
         /\ (1 <= count -> hd_error times = Some start_time)
         /\ steps_ok times).
Proof.
  intros count start_time H0 Hend. unfold generate_time_series_data.
  pose (Inv := fun (j : Z) (st : list value * datetime) =>
                 exists times,
                   Forall2 time_series_record times (fst st)
                   /\ Z.of_nat (length times) = j
                   /\ hd_error (times ++ [snd st]) = Some start_time
                   /\ steps_ok (times ++ [snd st])
                   /\ start_time <= snd st <= start_time + j * timedelta_seconds 3600).
  eapply returns_bind with (P := Inv (Z.max 0 count)).
  2:{ intros [records cur] (times & Hrec & Hlen & Hhd & Hsteps & _).
      apply returns_ret. exists times. cbn [fst snd] in *.
      split; [exact Hrec|]. split; [lia|]. split; [|apply (steps_ok_prefix _ _ Hsteps)].
      intros Hc. destruct times as [|t times]; [cbn [length] in Hlen; lia | exact Hhd]. }
  apply (returns_for_range Inv).
  { exists []. cbn. repeat split; try constructor; lia. }
  intros j [records cur] Hj (times & Hrec & Hlen & Hhd & Hsteps & Hcur).
  cbn [fst snd] in *. cbv beta iota.
  eapply returns_bind; [apply returns_generate_float_default|]. intros v _.
  eapply returns_bind; [apply returns_choice; discriminate|]. intros category Hcat.
  eapply returns_bind; [apply returns_choice; discriminate|]. intros level Hlev.
  eapply returns_bind; [apply returns_randint; lia|]. intros n Hn.
  eapply returns_bind; [apply returns_generate_string|]. intros message Hmsg.
  eapply returns_bind; [apply returns_randint; lia|]. intros step Hstep.
  cbv beta in Hcat, Hlev, Hn, Hstep.
  assert (Hadd : datetime_add cur (timedelta_seconds step)
                 = Ok (cur + timedelta_seconds step)).
  { unfold datetime_add. cbv zeta.
    unfold timedelta_seconds, US_PER_SECOND in *.
    destruct ((0 <=? cur + step * 1000000) && (cur + step * 1000000 <? DATETIME_END)) eqn:E;
      [reflexivity|].
    apply andb_false_iff in E. destruct E as [E|E];
      [apply Z.leb_gt in E | apply Z.ltb_ge in E]; nia. }
  rewrite Hadd.
  eapply returns_bind; [apply returns_lift_ok|]. intros next <-.
  apply returns_ret. exists (times ++ [cur]). cbn [fst snd].
  split; [|split; [|split; [|split]]].
  - apply Forall2_app; [exact Hrec|]. constructor; [|constructor].
    exists v, category, level, message, n. auto.
  - rewrite length_app. cbn [length]. lia.
  - destruct times; cbn [app hd_error] in *; exact Hhd.
  - apply steps_ok_snoc; [exact Hsteps|].
    unfold timedelta_seconds, US_PER_SECOND in *. lia.
  - unfold timedelta_seconds, US_PER_SECOND in *. nia.
Qed.

(** C8 (as amended). For every seed, every count [N] and every start time
    [T] of the datetime range with [T] plus [N] times 3600 seconds still
    inside it, [generate_time_series_data N T] returns [N] records; their
    timestamps are the ISO forms of times that start at [T] (when [N >= 1])
    and each exceed the one before by at least 1 and at most 3600 seconds. *)
Theorem time_series_timestamps_increase : forall count start_time (w : world G),
  0 <= start_time ->
  start_time + Z.max 0 count * timedelta_seconds 3600 < DATETIME_END ->
  exists records w' times,
    generate_time_series_data count start_time w = Ok (records, w')
    /\ length records = Z.to_nat count
    /\ Forall2 time_series_record times records
    /\ (1 <= count -> nth_error times 0 = Some start_time)
    /\ (forall i t t', nth_error times i = Some t -> nth_error times (S i) = Some t' ->
                       t + timedelta_seconds 1 <= t' <= t + timedelta_seconds 3600).
Proof.
  intros count start_time w H0 Hend.
  destruct (returns_generate_time_series_data count start_time H0 Hend w)
    as (records & w' & E & times & Hrec & Hlen & Hhd & Hsteps).
  exists records, w', times. split; [exact E|].
  split; [rewrite <- (Forall2_length Hrec); exact Hlen|]. split; [exact Hrec|]. split.
  - intros Hc. specialize (Hhd Hc). destruct times; [discriminate | exact Hhd].
  - intros i t t' Hi Hi'. pose proof (steps_ok_nth times i t t' Hsteps Hi Hi'). lia.
Qed.

(** ** Two runs side by side (C1)

    [related R m]: started in worlds related by [R], two runs of [m] end the
    same way, with equal results and in worlds related by [R] again, or
    with the same exception.  [R] is any relation that keeps the states of
    the random source equal. *)
Section Relational.

Variable R : world G -> world G -> Prop.
Hypothesis R_rng : forall w1 w2, R w1 w2 -> rng w1 = rng w2.
Hypothesis R_with_rng : forall w1 w2 s, R w1 w2 -> R (with_rng w1 s) (with_rng w2 s).

Definition related {A : Type} (m : M G A) : Prop :=
  forall w1 w2, R w1 w2 ->
    match m w1, m w2 with
    | Ok (a1, w1'), Ok (a2, w2') => a1 = a2 /\ R w1' w2'
    | Raise e1, Raise e2 => e1 = e2
    | _, _ => False
    end.

Lemma related_ret : forall {A : Type} (a : A), related (ret a).
Proof. intros A a w1 w2 H. cbn. auto. Qed.

Lemma related_raise : forall {A : Type} (e : exn), related (@raise G A e).
Proof. intros A e w1 w2 H. reflexivity. Qed.

Lemma related_lift : forall {A : Type} (r : result A), related (lift r).
Proof. intros A [a|e] w1 w2 H; cbn; auto. Qed.

Lemma related_bind : forall {A B : Type} (m : M G A) (f : A -> M G B),
  related m -> (forall a, related (f a)) -> related (bind m f).
Proof.
  intros A B m f Hm Hf w1 w2 H. unfold bind. specialize (Hm w1 w2 H).
  destruct (m w1) as [[a1 w1']|e1], (m w2) as [[a2 w2']|e2]; try contradiction.
  - destruct Hm as [-> H']. apply Hf. exact H'.
  - exact Hm.
Qed.

Lemma related_for_loop : forall {A : Type} (body : Z -> A -> M G A) n i acc,
  (forall j a, related (body j a)) -> related (for_loop n i body acc).
Proof.
  intros A body n. induction n as [|n IH]; intros i acc Hbody; cbn [for_loop].
  - apply related_ret.
  - apply related_bind; [apply Hbody|]. intros a. apply IH. exact Hbody.
Qed.

Lemma related_for_range : forall {A : Type} (body : Z -> A -> M G A) count acc,
  (forall j a, related (body j a)) -> related (for_range count body acc).
Proof. intros A body count acc H. apply related_for_loop. exact H. Qed.

Lemma related_for_enumerate : forall {A X : Type} (body : Z -> X -> A -> M G A) xs i acc,
  (forall j x a, related (body j x a)) -> related (for_enumerate i xs body acc).
Proof.
  intros A X body xs. induction xs as [|x xs IH]; intros i acc Hbody; cbn [for_enumerate].
  - apply related_ret.
  - apply related_bind; [apply Hbody|]. intros a. apply IH. exact Hbody.
Qed.

Lemma related_random : related random.
Proof.
  intros w1 w2 H. unfold random. rewrite (R_rng w1 w2 H).
  destruct (rand_random (rng w2)) as [k s]. split; [reflexivity | apply R_with_rng; exact H].
Qed.

Lemma related_randbelow : forall n, related (randbelow n).
Proof.
  intros n w1 w2 H. unfold randbelow. rewrite (R_rng w1 w2 H).
  destruct (rand_below n (rng w2)) as [k s]. split; [reflexivity | apply R_with_rng; exact H].
Qed.

Lemma related_pick : forall n, related (pick n).
Proof.
  intros n w1 w2 H. unfold pick. rewrite (R_rng w1 w2 H).
  destruct (rand_pick n (rng w2)) as [k s]. split; [reflexivity | apply R_with_rng; exact H].
Qed.

Lemma related_index : forall {A : Type} (seq : list A) i, related (index seq i).
Proof.
  intros A seq i. unfold index.
  destruct (nth_error seq (Z.to_nat i)); [apply related_ret | apply related_raise].
Qed.

Ltac rel_step :=
  match goal with
  | |- related (bind _ _) => apply related_bind; [|intro]
  | |- related (ret _) => apply related_ret
  | |- related (raise _) => apply related_raise
  | |- related (lift _) => apply related_lift
  | |- related (for_range _ _ _) => apply related_for_range; intros
  | |- related (for_enumerate _ _ _ _) => apply related_for_enumerate; intros
  | |- related random => apply related_random
  | |- related (randbelow _) => apply related_randbelow
  | |- related (pick _) => apply related_pick
  | |- related (index _ _) => apply related_index
  | |- related (if ?c then _ else _) => destruct c
  | |- related (let '(_, _) := ?p in _) => destruct p
  | |- related (match ?x with _ => _ end) => destruct x
  | |- related _ => assumption
  end.
Ltac rel := repeat rel_step.

Lemma related_randint : forall a b, related (randint a b).
Proof. intros a b. unfold randint. rel. Qed.

Lemma related_choice : forall {A : Type} (seq : list A), related (choice seq).
Proof. intros A seq. unfold choice. rel. Qed.

Lemma related_choices : forall {A : Type} (population : list A) k,
  related (choices population k).
Proof. intros A population k. unfold choices. rel. Qed.

Lemma related_uniform : forall a b, related (uniform a b).
Proof. intros a b. unfold uniform. rel. Qed.

Lemma related_chr : forall n, related (chr n).
Proof. intros n. unfold chr. rel. Qed.

Ltac rel_random :=
  first [ apply related_randint | apply related_choice | apply related_choices
        | apply related_uniform | apply related_chr ].
Ltac rel1 := repeat first [rel_step | rel_random].

Lemma related_generate_string : forall len, related (generate_string len).
Proof. intros len. unfold generate_string. rel1. Qed.

Lemma related_generate_unicode_string : forall len, related (generate_unicode_string len).
Proof. intros len. unfold generate_unicode_string. rel1. Qed.

Lemma related_generate_integer_default : related generate_integer_default.
Proof. unfold generate_integer_default, generate_integer. rel1. Qed.

Lemma related_generate_float_default : related generate_float_default.
Proof. unfold generate_float_default, generate_float. rel1. Qed.

Lemma related_generate_boolean : related generate_boolean.
Proof. unfold generate_boolean. rel1. Qed.

Ltac rel_scalar :=
  first [ apply related_generate_string | apply related_generate_unicode_string
        | apply related_generate_integer_default | apply related_generate_float_default
        | apply related_generate_boolean ].
Ltac rel2 := repeat first [rel_step | rel_random | rel_scalar].

Lemma related_generate_fuel : forall fuel,
  (forall size ft, related (generate_array_fuel fuel size ft))
  /\ (forall depth, related (generate_object_fuel fuel depth)).
Proof.
  induction fuel as [|fuel [IHa IHo]]; split; intros;
    cbn [generate_array_fuel generate_object_fuel]; unfold generate_null;
    repeat first [rel_step | rel_random | rel_scalar | apply IHa | apply IHo].
Qed.

Lemma related_generate_array : forall size ft, related (generate_array size ft).
Proof. intros size ft. apply related_generate_fuel. Qed.

Lemma related_generate_object : forall depth, related (generate_object depth).
Proof. intros depth. apply related_generate_fuel. Qed.

Ltac rel3 :=
  repeat first [ rel_step | rel_random | rel_scalar
               | apply related_generate_array | apply related_generate_object ].

Lemma related_generate_record : forall field_types, related (generate_record field_types).
Proof. intros field_types. unfold generate_record, generate_null. rel3. Qed.

Lemma related_generate_records : forall count field_types,
  related (generate_records count field_types).
Proof.
  intros count field_types. unfold generate_records.
  repeat first [rel_step | apply related_generate_record].
Qed.

Lemma related_generate_edge_case_data : related generate_edge_case_data.
Proof. unfold generate_edge_case_data. cbv zeta. rel3. Qed.

(** The generators that read the clock, for a relation that [datetime.now()] keeps. *)
Hypothesis R_now : related datetime_now.

Lemma related_generate_log_data : forall count, related (generate_log_data count).
Proof. intros count. unfold generate_log_data. rel3. Qed.

Lemma related_generate_compression_test_data : forall count,
  related (generate_compression_test_data count).
Proof. intros count. unfold generate_compression_test_data. rel3. Qed.

Lemma related_generate_time_series_data : forall count start_time,
  related (generate_time_series_data count start_time).
Proof. intros count start_time. unfold generate_time_series_data. rel3. Qed.

End Relational.

(** Two worlds with the same state of the random source, whatever the clocks. *)
Definition same_rng (w1 w2 : world G) : Prop := rng w1 = rng w2.

(** Two worlds with the same state of the random source and the same clock
    readings, before and to come. *)
Definition same_readings (w1 w2 : world G) : Prop :=
  rng w1 = rng w2 /\ reads w1 = reads w2 /\ forall n, clock w1 n = clock w2 n.

Lemma related_main_data_seeded : forall a,
  arg_category a = Unit \/ arg_category a = Integration ->
  related same_rng (main_data a).
Proof.
  intros a Hcat. unfold main_data.
  assert (H1 : forall w1 w2, same_rng w1 w2 -> rng w1 = rng w2) by (intros; assumption).
  assert (H2 : forall w1 w2 s, same_rng w1 w2 -> same_rng (with_rng w1 s) (with_rng w2 s))
    by (intros; reflexivity).
  destruct Hcat as [-> | ->].
  - apply related_generate_edge_case_data; assumption.
  - apply related_generate_records; assumption.
Qed.

Lemma related_main_data_readings : forall a, related same_readings (main_data a).
Proof.
  intros a. unfold main_data.
  assert (H1 : forall w1 w2, same_readings w1 w2 -> rng w1 = rng w2)
    by (intros w1 w2 [H _]; exact H).
  assert (H2 : forall w1 w2 s, same_readings w1 w2 ->
                               same_readings (with_rng w1 s) (with_rng w2 s)).
  { intros w1 w2 s (Ha & Hb & Hc). split; [reflexivity | split; assumption]. }
  assert (H3 : related same_readings datetime_now).
  { intros w1 w2 (Ha & Hb & Hc). unfold datetime_now. split.
    - rewrite Hb. apply Hc.
    - split; [exact Ha | split; [cbn; congruence | exact Hc]]. }
  destruct (arg_category a).
  - apply related_generate_edge_case_data; assumption.
  - apply related_generate_records; assumption.
  - apply related_generate_log_data; assumption.
  - apply related_generate_compression_test_data; assumption.
  - apply related_bind; [exact H3|]. intros start_time.
    apply related_generate_time_series_data; assumption.
Qed.

Lemma run_related : forall (Rw : world G -> world G -> Prop) a wall1 wall2,
  related Rw (main_data a) ->
  Rw (initial_world (arg_seed a) wall1) (initial_world (arg_seed a) wall2) ->
  run a wall1 = run a wall2.
Proof.
  intros Rw a wall1 wall2 Hrel Hinit. unfold run. specialize (Hrel _ _ Hinit).
  destruct (main_data a (initial_world (arg_seed a) wall1)) as [[d1 w1]|e1],
           (main_data a (initial_world (arg_seed a) wall2)) as [[d2 w2]|e2];
    try contradiction.
  - destruct Hrel as [-> _]. reflexivity.
  - subst. reflexivity.
Qed.

(** C1 (as amended). Two runs with the same seed and parameters produce the
    same dataset and the same content hash when the wall clock gives them
    the same readings, and, in the unit and integration categories, whatever
    the clock reads: those datasets are functions of the seed and the
    parameters alone.  (The performance, stress and conformance categories
    stamp records with [datetime.now()].) *)
Theorem runs_deterministic : forall (a : args) (wall1 wall2 : nat -> datetime),
  (forall n, wall1 n = wall2 n) \/ arg_category a = Unit \/ arg_category a = Integration ->
  run a wall1 = run a wall2.
Proof.
  intros a wall1 wall2 [Hwall | Hcat].
  - apply run_related with (Rw := same_readings).
    + apply related_main_data_readings.
    + split; [reflexivity | split; [reflexivity | exact Hwall]].
  - apply run_related with (Rw := same_rng).
    + apply related_main_data_seeded. exact Hcat.
    + reflexivity.
Qed.

(** ** The content hash (C6) *)



Section ValueInduction.

Variable P : value -> Prop.
Hypothesis P_none : P VNone.
Hypothesis P_bool : forall b, P (VBool b).
Hypothesis P_int : forall n, P (VInt n).
Hypothesis P_float : forall f, P (VFloat f).
Hypothesis P_str : forall s0, P (VStr s0).
Hypothesis P_list : forall l, Forall P l -> P (VList l).
Hypothesis P_dict : forall d, Forall (fun kv => P (snd kv)) d -> P (VDict d).

(** Induction on values through their lists and dicts. *)
Fixpoint value_ind_nested (v : value) : P v :=
  match v with
  | VNone => P_none
  | VBool b => P_bool b
  | VInt n => P_int n
  | VFloat f => P_float f
  | VStr s0 => P_str s0
  | VList l =>
      P_list l
        ((fix go (l : list value) : Forall P l :=
            match l with
            | [] => Forall_nil P
            | x :: r => Forall_cons x (value_ind_nested x) (go r)
            end) l)
  | VDict d =>
      P_dict d
        ((fix go (d : list (pystr * value)) : Forall (fun kv => P (snd kv)) d :=
            match d with
            | [] => Forall_nil _
            | (k, x) :: r =>
                Forall_cons (P := fun kv => P (snd kv)) (k, x) (value_ind_nested x) (go r)
            end) d)
  end.

End ValueInduction.




(** ** The bands of Unicode strings (C3, C4) *)

Lemma draw_ltb_0_3 : forall r, draw_ltb r FLOAT_0_3 = (r <? 2702159776422298).
Proof.
  intros r. unfold draw_ltb, FLOAT_0_3. cbv iota.
  change (-54 <=? -53) with true. cbv iota.
  change (2 ^ (-53 - -54)) with 2.
  destruct (Z.ltb_spec (r * 2) 5404319552844595), (Z.ltb_spec r 2702159776422298);
    try reflexivity; lia.
Qed.

Lemma draw_ltb_0_5 : forall r, draw_ltb r FLOAT_0_5 = (r <? 4503599627370496).
Proof.
  intros r. unfold draw_ltb, FLOAT_0_5. cbv iota.
  change (-53 <=? -53) with true. cbv iota.
  change (2 ^ (-53 - -53)) with 1. rewrite Z.mul_1_r. reflexivity.
Qed.

Lemma draw_ltb_0_7 : forall r, draw_ltb r FLOAT_0_7 = (r <? 6305039478318694).
Proof.
  intros r. unfold draw_ltb, FLOAT_0_7. cbv iota.
  change (-53 <=? -53) with true. cbv iota.
  change (2 ^ (-53 - -53)) with 1. rewrite Z.mul_1_r. reflexivity.
Qed.

Lemma sum_below_ext : forall n f g,
  (forall k, 0 <= k < Z.of_nat n -> f k = g k) -> sum_below n f = sum_below n g.
Proof.
  induction n as [|n IH]; intros f g H; [reflexivity|].
  cbn [sum_below]. rewrite (IH f g), (H (Z.of_nat n)); [reflexivity | lia |].
  intros k Hk. apply H. lia.
Qed.

Lemma sum_below_const : forall n c, sum_below n (fun _ => c) = Z.of_nat n * c.
Proof.
  induction n as [|n IH]; intros c; [reflexivity|].
  cbn [sum_below]. rewrite IH. lia.
Qed.

Lemma sum_below_threshold : forall T a b n,
  0 <= T <= Z.of_nat n ->
  sum_below n (fun k => if k <? T then a else b) = T * a + (Z.of_nat n - T) * b.
Proof.
  intros T a b n. induction n as [|n IH]; intros HT.
  - cbn [sum_below]. assert (T = 0) by lia. subst. lia.
  - cbn [sum_below]. destruct (Z.ltb_spec (Z.of_nat n) T) as [Hlt|Hge].
    + assert (T = Z.of_nat n + 1) by lia.
      rewrite (sum_below_ext n _ (fun _ => a)).
      * rewrite sum_below_const. subst T. lia.
      * intros k Hk. destruct (Z.ltb_spec k T); [reflexivity | lia].
    + rewrite IH by lia. lia.
Qed.

Lemma DRAWS_eq : Z.of_nat DRAWS = 2 ^ 53.
Proof. unfold DRAWS. apply Z2Nat.id. apply Z.pow_nonneg. lia. Qed.

Lemma band_count_formula : forall b,
  band_count b =
    2702159776422298 * (2 ^ 53 * (2 ^ 53 * b2z (band_eqb Ascii b)))
    + (2 ^ 53 - 2702159776422298)
      * (4503599627370496 * (2 ^ 53 * b2z (band_eqb Latin1 b))
         + (2 ^ 53 - 4503599627370496)
           * (6305039478318694 * b2z (band_eqb Bmp b)
              + (2 ^ 53 - 6305039478318694) * b2z (band_eqb Supplementary b))).
Proof.
  intros b. unfold band_count.
  rewrite (sum_below_ext DRAWS _
    (fun r1 => if r1 <? 2702159776422298
               then 2 ^ 53 * (2 ^ 53 * b2z (band_eqb Ascii b))
               else 4503599627370496 * (2 ^ 53 * b2z (band_eqb Latin1 b))
                    + (2 ^ 53 - 4503599627370496)
                      * (6305039478318694 * b2z (band_eqb Bmp b)
                         + (2 ^ 53 - 6305039478318694) * b2z (band_eqb Supplementary b)))).
  - rewrite sum_below_threshold; [rewrite DRAWS_eq; reflexivity | rewrite DRAWS_eq; lia].
  - intros r1 _. unfold band_of_draws. rewrite draw_ltb_0_3.
    destruct (r1 <? 2702159776422298).
    + rewrite sum_below_const, sum_below_const, DRAWS_eq. reflexivity.
    + rewrite (sum_below_ext DRAWS _
        (fun r2 => if r2 <? 4503599627370496
                   then 2 ^ 53 * b2z (band_eqb Latin1 b)
                   else 6305039478318694 * b2z (band_eqb Bmp b)
                        + (2 ^ 53 - 6305039478318694) * b2z (band_eqb Supplementary b))).
      * rewrite sum_below_threshold; [rewrite DRAWS_eq; reflexivity | rewrite DRAWS_eq; lia].
      * intros r2 _. rewrite draw_ltb_0_5. destruct (r2 <? 4503599627370496).
        -- rewrite sum_below_const, DRAWS_eq. reflexivity.
        -- rewrite (sum_below_ext DRAWS _
             (fun r3 => if r3 <? 6305039478318694 then b2z (band_eqb Bmp b)
                        else b2z (band_eqb Supplementary b))).
           ++ rewrite sum_below_threshold;
                [rewrite DRAWS_eq; reflexivity | rewrite DRAWS_eq; lia].
           ++ intros r3 _. rewrite draw_ltb_0_7.
              destruct (r3 <? 6305039478318694); reflexivity.
Qed.

(** C3 (what the code does). Of the [2^53 * 2^53 * 2^53] equally likely
    triples of draws, the shares that select each band are the products below:
    0.3 for ASCII, then 0.7 * 0.5 for Latin-1, 0.7 * 0.5 * 0.7 for the BMP and
    0.7 * 0.5 * 0.3 for the supplementary planes, that is 30%, 35%, 24.5% and
    10.5% up to rounding, not 30%, 20%, 20%, 30%: each [elif] draws again. *)
Theorem unicode_band_shares :
  band_count Ascii = 2702159776422298 * 2 ^ 53 * 2 ^ 53
  /\ band_count Latin1 = (2 ^ 53 - 2702159776422298) * 2 ^ 52 * 2 ^ 53
  /\ band_count Bmp = (2 ^ 53 - 2702159776422298) * 2 ^ 52 * 6305039478318694
  /\ band_count Supplementary
     = (2 ^ 53 - 2702159776422298) * 2 ^ 52 * (2 ^ 53 - 6305039478318694)
  /\ band_count Ascii + band_count Latin1 + band_count Bmp + band_count Supplementary
     = 2 ^ 53 * 2 ^ 53 * 2 ^ 53
  /\ 34 * (2 ^ 53 * 2 ^ 53 * 2 ^ 53) < 100 * band_count Latin1
  /\ 24 * (2 ^ 53 * 2 ^ 53 * 2 ^ 53) < 100 * band_count Bmp
  /\ 100 * band_count Supplementary < 11 * (2 ^ 53 * 2 ^ 53 * 2 ^ 53).
Proof.
  rewrite !band_count_formula. cbn [band_eqb b2z].
  repeat split; vm_compute; reflexivity.
Qed.

(** ** Further properties of the generators *)

(** X1. [generate_string length] returns, raising nothing, a string of
    exactly [length] characters (none for a negative length), each one of
    the 94 letters, digits and punctuation marks. *)
Theorem generate_string_length_and_palette : forall len (w : world G),
  exists s w',
    generate_string len w = Ok (s, w')
    /\ Z.of_nat (length s) = Z.max 0 len
    /\ Forall (fun c => In c (ascii_letters ++ digits ++ punctuation)) s.
Proof.
  intros len w. destruct (returns_generate_string len w) as (s & w' & E & Hlen & Hall).
  exists s, w'. split; [exact E|]. split; [lia | exact Hall].
Qed.

(** X2. [generate_object depth] returns, raising nothing, an object whose
    nesting of objects is at most [depth] (1 for the empty object of a depth
    below 1): an object field is expanded only while the remaining depth
    exceeds 1, and array fields hold strings. *)
Theorem generate_object_nesting_bounded : forall depth (w : world G),
  exists d w',
    generate_object depth w = Ok (d, w')
    /\ nesting (VDict d) <= Z.max 1 depth.
Proof.
  intros depth w. destruct (returns_generate_object depth w) as (d & w' & E & _ & _ & H).
  exists d, w'. auto.
Qed.

Lemma returns_generate_records : forall count field_types,
  returns (generate_records count field_types)
    (fun data => Z.of_nat (length data) = Z.max 0 count).
Proof.
  intros count field_types. unfold generate_records.
  apply (returns_for_range (fun j (data : list value) => Z.of_nat (length data) = j)).
  - reflexivity.
  - intros j data Hj Hlen.
    eapply returns_bind; [apply returns_generate_record|]. intros r _.
    apply returns_ret. rewrite length_app. cbn [length]. lia.
Qed.

Lemma returns_generate_log_data : forall count,
  returns (generate_log_data count) (fun data => Z.of_nat (length data) = Z.max 0 count).
Proof.
  intros count. unfold generate_log_data.
  apply (returns_for_range (fun j (data : list value) => Z.of_nat (length data) = j)).
  - reflexivity.
  - intros j data Hj Hlen.
    eapply returns_bind; [apply returns_datetime_now|]. intros now _.
    eapply returns_bind; [apply returns_choice; discriminate|]. intros level _.
    eapply returns_bind; [apply returns_choice; discriminate|]. intros logger _.
    eapply returns_bind; [apply returns_randint; lia|]. intros n _.
    eapply returns_bind; [apply returns_generate_string|]. intros message _.
    eapply returns_bind; [apply returns_randint; lia|]. intros thread _.
    eapply returns_bind; [apply returns_randint; lia|]. intros user_id _.
    eapply returns_bind; [apply returns_generate_string|]. intros session_id _.
    eapply returns_bind; [apply returns_generate_string|]. intros request_id _.
    eapply returns_bind; [apply returns_randint; lia|]. intros duration_ms _.
    eapply returns_bind; [apply returns_randint; lia|]. intros memory_mb _.
    apply returns_ret. rewrite length_app. cbn [length]. lia.
Qed.

(** X3. Count fidelity: in the integration, performance and stress
    categories a run returns exactly the requested number of records, none
    when the count is zero or negative. *)
Theorem main_data_count_fidelity : forall (a : args) (w : world G),
  arg_category a = Integration \/ arg_category a = Performance \/ arg_category a = Stress ->
  exists data w',
    main_data a w = Ok (data, w')
    /\ Z.of_nat (length data) = Z.max 0 (resolved_count a).
Proof.
  intros a w Hcat. unfold main_data. destruct Hcat as [-> | [-> | ->]].
  - apply returns_generate_records.
  - apply returns_generate_log_data.
  - destruct (returns_generate_compression_test_data (resolved_count a) w)
      as (data & w' & E & _ & _ & _ & _ & Hlen & _).
    exists data, w'. split; [exact E | lia].
Qed.

End Properties.

(** * Concrete runs

    The statements above hold for every random source and platform; below
    they are evaluated on the scripted source and the toy platform. *)

(** A negative size, which no caller passes: [range(-1)] is empty, so
    [generate_array] returns the empty list. *)
Lemma generate_array_negative_size :
  exists w',
    generate_array (-1) (py "string") (tape_world [] (ticking 0)) = Ok ([], w')
    /\ ~ (Z.of_nat (length (@nil value)) <= -1).
Proof.
  eexists. split; [vm_compute; reflexivity | cbn; lia].
Qed.

(** C2, the claim as worded, at a concrete seed: the records are not 7. *)
Lemma generate_edge_case_data_not_seven :
  exists records w',
    generate_edge_case_data (tape_world (rand_seed 42) (ticking 0)) = Ok (records, w')
    /\ length records <> 7%nat.
Proof.
  destruct (returns_generate_edge_case_data (tape_world (rand_seed 42) (ticking 0)))
    as (records & w' & E & H).
  exists records, w'. split; [exact E|].
  destruct H as (s1 & s2 & s3 & u1 & u2 & u3 & o1 & o2 & o3 & a1 & a2 & a3 & -> & _).
  cbn [length]. discriminate.
Qed.

(** C5, the claim as worded, at a concrete run of count 10: the first two
    records differ in [id], a field that is neither [varying_field] nor
    [timestamp]. *)
Lemma compression_records_differ_in_id :
  exists records w' r0 r1,
    generate_compression_test_data 10 (tape_world (rand_seed 42) (ticking 0))
    = Ok (records, w')
    /\ nth_error records 0 = Some (VDict r0)
    /\ nth_error records 1 = Some (VDict r1)
    /\ py "id" <> py "varying_field" /\ py "id" <> py "timestamp"
    /\ dict_get (py "id") r0 <> dict_get (py "id") r1.
Proof.
  destruct (returns_generate_compression_test_data 10 (tape_world (rand_seed 42) (ticking 0)))
    as (records & w' & E & bs & bo & _ & _ & Hlen & Hall).
  destruct records as [|v0 [|v1 records]]; try (cbn in Hlen; discriminate).
  destruct (Hall 0%nat v0 eq_refl) as (x0 & n0 & -> & _).
  destruct (Hall 1%nat v1 eq_refl) as (x1 & n1 & -> & _).
  do 4 eexists. split; [exact E|]. split; [reflexivity|]. split; [reflexivity|].
  split; [intros H; vm_compute in H; discriminate|].
  split; [intros H; vm_compute in H; discriminate|].
  cbn [dict_get]. rewrite str_eqb_refl. discriminate.
Qed.

(** C8, the claim as worded, at a concrete call: from the last representable
    instant, count 1 raises [OverflowError] when the clock is advanced. *)
Lemma time_series_overflows_at_datetime_max :
  generate_time_series_data 1 DATETIME_MAX (tape_world (rand_seed 42) (ticking 0))
  = Raise OverflowError.
Proof. vm_compute. reflexivity. Qed.

(** 2026-11-04T00:00:00 *)
Definition T_2026 : datetime := (739924 - 1) * US_PER_DAY.

(** C8 on the spec's scenario: seed 42, count 5. *)
Lemma time_series_timestamps_increase_witness :
  exists records w' times,
    generate_time_series_data 5 T_2026 (tape_world (rand_seed 42) (ticking 0))
    = Ok (records, w')
    /\ length records = Z.to_nat 5
    /\ Forall2 time_series_record times records
    /\ (1 <= 5 -> nth_error times 0 = Some T_2026)
    /\ (forall i t t', nth_error times i = Some t -> nth_error times (S i) = Some t' ->
                       t + timedelta_seconds 1 <= t' <= t + timedelta_seconds 3600).
Proof.
  apply (time_series_timestamps_increase 5 T_2026 (tape_world (rand_seed 42) (ticking 0))).
  - vm_compute. discriminate.
  - vm_compute. reflexivity.
Defined.

Definition log_args : args :=
  {| arg_seed := 42; arg_version := py "1.0.0"; arg_format := Ndjson;
     arg_category := Performance; arg_size := Small; arg_count := Some 1;
     arg_field_types := FIELD_TYPES |}.

(** C1, the claim as worded, at a concrete pair of runs: the same seed and
    parameters in the performance category, read off two clocks a second
    apart, give different datasets. *)
Lemma log_runs_differ_with_the_clock :
  run log_args (ticking T_2026) <> run log_args (ticking (T_2026 + US_PER_SECOND)).
Proof. intros H. vm_compute in H. discriminate H. Qed.

Definition record_args : args :=
  {| arg_seed := 42; arg_version := py "1.0.0"; arg_format := Ndjson;
     arg_category := Integration; arg_size := Small; arg_count := Some 3;
     arg_field_types := [py "string"; py "integer"; py "boolean"] |}.

(** C1 on the spec's scenario of explicit fields, with two different clocks. *)
Lemma runs_deterministic_witness :
  run record_args (ticking T_2026) = run record_args (ticking 0).
Proof.
  apply (runs_deterministic record_args (ticking T_2026) (ticking 0)).
  right. right. reflexivity.
Defined.


Lemma bind_ok : forall {G A B : Type} (m : M G A) (f : A -> M G B) w a w',
  m w = Ok (a, w') -> bind m f w = f a w'.
Proof. intros G A B m f w a w' H. unfold bind. rewrite H. reflexivity. Qed.

Lemma tape_random_step : forall r rest wall,
  0 <= r < 2 ^ 53 -> random (tape_world (r :: rest) wall) = Ok (r, tape_world rest wall).
Proof.
  intros r rest wall H. unfold random, tape_world.
  cbn [rng rand_random TapeRandom tape_random tape_next].
  rewrite (Z.mod_small r) by exact H. reflexivity.
Qed.

Lemma tape_draw_code_point : forall lo hi x wall (chars : pystr),
  0 <= lo -> lo <= hi -> hi <= 1114111 ->
  (n <- randint lo hi ;; c <- chr n ;; ret (chars ++ c)) (tape_world [x] wall)
  = Ok (chars ++ [lo + x mod (hi - lo + 1)], tape_world [] wall).
Proof.
  intros lo hi x wall chars Hlo Hhi Hmax.
  pose proof (Z.mod_pos_bound x (hi - lo + 1) ltac:(lia)) as Hmod.
  assert (Hint : randint lo hi (tape_world [x] wall)
                 = Ok (lo + x mod (hi - lo + 1), tape_world [] wall)).
  { unfold randint. destruct (hi <? lo) eqn:E; [apply Z.ltb_lt in E; lia|].
    rewrite (bind_ok _ _ _ (x mod (hi - lo + 1)) (tape_world [] wall)); reflexivity. }
  rewrite (bind_ok _ _ _ _ _ Hint).
  assert (Hchr : chr (lo + x mod (hi - lo + 1)) (tape_world [] wall)
                 = Ok ([lo + x mod (hi - lo + 1)], tape_world [] wall)).
  { unfold chr.
    replace ((0 <=? lo + x mod (hi - lo + 1)) && (lo + x mod (hi - lo + 1) <=? 1114111))
      with true; [reflexivity|].
    symmetry. apply andb_true_iff. split; apply Z.leb_le; lia. }
  rewrite (bind_ok _ _ _ _ _ Hchr). reflexivity.
Qed.

(** The band a character is drawn from is [band_of_draws] of the draws its
    branches consume, and its code point is [randint] over that band. *)
Lemma unicode_char_follows_band : forall r1 r2 r3 x wall,
  0 <= r1 < 2 ^ 53 -> 0 <= r2 < 2 ^ 53 -> 0 <= r3 < 2 ^ 53 ->
  generate_unicode_string 1 (tape_world (band_tape r1 r2 r3 ++ [x]) wall)
  = Ok ([fst (band_range (band_of_draws r1 r2 r3))
         + x mod (snd (band_range (band_of_draws r1 r2 r3))
                  - fst (band_range (band_of_draws r1 r2 r3)) + 1)],
        tape_world [] wall).
Proof.
  intros r1 r2 r3 x wall H1 H2 H3.
  unfold generate_unicode_string, for_range.
  change (1 =? 0) with false. change (Z.to_nat 1) with 1%nat.
  cbn [for_loop].
  match goal with
  | |- bind ?m ?f ?w = Ok (?r, ?w') =>
      enough (Hbody : m w = Ok (r, w')) by (rewrite (bind_ok m f w r w' Hbody); reflexivity)
  end.
  unfold band_tape, band_of_draws.
  destruct (draw_ltb r1 FLOAT_0_3) eqn:E1;
    [|destruct (draw_ltb r2 FLOAT_0_5) eqn:E2; [|destruct (draw_ltb r3 FLOAT_0_7) eqn:E3]];
    cbn [app band_range fst snd].
  - rewrite (bind_ok _ _ _ _ _ (tape_random_step r1 [x] wall H1)). rewrite E1.
    apply (tape_draw_code_point 32 126 x wall []); lia.
  - rewrite (bind_ok _ _ _ _ _ (tape_random_step r1 [r2; x] wall H1)). rewrite E1.
    rewrite (bind_ok _ _ _ _ _ (tape_random_step r2 [x] wall H2)). rewrite E2.
    apply (tape_draw_code_point 128 255 x wall []); lia.
  - rewrite (bind_ok _ _ _ _ _ (tape_random_step r1 [r2; r3; x] wall H1)). rewrite E1.
    rewrite (bind_ok _ _ _ _ _ (tape_random_step r2 [r3; x] wall H2)). rewrite E2.
    rewrite (bind_ok _ _ _ _ _ (tape_random_step r3 [x] wall H3)). rewrite E3.
    apply (tape_draw_code_point 256 65535 x wall []); lia.
  - rewrite (bind_ok _ _ _ _ _ (tape_random_step r1 [r2; r3; x] wall H1)). rewrite E1.
    rewrite (bind_ok _ _ _ _ _ (tape_random_step r2 [r3; x] wall H2)). rewrite E2.
    rewrite (bind_ok _ _ _ _ _ (tape_random_step r3 [x] wall H3)). rewrite E3.
    apply (tape_draw_code_point 65536 1114111 x wall []); lia.
Qed.

(** C3 at a concrete input: the first draw is 0.4, inside the share from 0.3
    to 0.5 that a 30/20/20/30 split of one draw gives to Latin-1; the code
    draws again (0.6, then 0.1) and returns a character of the BMP. *)
Lemma generate_unicode_string_redraws :
  band_of_draws 3602879701896396 5404319552844595 900719925474099 = Bmp
  /\ generate_unicode_string 1
       (tape_world [3602879701896396; 5404319552844595; 900719925474099; 5] (ticking 0))
     = Ok ([261], tape_world [] (ticking 0)).
Proof. split; vm_compute; reflexivity. Qed.

(** C4 at a concrete input: the draws select the BMP range 256..65535 and
    [randint] returns 55296, the surrogate U+D800. *)
Lemma generate_unicode_string_surrogate :
  generate_unicode_string 1
    (tape_world [2 ^ 53 - 1; 2 ^ 53 - 1; 0; 55040] (ticking 0))
  = Ok ([55296], tape_world [] (ticking 0))
  /\ 55296 <= 55296 <= 57343
  /\ encode [55296] = Raise UnicodeEncodeError.
Proof. repeat split; vm_compute; try reflexivity; discriminate. Qed.

(** ** The embedding at work *)

Example float_literals_are_binary64 :
  forallb (valid_binary prec emax)
    [MAX_DOUBLE; FLOAT_0_3; FLOAT_0_5; FLOAT_0_7; FLOAT_0_95; FLOAT_1_0;
     float_of_Z (-1000000); float_of_Z 1000000] = true.
Proof. reflexivity. Qed.

Example isoformat_examples :
  isoformat T_2026 = py "2026-11-04T00:00:00"
  /\ isoformat (T_2026 + 3723 * US_PER_SECOND + 42) = py "2026-11-04T01:02:03.000042"
  /\ isoformat 0 = py "0001-01-01T00:00:00"
  /\ isoformat DATETIME_MAX = py "9999-12-31T23:59:59.999999".
Proof. repeat split; vm_compute; reflexivity. Qed.

Example palette_has_94_characters : length PALETTE = 94%nat.
Proof. reflexivity. Qed.

(** [json.dumps] sorts the keys and escapes what is not printable ASCII. *)
Example dumps_example :
  dumps (VDict [(py "b", VInt (-2)); (py "a", VList [VNone; VBool true; VStr [233; 128512]])])
  = py "{" ++ [34] ++ py "a" ++ [34] ++ py ": [null, true, " ++ [34]
    ++ py "\u00e9\ud83d\ude00" ++ [34] ++ py "], " ++ [34] ++ py "b" ++ [34] ++ py ": -2}".
Proof. vm_compute. reflexivity. Qed.

(** The spec's scenario of explicit fields: seed 42, three types, three records,
    each with the keys field_0, field_1, field_2. *)
Example explicit_fields_scenario :
  exists data h,
    run record_args (ticking T_2026) = Ok (data, h)
    /\ map (fun r => match r with VDict d => dict_keys d | _ => [] end) data
       = [[py "field_0"; py "field_1"; py "field_2"];
          [py "field_0"; py "field_1"; py "field_2"];
          [py "field_0"; py "field_1"; py "field_2"]].
Proof. do 2 eexists. split; vm_compute; reflexivity. Qed.

(** X3 on the spec's scenario: three records asked for, three made. *)
Lemma main_data_count_fidelity_witness :
  exists data w',
    main_data record_args (tape_world (rand_seed 42) (ticking 0)) = Ok (data, w')
    /\ Z.of_nat (length data) = Z.max 0 (resolved_count record_args).
Proof.
  apply (main_data_count_fidelity record_args (tape_world (rand_seed 42) (ticking 0))).
  left. reflexivity.
Defined.

(** The index [choices] draws where the exact product and the float
    product fall on two sides of an integer: [k * 94 / 2^53] is just below
    14, its binary64 rounding is 14. *)
Example tape_pick_rounds :
  tape_pick 94 [1341497761344403] = (14, [])
  /\ 1341497761344403 * 94 / 2 ^ 53 = 13.
Proof. split; vm_compute; reflexivity. Qed.

(** ** The validator on files *)

(** The JSON array of the four required names, and its text. *)
Definition NAMES_ARRAY : value :=
  VList [VStr (py "provenance"); VStr (py "source"); VStr (py "transformations");
         VStr (py "quality")].

Definition NAMES_ARRAY_TEXT : pystr :=
  py "[" ++ [34] ++ py "provenance" ++ [34] ++ py ", " ++ [34] ++ py "source" ++ [34]
  ++ py ", " ++ [34] ++ py "transformations" ++ [34] ++ py ", " ++ [34] ++ py "quality"
  ++ [34] ++ py "]".

(** A platform with two provenance files, one holding the array of the four
    names and one the number 5, and a parser for these two texts. *)
Definition TwoFilesPlatform : Platform := {|
  float_repr := @float_repr ToyPlatform;
  sha256_hexdigest := @sha256_hexdigest ToyPlatform;
  sys_version := @sys_version ToyPlatform;
  posix_float := @posix_float ToyPlatform;
  stat_size := fun _ => None;
  stat_error := fun _ => FileNotFoundError;
  read_text := fun p =>
                 if str_eqb (last p []) (py "array_provenance.json")
                 then Some NAMES_ARRAY_TEXT
                 else if str_eqb (last p []) (py "number_provenance.json")
                 then Some (py "5")
                 else None;
  read_error := fun _ => FileNotFoundError;
  json_loads := fun text =>
                  if str_eqb text NAMES_ARRAY_TEXT then Some NAMES_ARRAY
                  else if str_eqb text (py "5") then Some (VInt 5)
                  else None;
  fs_raises := fun _ _ => None
|}.

(** C9 on files: the array of the four names, a document with no key, is
    reported valid with every check passed; the number raises [TypeError]; a
    missing file raises what [open] raises. *)
Example validate_provenance_on_files :
  @validate_provenance TwoFilesPlatform
     [py "testdata"; py "metadata"; py "provenance"; py "array_provenance.json"]
  = Ok {| valid := true; errors := []; warnings := [];
          check_schema_valid := true; check_checksums_valid := true;
          check_timestamps_valid := true; check_dependencies_valid := true |}
  /\ @validate_provenance TwoFilesPlatform
       [py "testdata"; py "metadata"; py "provenance"; py "number_provenance.json"]
     = Raise TypeError
  /\ @validate_provenance TwoFilesPlatform
       [py "testdata"; py "metadata"; py "provenance"; py "none_provenance.json"]
     = Raise FileNotFoundError.
Proof. repeat split; vm_compute; reflexivity. Qed.

(** C7 at an array of three strings and an object of depth 2. *)
Lemma generated_size_within_limits_witness :
  (exists l w',
     generate_array 3 (py "string") (tape_world (rand_seed 42) (ticking 0)) = Ok (l, w')
     /\ Z.of_nat (length l) <= 3
     /\ (in_palette (py "string") = true -> Z.of_nat (length l) = 3))
  /\ generate_array 0 (py "string") (tape_world (rand_seed 42) (ticking 0))
     = Ok ([], tape_world (rand_seed 42) (ticking 0))
  /\ (exists d w',
        generate_object 2 (tape_world (rand_seed 42) (ticking 0)) = Ok (d, w')
        /\ (length d <= 10)%nat
        /\ (2 <= 0 -> d = [] /\ w' = tape_world (rand_seed 42) (ticking 0))).
Proof.
  apply (generated_size_within_limits 3 (py "string") 2
           (tape_world (rand_seed 42) (ticking 0))).
  lia.
Defined.

(** * More of the sources: what is written to disk, and where *)

Section Output.

Context {PF : Platform}.

(** [json.dumps(v)]: the default separators, the keys in insertion order *)
Fixpoint dumps_plain (v : value) : pystr :=
  match v with
  | VNone => py "null"
  | VBool true => py "true"
  | VBool false => py "false"
  | VInt n => str_of_Z n
  | VFloat f => floatstr f
  | VStr s => encode_basestring_ascii s
  | VList l => py "[" ++ join (py ", ") (map dumps_plain l) ++ py "]"
  | VDict d =>
      py "{"
      ++ join (py ", ") (map (fun kv => dumps_item (fst kv, dumps_plain (snd kv))) d)
      ++ py "}"
  end.

(** ['\n' + ' ' * 2 * level] *)
Definition newline_indent (level : nat) : pystr := [10] ++ repeat 32 (2 * level).

(** [json.dumps(v, indent=2)] at nesting [level]: an empty list or dict on
    one line, any other with one item per line, the item separator a comma. *)
Fixpoint dumps_indent (level : nat) (v : value) : pystr :=
  match v with
  | VNone => py "null"
  | VBool true => py "true"
  | VBool false => py "false"
  | VInt n => str_of_Z n
  | VFloat f => floatstr f
  | VStr s => encode_basestring_ascii s
  | VList [] => py "[]"
  | VList l =>
      py "[" ++ newline_indent (S level)
      ++ join (py "," ++ newline_indent (S level)) (map (dumps_indent (S level)) l)
      ++ newline_indent level ++ py "]"
  | VDict [] => py "{}"
  | VDict d =>
      py "{" ++ newline_indent (S level)
      ++ join (py "," ++ newline_indent (S level))
           (map (fun kv => dumps_item (fst kv, dumps_indent (S level) (snd kv))) d)
      ++ newline_indent level ++ py "}"
  end.

(** The text [save_data] leaves in the file, by the format: what
    [json.dump(data, f, indent=2)] writes, or one [json.dumps(record) + '\n']
    per record; the formats it does not support have none. *)
Definition save_data_text (data : list value) (format : pystr) : result pystr :=
  if str_eqb format (py "json") then Ok (dumps_indent 0 (VList data))
  else if str_eqb format (py "ndjson") then
    Ok (flat_map (fun record => dumps_plain record ++ [10]) data)
  else if str_eqb format (py "jsonl") then
    Ok (flat_map (fun record => dumps_plain record ++ [10]) data)
  else Raise ValueError.

(** [path.parent]: the root is its own parent, a single name has the parent
    [.], the path with no part. *)
Definition path_parent (p : path) : path :=
  match p with
  | [root] => if str_eqb root (py "/") then p else []
  | _ => removelast p
  end.

(** *** Code that writes files

    A computation on the file system takes the calls completed so far and
    returns its result, or the exception raised, with the calls completed at
    the end: what was done before an exception stays done. *)
Definition FS (A : Type) : Type := list fs_call -> result A * list fs_call.

Definition fs_ret {A : Type} (a : A) : FS A := fun done => (Ok a, done).

Definition fs_raise {A : Type} (e : exn) : FS A := fun done => (Raise e, done).

Definition fs_bind {A B : Type} (m : FS A) (k : A -> FS B) : FS B :=
  fun done =>
    match m done with
    | (Ok a, done') => k a done'
    | (Raise e, done') => (Raise e, done')
    end.

(** One call: it raises what the file system says, or completes. *)
Definition perform (call : fs_call) : FS unit :=
  fun done =>
    match fs_raises done call with
    | Some e => (Raise e, done)
    | None => (Ok tt, done ++ [call])
    end.

(** [for x in xs: body] *)
Fixpoint fs_for {X : Type} (xs : list X) (body : X -> FS unit) : FS unit :=
  match xs with
  | [] => fs_ret tt
  | x :: rest => fs_bind (body x) (fun _ => fs_for rest body)
  end.

(** [with open(file, 'w') as f: body]: the file is closed on the way out,
    also when [body] raised, and what closing raises is raised. *)
Definition with_open_w (file : path) (body : FS unit) : FS unit :=
  fun done =>
    match perform (OpenW file) done with
    | (Raise e, done1) => (Raise e, done1)
    | (Ok _, done1) =>
        match body done1 with
        | (r, done2) =>
            match perform (Close file) done2 with
            | (Raise e, done3) => (Raise e, done3)
            | (Ok _, done3) => (r, done3)
            end
        end
    end.

(** [save_data(data, output_path, format)] *)
Definition save_data (data : list value) (output_path : path) (format : pystr) : FS unit :=
  fs_bind (perform (Mkdir (path_parent output_path)))
    (fun _ =>
       if str_eqb format (py "json") then
         with_open_w output_path
           (perform (Write output_path (dumps_indent 0 (VList data))))
       else if str_eqb format (py "ndjson") then
         with_open_w output_path
           (fs_for data
              (fun record => perform (Write output_path (dumps_plain record ++ [10]))))
       else if str_eqb format (py "jsonl") then
         with_open_w output_path
           (fs_for data
              (fun record => perform (Write output_path (dumps_plain record ++ [10]))))
       else fs_raise ValueError).




(** The values of [--category], [--size] and [--format] *)
Definition category_name (c : category) : string :=
  match c with
  | Unit => "unit"
  | Integration => "integration"
  | Performance => "performance"
  | Stress => "stress"
  | Conformance => "conformance"
  end.

Definition size_name (s : size_class) : string :=
  match s with
  | Small => "small"
  | Medium => "medium"
  | Large => "large"
  | XLarge => "xlarge"
  end.

Definition format_name (f : format) : string :=
  match f with
  | Json => "json"
  | Ndjson => "ndjson"
  | Jsonl => "jsonl"
  end.

(** [Path(args.output_dir) / args.category / args.size] *)
Definition output_dir_of (output_dir : path) (a : args) : path :=
  output_dir ++ [py (category_name (arg_category a)); py (size_name (arg_size a))].

(** [f"test_data_{args.category}_{args.size}_{args.count}"] *)
Definition output_stem (a : args) : pystr :=
  py "test_data_" ++ py (category_name (arg_category a)) ++ py "_"
  ++ py (size_name (arg_size a)) ++ py "_" ++ str_of_Z (resolved_count a).

(** [output_dir / f"test_data_{category}_{size}_{count}.{format}"] *)
Definition output_file (output_dir : path) (a : args) : path :=
  output_dir_of output_dir a
  ++ [output_stem a ++ py "." ++ py (format_name (arg_format a))].

(** [output_dir / f"test_data_{category}_{size}_{count}_metadata.json"] *)
Definition metadata_file (output_dir : path) (a : args) : path :=
  output_dir_of output_dir a ++ [output_stem a ++ py "_metadata.json"].

(** The JSON type of a value, by the names of the field-type palette. *)
Definition json_type (v : value) : pystr :=
  match v with
  | VNone => py "null"
  | VBool _ => py "boolean"
  | VInt _ => py "integer"
  | VFloat _ => py "float"
  | VStr _ => py "string"
  | VList _ => py "array"
  | VDict _ => py "object"
  end.

(** Printable ASCII, the characters from the space to the tilde. *)
Definition printable (c : Z) : Prop := 32 <= c <= 126.

End Output.

Section OutputProperties.

Context {G : Type} {RS : RandomSource G} {PF : Platform}.

(** ** JSON text is printable ASCII *)

Lemma py_cons : forall c s, py (String c s) = Z.of_nat (nat_of_ascii c) :: py s.
Proof. reflexivity. Qed.

Lemma printable_uint : forall u, Forall printable (py (NilEmpty.string_of_uint u)).
Proof.
  induction u; cbn [NilEmpty.string_of_uint]; [constructor | ..];
    rewrite py_cons; (constructor; [split; vm_compute; discriminate | assumption]).
Qed.

Lemma printable_str_of_Z : forall n, Forall printable (str_of_Z n).
Proof.
  intros n. unfold str_of_Z.
  assert (Hu : forall u, Forall printable (py (NilZero.string_of_uint u))).
  { intros u. destruct u; try apply (printable_uint (_ u)).
    constructor; [split; vm_compute; discriminate | constructor]. }
  destruct (Z.to_int n) as [u|u]; cbn [NilZero.string_of_int]; [apply Hu|].
  rewrite py_cons. constructor; [split; vm_compute; discriminate | apply Hu].
Qed.

Lemma printable_hex_digit : forall n, printable (hex_digit (n mod 16)).
Proof.
  intros n. pose proof (Z.mod_pos_bound n 16 ltac:(lia)) as H.
  unfold hex_digit, printable. destruct (Z.ltb_spec (n mod 16) 10); lia.
Qed.

Lemma printable_u_escape : forall n, Forall printable (u_escape n).
Proof.
  intros n. unfold u_escape. apply Forall_app. split.
  - repeat constructor; vm_compute; discriminate.
  - repeat constructor; apply printable_hex_digit.
Qed.

Lemma printable_escape_char : forall c, Forall printable (escape_char c).
Proof.
  intros c. unfold escape_char.
  repeat match goal with
         | |- Forall printable (if ?b then _ else _) => destruct b eqn:?
         end.
  1-7: repeat (constructor; [unfold printable; lia|]); constructor.
  - apply andb_true_iff in Heqb6. destruct Heqb6 as [H1 H2].
    apply Z.leb_le in H1, H2. constructor; [split; assumption | constructor].
  - apply printable_u_escape.
  - apply Forall_app. split; apply printable_u_escape.
Qed.

Lemma printable_basestring : forall s, Forall printable (encode_basestring_ascii s).
Proof.
  intros s. unfold encode_basestring_ascii.
  apply Forall_app. split; [constructor; [unfold printable; lia | constructor]|].
  apply Forall_app. split; [|constructor; [unfold printable; lia | constructor]].
  induction s as [|c s IH]; cbn [flat_map]; [constructor|].
  apply Forall_app. split; [apply printable_escape_char | exact IH].
Qed.

Lemma printable_py : forall s,
  forallb (fun c => (32 <=? c) && (c <=? 126)) (py s) = true -> Forall printable (py s).
Proof.
  intros s H. rewrite forallb_forall in H. apply Forall_forall. intros c Hc.
  specialize (H c Hc). apply andb_true_iff in H. destruct H as [H1 H2].
  apply Z.leb_le in H1, H2. split; assumption.
Qed.

Lemma printable_join : forall sep parts,
  Forall printable sep -> Forall (Forall printable) parts -> Forall printable (join sep parts).
Proof.
  intros sep parts Hsep H. induction H as [|p parts Hp Hparts IH]; [constructor|].
  cbn [join]. destruct parts as [|q parts]; [exact Hp|].
  apply Forall_app. split; [exact Hp|]. apply Forall_app. split; [exact Hsep | exact IH].
Qed.

Lemma insert_item_permutation : forall {V : Type} (a : pystr * V) l,
  Permutation (insert_item a l) (a :: l).
Proof.
  intros V a l. induction l as [|h t IH]; cbn [insert_item]; [reflexivity|].
  destruct (str_ltb (fst h) (fst a)); [|reflexivity].
  rewrite IH. apply perm_swap.
Qed.

(** [sorted] returns the items it was given. *)
Lemma sort_items_is_permutation : forall {V : Type} (l : list (pystr * V)),
  Permutation (sort_items l) l.
Proof.
  intros V l. induction l as [|a l IH]; [reflexivity|].
  cbn [sort_items fold_right]. fold (sort_items l).
  rewrite insert_item_permutation. constructor. exact IH.
Qed.

Hypothesis float_repr_printable : forall f, Forall printable (float_repr f).

Lemma printable_floatstr : forall f, Forall printable (floatstr f).
Proof.
  intros f. unfold floatstr.
  destruct f as [s|[|]| |s m e]; try apply float_repr_printable;
    apply printable_py; reflexivity.
Qed.

Lemma printable_dumps_item : forall kv,
  Forall printable (snd kv) -> Forall printable (dumps_item kv).
Proof.
  intros kv H. unfold dumps_item. apply Forall_app. split; [apply printable_basestring|].
  apply Forall_app. split; [apply printable_py; reflexivity | exact H].
Qed.

Lemma printable_dumps : forall v, Forall printable (dumps v).
Proof.
  induction v as [| [|] | | | |l IH|d IH] using value_ind_nested; cbn [dumps];
    try (apply printable_py; reflexivity).
  - apply printable_str_of_Z.
  - apply printable_floatstr.
  - apply printable_basestring.
  - apply Forall_app. split; [apply printable_py; reflexivity|].
    apply Forall_app. split; [|apply printable_py; reflexivity].
    apply printable_join; [apply printable_py; reflexivity|].
    apply Forall_map. exact IH.
  - apply Forall_app. split; [apply printable_py; reflexivity|].
    apply Forall_app. split; [|apply printable_py; reflexivity].
    apply printable_join; [apply printable_py; reflexivity|].
    apply Forall_map.
    apply (Permutation_Forall (Permutation_sym (sort_items_is_permutation _))).
    apply Forall_map. apply Forall_impl with (2 := IH).
    intros kv Hkv. apply printable_dumps_item. exact Hkv.
Qed.

Lemma printable_dumps_plain : forall v, Forall printable (dumps_plain v).
Proof.
  induction v as [| [|] | | | |l IH|d IH] using value_ind_nested; cbn [dumps_plain];
    try (apply printable_py; reflexivity).
  - apply printable_str_of_Z.
  - apply printable_floatstr.
  - apply printable_basestring.
  - apply Forall_app. split; [apply printable_py; reflexivity|].
    apply Forall_app. split; [|apply printable_py; reflexivity].
    apply printable_join; [apply printable_py; reflexivity|].
    apply Forall_map. exact IH.
  - apply Forall_app. split; [apply printable_py; reflexivity|].
    apply Forall_app. split; [|apply printable_py; reflexivity].
    apply printable_join; [apply printable_py; reflexivity|].
    apply Forall_map. apply Forall_impl with (2 := IH).
    intros kv Hkv. apply printable_dumps_item. exact Hkv.
Qed.

(** UTF-8 leaves printable ASCII as it is. *)
Lemma encode_printable : forall s, Forall printable s -> encode s = Ok s.
Proof.
  intros s H. induction H as [|c s [Hc1 Hc2] Hs IH]; [reflexivity|].
  cbn [encode]. rewrite IH. unfold utf8_char.
  destruct (Z.ltb_spec c 128); [reflexivity | lia].
Qed.

(** ** The metadata of a run *)

Lemma data_hash_printable : forall data,
  data_hash data = Ok (sha256_hexdigest (dumps (VList data))).
Proof.
  intros data. unfold data_hash. rewrite (encode_printable _ (printable_dumps _)).
  reflexivity.
Qed.

(** X4. Whatever the records hold, lone surrogates and other non-ASCII
    characters included, [generate_metadata] raises nothing: [json.dumps]
    escapes every character outside printable ASCII, so the text encodes
    byte for byte.  The metadata hold the number of records, the seed and the
    digest of that text; the call reads the clock twice and leaves the random
    source as it was. *)
Theorem generate_metadata_never_fails :
  forall seed version data params (w : world G),
  exists metadata w',
    generate_metadata seed version data params w = Ok (metadata, w')
    /\ encode (dumps (VList data)) = Ok (dumps (VList data))
    /\ dict_get (py "data_hash") metadata
       = Some (VStr (sha256_hexdigest (dumps (VList data))))
    /\ dict_get (py "record_count") metadata = Some (VInt (Z.of_nat (length data)))
    /\ dict_get (py "generator_seed") metadata = Some (VInt seed)
    /\ dict_get (py "generated_at") metadata = Some (VStr (isoformat (clock w (reads w))))
    /\ rng w' = rng w /\ reads w' = S (S (reads w)).
Proof.
  intros seed version data params w.
  unfold generate_metadata, bind, lift, time_time, datetime_now, ret.
  rewrite data_hash_printable. cbn [rng clock reads].
  eexists _, _. split; [reflexivity|].
  split; [apply encode_printable, printable_dumps|].
  repeat split; reflexivity.
Qed.

(** ** Saving the dataset *)

Lemma count_lines_line : forall line rest pending,
  ~ In 10 line -> count_lines (line ++ [10] ++ rest) pending = 1 + count_lines rest false.
Proof.
  induction line as [|c line IH]; intros rest pending H.
  - reflexivity.
  - cbn [app count_lines]. destruct (Z.eqb_spec c 10) as [->|_].
    + exfalso. apply H. left. reflexivity.
    + apply IH. intros Hin. apply H. right. exact Hin.
Qed.

Lemma printable_no_newline : forall s, Forall printable s -> ~ In 10 s.
Proof.
  intros s H Hin. rewrite Forall_forall in H. specialize (H 10 Hin).
  unfold printable in H. lia.
Qed.

Lemma count_lines_records : forall data,
  count_lines (flat_map (fun record => dumps_plain record ++ [10]) data) false
  = Z.of_nat (length data).
Proof.
  induction data as [|r data IH]; [reflexivity|].
  cbn [flat_map length]. rewrite <- app_assoc.
  rewrite count_lines_line by (apply printable_no_newline, printable_dumps_plain).
  rewrite IH. lia.
Qed.

Lemma rfind_dot_no_dot : forall name i found,
  ~ In 46 name -> rfind_dot name i found = found.
Proof.
  induction name as [|c name IH]; intros i found H; [reflexivity|].
  cbn [rfind_dot]. destruct (Z.eqb_spec c 46) as [->|_].
  - exfalso. apply H. left. reflexivity.
  - apply IH. intros Hin. apply H. right. exact Hin.
Qed.

Lemma rfind_dot_last : forall stem ext i found,
  ~ In 46 ext ->
  rfind_dot (stem ++ [46] ++ ext) i found = i + Z.of_nat (length stem).
Proof.
  induction stem as [|c stem IH]; intros ext i found H.
  - cbn [app rfind_dot length]. change (46 =? 46) with true. cbv iota.
    rewrite rfind_dot_no_dot by exact H. lia.
  - cbn [app rfind_dot length]. rewrite (IH ext (i + 1)) by exact H. lia.
Qed.

(** The suffix of a name made of a non-empty stem, a dot and an extension. *)
Lemma path_suffix_ext : forall dir stem ext,
  stem <> [] -> ext <> [] -> ~ In 46 ext ->
  path_suffix (dir ++ [stem ++ [46] ++ ext]) = [46] ++ ext.
Proof.
  intros dir stem ext Hstem Hext Hdot. unfold path_suffix, path_name.
  rewrite last_last, (rfind_dot_last stem ext 0 (-1) Hdot).
  assert (Hlen : (0 < length stem)%nat) by (destruct stem; [contradiction | cbn; lia]).
  assert (Hlen' : (0 < length ext)%nat) by (destruct ext; [contradiction | cbn; lia]).
  assert (Hcond : (0 <? 0 + Z.of_nat (length stem))
                  && (0 + Z.of_nat (length stem)
                      <? Z.of_nat (length (stem ++ [46] ++ ext)) - 1) = true).
  { rewrite !length_app. cbn [length]. apply andb_true_intro.
    split; apply Z.ltb_lt; lia. }
  rewrite Hcond. replace (Z.to_nat (0 + Z.of_nat (length stem))) with (length stem) by lia.
  rewrite skipn_app, skipn_all, Nat.sub_diag. reflexivity.
Qed.

Lemma output_file_suffix : forall output_dir a,
  path_suffix (output_file output_dir a) = py "." ++ py (format_name (arg_format a)).
Proof.
  intros output_dir a. unfold output_file.
  change (py ".") with [46].
  apply path_suffix_ext.
  - unfold output_stem. destruct (py "test_data_") eqn:E; [discriminate E | discriminate].
  - destruct (arg_format a); discriminate.
  - destruct (arg_format a); intros H; vm_compute in H; intuition discriminate.
Qed.










(** *** Runs of [save_data] on the file system *)













Lemma count_records_saved : forall output_dir a data text,
  arg_format a = Ndjson ->
  save_data_text data (py (format_name (arg_format a))) = Ok text ->
  read_text (output_file output_dir a) = Some text ->
  count_records (output_file output_dir a) = Z.of_nat (length data).
Proof.
  intros output_dir a data text Hfmt Hsave Hread.
  unfold count_records. rewrite Hread, output_file_suffix, Hfmt.
  rewrite Hfmt in Hsave. cbn [format_name] in Hsave.
  change (str_eqb (py "." ++ py (format_name Ndjson)) (py ".ndjson")) with true.
  cbv iota. unfold save_data_text in Hsave.
  change (str_eqb (py "ndjson") (py "json")) with false in Hsave.
  change (str_eqb (py "ndjson") (py "ndjson")) with true in Hsave.
  cbv iota in Hsave. injection Hsave as <-. apply count_lines_records.
Qed.

(** X6. What [main] saves with [--format ndjson], the provenance generator
    counts back: when the file [main] names holds the text [save_data] wrote,
    [_count_records] of that path is the number of records of the dataset.
    The name ends in [.ndjson], so the lines are counted, and no record spans
    two lines, since [json.dumps] escapes the line feeds of strings. *)
Theorem count_records_of_saved_ndjson : forall output_dir a data text,
  arg_format a = Ndjson ->
  save_data_text data (py (format_name (arg_format a))) = Ok text ->
  read_text (output_file output_dir a) = Some text ->
  count_records (output_file output_dir a) = Z.of_nat (length data).
Proof.
  intros output_dir a data text Hfmt Hsave Hread.
  exact (count_records_saved output_dir a data text Hfmt Hsave Hread).
Qed.

(** ** Tags of a fixture path *)

(** The names [_extract_tags] looks for, in the order of its tests. *)
Definition TAG_NAMES : list string :=
  ["unit"; "integration"; "performance"; "stress"; "conformance";
   "small"; "medium"; "large"; "xlarge"]%string.

Lemma in_parts_app : forall x p q, in_parts x (p ++ q) = in_parts x p || in_parts x q.
Proof. intros x p q. apply existsb_app. Qed.

Lemma in_parts_In : forall x p, in_parts x p = true <-> In x p.
Proof.
  intros x p. unfold in_parts. rewrite existsb_exists. split.
  - intros [y [Hy E]]. apply str_eqb_eq in E. subst y. exact Hy.
  - intros H. exists x. split; [exact H | apply str_eqb_refl].
Qed.

Lemma extract_tags_filter : forall p,
  extract_tags p
  = map (fun n => VStr (py n)) (filter (fun n => in_parts (py n) p) TAG_NAMES).
Proof.
  intros p.
  assert (Hstep : forall n rest,
    map (fun n => VStr (py n)) (filter (fun n => in_parts (py n) p) (n :: rest))
    = tag_if_part p n
      ++ map (fun n => VStr (py n)) (filter (fun n => in_parts (py n) p) rest)).
  { intros n rest. unfold tag_if_part. cbn [filter].
    destruct (in_parts (py n) p); reflexivity. }
  unfold TAG_NAMES. rewrite !Hstep. cbn [filter map].
  unfold extract_tags. rewrite app_nil_r. reflexivity.
Qed.

Lemma TAG_NAMES_NoDup : NoDup TAG_NAMES.
Proof.
  unfold TAG_NAMES.
  repeat (apply NoDup_cons; [cbn [In]; intuition discriminate|]).
  apply NoDup_nil.
Qed.

(** X8. The tags of a fixture path are the category and size names that are
    components of the path, and nothing else: a name that only occurs inside
    a component, as in the file name, gives no tag.  No tag is listed twice,
    and the tags come in the fixed order of the nine names. *)
Theorem extract_tags_are_path_components : forall p,
  (forall tag, In tag (extract_tags p)
     <-> exists n, In n TAG_NAMES /\ tag = VStr (py n) /\ In (py n) p)
  /\ NoDup (extract_tags p)
  /\ extract_tags p
     = map (fun n => VStr (py n)) (filter (fun n => in_parts (py n) p) TAG_NAMES).
Proof.
  intros p. rewrite extract_tags_filter. split; [|split; [|reflexivity]].
  - intros tag. rewrite in_map_iff. split.
    + intros [n [E H]]. apply filter_In in H. destruct H as [Hn Hp].
      exists n. split; [exact Hn|]. split; [symmetry; exact E|].
      apply in_parts_In. exact Hp.
    + intros [n [Hn [E Hp]]]. exists n. split; [symmetry; exact E|].
      apply filter_In. split; [exact Hn | apply in_parts_In; exact Hp].
  - apply Finite.Injective_map_NoDup.
    + intros a b E. injection E as E. apply py_inj. exact E.
    + apply NoDup_filter, TAG_NAMES_NoDup.
Qed.

Lemma tag_name_not_file : forall n rest,
  In n TAG_NAMES -> str_eqb (py n) (py "test_data_" ++ rest) = false.
Proof.
  intros n rest H. unfold TAG_NAMES in H. cbn [In] in H.
  repeat destruct H as [H|H]; try contradiction; subst n; reflexivity.
Qed.

Lemma extract_tags_output_file : forall output_dir a,
  (forall n, In n TAG_NAMES -> in_parts (py n) output_dir = false) ->
  extract_tags (output_file output_dir a)
  = [VStr (py (category_name (arg_category a))); VStr (py (size_name (arg_size a)))].
Proof.
  intros output_dir a Hdir. rewrite extract_tags_filter.
  rewrite (filter_ext_in _
             (fun n => str_eqb (py n) (py (category_name (arg_category a)))
                       || str_eqb (py n) (py (size_name (arg_size a))))).
  - destruct (arg_category a), (arg_size a); reflexivity.
  - intros n Hn. unfold output_file, output_dir_of, output_stem.
    rewrite !in_parts_app, (Hdir n Hn). unfold in_parts. cbn [existsb orb].
    rewrite <- !app_assoc, (tag_name_not_file n _ Hn), !orb_false_r. reflexivity.
Qed.

(** X7. The path [main] writes to carries its own tags: when no component of
    [--output-dir] is one of the nine names (the default [testdata] is not),
    the tags of the output file are the category and the size of the run, in
    that order.  The file name repeats both words but is one component, so it
    adds nothing. *)
Theorem output_file_tags : forall output_dir a,
  (forall n, In n TAG_NAMES -> in_parts (py n) output_dir = false) ->
  extract_tags (output_file output_dir a)
  = [VStr (py (category_name (arg_category a))); VStr (py (size_name (arg_size a)))].
Proof.
  intros output_dir a Hdir. exact (extract_tags_output_file output_dir a Hdir).
Qed.

(** ** From the saved file to its provenance *)

(** The value found in [v] under the keys [keys], one level after another. *)
Fixpoint value_at (keys : list pystr) (v : value) : option value :=
  match keys with
  | [] => Some v
  | k :: rest =>
      match v with
      | VDict d =>
          match dict_get k d with
          | Some x => value_at rest x
          | None => None
          end
      | _ => None
      end
  end.

(** X13. The two scripts agree on a dataset: for a file [main] saved with
    [--format ndjson] under a directory that carries none of the nine tag
    names, [generate_provenance] returns a document whose tags are the
    category and the size of the run, whose record count is the number of
    records of the dataset, whose file size is the size of the file, and
    which the checks of [validate_provenance] report valid.  It needs the
    file to exist and its path to be encodable. *)
Theorem provenance_of_saved_output :
  forall output_dir a data text size bytes source_info (w : world G),
  arg_format a = Ndjson ->
  (forall n, In n TAG_NAMES -> in_parts (py n) output_dir = false) ->
  save_data_text data (py (format_name (arg_format a))) = Ok text ->
  read_text (output_file output_dir a) = Some text ->
  stat_size (output_file output_dir a) = Some size ->
  encode (path_str (output_file output_dir a)) = Ok bytes ->
  exists doc w',
    generate_provenance (output_file output_dir a) source_info w = Ok (doc, w')
    /\ value_at [py "provenance"; py "tags"] (VDict doc)
       = Some (VList [VStr (py (category_name (arg_category a)));
                      VStr (py (size_name (arg_size a)))])
    /\ value_at [py "quality"; py "metrics"; py "record_count"] (VDict doc)
       = Some (VInt (Z.of_nat (length data)))
    /\ value_at [py "quality"; py "metrics"; py "file_size_bytes"] (VDict doc)
       = Some (VInt size)
    /\ value_at [py "provenance"; py "id"] (VDict doc)
       = Some (VStr (firstn 16 (sha256_hexdigest bytes)))
    /\ value_at [py "source"] (VDict doc) = Some source_info
    /\ validate_document (VDict doc) = Ok REPORT_VALID.
Proof.
  intros output_dir a data text size bytes source_info w Hfmt Hdir Hsave Hread Hstat Henc.
  unfold generate_provenance, generate_id, assess_quality, track_usage,
    build_audit_trail, bind, lift, ret, datetime_now.
  rewrite Henc, Hstat, (extract_tags_output_file output_dir a Hdir),
    (count_records_saved output_dir a data text Hfmt Hsave Hread).
  eexists _, _. split; [reflexivity|].
  repeat split; reflexivity.
Qed.

End OutputProperties.

(** * More on the generators *)

(** A value [generate_record] stores for a field of type [field_type]. *)
Definition field_ok (field_type : pystr) (v : value) : Prop :=
  if str_eqb field_type (py "string") then is_random_string v
  else if str_eqb field_type (py "integer") then is_integer_value v
  else if str_eqb field_type (py "float") then is_float_value v
  else if str_eqb field_type (py "boolean") then exists b, v = VBool b
  else if str_eqb field_type (py "null") then v = VNone
  else if str_eqb field_type (py "object") then
    exists d depth, v = VDict d /\ 1 <= depth <= 3 /\ object_ok depth d
  else if str_eqb field_type (py "array") then
    exists l n, v = VList l /\ In n ARRAY_SIZES /\ length l = Z.to_nat n
                /\ Forall is_random_string l
  else False.

(** A record of [generate_log_data]. *)
Definition log_record (r : value) : Prop :=
  exists now level logger message n thread user_id session_id request_id
         duration_ms memory_mb,
    r = VDict [(py "timestamp", VStr (isoformat now));
               (py "level", VStr level);
               (py "logger", VStr (py "com.example." ++ logger));
               (py "message", VStr message);
               (py "thread", VStr (py "thread-" ++ str_of_Z thread));
               (py "user_id", VInt user_id);
               (py "session_id", VStr session_id);
               (py "request_id", VStr request_id);
               (py "duration_ms", VInt duration_ms);
               (py "memory_mb", VInt memory_mb)]
    /\ In level [py "DEBUG"; py "INFO"; py "WARN"; py "ERROR"; py "FATAL"]
    /\ In logger [py "service"; py "controller"; py "repository"]
    /\ 20 <= n <= 200 /\ is_string n message
    /\ 1 <= thread <= 10
    /\ 1 <= user_id <= 10000
    /\ is_string 32 session_id
    /\ is_string 16 request_id
    /\ 1 <= duration_ms <= 5000
    /\ 100 <= memory_mb <= 10000.

Section GeneratorProperties.

Context {G : Type} {RS : RandomSource G} {PF : Platform}.

(** X12. For every length, [generate_unicode_string] returns without
    raising a string of exactly max(length, 0) characters, each a code point
    of one of the four ranges 32..126, 128..255, 256..65535 and
    65536..1114111: never a control character below the space, never DEL. *)
Theorem generate_unicode_string_in_ranges : forall len (w : world G),
  exists s w',
    generate_unicode_string len w = Ok (s, w')
    /\ length s = Z.to_nat len
    /\ Forall in_unicode_bands s
    /\ Forall (fun c => 32 <= c <= 1114111 /\ c <> 127) s.
Proof.
  intros len w.
  destruct (returns_generate_unicode_string len w) as (s & w' & E & Hlen & Hall).
  exists s, w'. split; [exact E|]. split; [exact Hlen|]. split; [exact Hall|].
  apply Forall_impl with (2 := Hall). intros c Hc. unfold in_unicode_bands in Hc. lia.
Qed.

Lemma elem_ok_json_type : forall ft v, elem_ok ft v -> json_type v = ft.
Proof.
  intros ft v H. unfold elem_ok in H.
  repeat match type of H with
         | (if str_eqb ft ?t then _ else _) =>
             let E := fresh "E" in
             destruct (str_eqb ft t) eqn:E;
             [apply str_eqb_eq in E; subst ft|]
         end; try contradiction.
  - destruct H as (s & n & -> & _). reflexivity.
  - destruct H as (n & -> & _). reflexivity.
  - destruct H as (f & ->). reflexivity.
  - destruct H as (b & ->). reflexivity.
  - subst v. reflexivity.
  - destruct H as (d & depth & -> & _). reflexivity.
  - destruct H as (l & -> & _). reflexivity.
Qed.

(** X10. The elements of a generated array all have the type asked for:
    for every size and field type, [generate_array] returns a list whose
    every element is a JSON value of that type, with the ranges of its
    generator (a string of one of the palette lengths, an integer within a
    million of zero, an object of depth 1 to 5, an array of 1 to 10 strings). *)
Theorem generate_array_elements_typed : forall size field_type (w : world G),
  exists array w',
    generate_array size field_type w = Ok (array, w')
    /\ Forall (fun v => json_type v = field_type /\ elem_ok field_type v) array.
Proof.
  intros size field_type w.
  destruct (returns_generate_array size field_type w) as (array & w' & E & _ & Hall).
  exists array, w'. split; [exact E|].
  apply Forall_impl with (2 := Hall). intros v Hv.
  split; [apply elem_ok_json_type; exact Hv | exact Hv].
Qed.

(** X9. [generate_log_data count] returns max(count, 0) records, each with
    the ten keys timestamp, level, logger, message, thread, user_id,
    session_id, request_id, duration_ms and memory_mb in that order: the
    level one of five names, the logger one of three under [com.example.],
    the message of 20 to 200 palette characters, the thread number 1 to 10,
    the user id 1 to 10000, session and request ids of 32 and 16 palette
    characters, the duration 1 to 5000 and the memory 100 to 10000. *)
Theorem generate_log_data_shape : forall count (w : world G),
  exists data w',
    generate_log_data count w = Ok (data, w')
    /\ Z.of_nat (length data) = Z.max 0 count
    /\ Forall log_record data.
Proof.
  intros count. unfold generate_log_data.
  pose (Inv := fun (j : Z) (data : list value) =>
                 Z.of_nat (length data) = j /\ Forall log_record data).
  apply (returns_for_range Inv).
  - split; [reflexivity | constructor].
  - intros j data Hj [Hlen Hall].
    eapply returns_bind; [apply returns_datetime_now|]. intros now _.
    eapply returns_bind; [apply returns_choice; discriminate|]. intros level Hlevel.
    eapply returns_bind; [apply returns_choice; discriminate|]. intros logger Hlogger.
    eapply returns_bind; [apply returns_randint; lia|]. intros n Hn.
    eapply returns_bind; [apply returns_generate_string|]. intros message Hmessage.
    eapply returns_bind; [apply returns_randint; lia|]. intros thread Hthread.
    eapply returns_bind; [apply returns_randint; lia|]. intros user_id Huser.
    eapply returns_bind; [apply returns_generate_string|]. intros session_id Hsession.
    eapply returns_bind; [apply returns_generate_string|]. intros request_id Hrequest.
    eapply returns_bind; [apply returns_randint; lia|]. intros duration_ms Hduration.
    eapply returns_bind; [apply returns_randint; lia|]. intros memory_mb Hmemory.
    apply returns_ret. cbv beta in *. split.
    + rewrite length_app. cbn [length]. lia.
    + apply Forall_app. split; [exact Hall|]. constructor; [|constructor].
      exists now, level, logger, message, n, thread, user_id, session_id, request_id,
        duration_ms, memory_mb.
      repeat (split; [first [reflexivity | assumption | lia]|]).
      first [assumption | lia].
Qed.

Lemma dict_get_set_same : forall k v d, dict_get k (dict_set k v d) = Some v.
Proof.
  intros k v d. induction d as [|[k' v'] d IH]; cbn [dict_set dict_get].
  - rewrite str_eqb_refl. reflexivity.
  - destruct (str_eqb k k') eqn:E; cbn [dict_get]; rewrite E; [reflexivity | exact IH].
Qed.

Lemma dict_get_set_other : forall k k' v d,
  k <> k' -> dict_get k (dict_set k' v d) = dict_get k d.
Proof.
  intros k k' v d Hne. induction d as [|[k0 v0] d IH]; cbn [dict_set dict_get].
  - apply str_eqb_neq in Hne. rewrite Hne. reflexivity.
  - destruct (str_eqb k' k0) eqn:E; cbn [dict_get].
    + apply str_eqb_eq in E. subst k0. apply str_eqb_neq in Hne. rewrite Hne.
      reflexivity.
    + rewrite IH. reflexivity.
Qed.

Lemma field_ok_json_type : forall ft v, field_ok ft v -> json_type v = ft.
Proof.
  intros ft v H. unfold field_ok in H.
  repeat match type of H with
         | (if str_eqb ft ?t then _ else _) =>
             let E := fresh "E" in
             destruct (str_eqb ft t) eqn:E;
             [apply str_eqb_eq in E; subst ft|]
         end; try contradiction.
  - destruct H as (s & n & -> & _). reflexivity.
  - destruct H as (n & -> & _). reflexivity.
  - destruct H as (f & ->). reflexivity.
  - destruct H as (b & ->). reflexivity.
  - subst v. reflexivity.
  - destruct H as (d & depth & -> & _). reflexivity.
  - destruct H as (l & n & -> & _). reflexivity.
Qed.

(** One iteration of [generate_record], with the value it stores. *)
Lemma generate_record_body_typed : forall name ft (record : dict),
  returns
    (if str_eqb ft (py "string") then
       n <- choice STRING_LENGTHS ;; s <- generate_string n ;;
       ret (dict_set name (VStr s) record)
     else if str_eqb ft (py "integer") then
       n <- generate_integer_default ;; ret (dict_set name (VInt n) record)
     else if str_eqb ft (py "float") then
       f <- generate_float_default ;; ret (dict_set name (VFloat f) record)
     else if str_eqb ft (py "boolean") then
       b <- generate_boolean ;; ret (dict_set name (VBool b) record)
     else if str_eqb ft (py "null") then
       v <- generate_null ;; ret (dict_set name v record)
     else if str_eqb ft (py "object") then
       d <- randint 1 3 ;; o <- generate_object d ;;
       ret (dict_set name (VDict o) record)
     else if str_eqb ft (py "array") then
       n <- choice ARRAY_SIZES ;; a <- generate_array n (py "string") ;;
       ret (dict_set name (VList a) record)
     else ret record)
    (fun r => if in_palette ft
              then exists v, r = dict_set name v record /\ field_ok ft v
              else r = record).
Proof.
  intros name ft record. unfold field_ok.
  destruct (str_eqb ft (py "string")) eqn:E1.
  { rewrite (in_palette_true ft (py "string")); [|simpl; tauto | exact E1].
    eapply returns_bind; [apply returns_choice; discriminate|]. intros n Hn.
    eapply returns_bind; [apply returns_generate_string|]. intros s0 Hs.
    apply returns_ret. exists (VStr s0). split; [reflexivity|]. exists s0, n. auto. }
  destruct (str_eqb ft (py "integer")) eqn:E2.
  { rewrite (in_palette_true ft (py "integer")); [|simpl; tauto | exact E2].
    eapply returns_bind; [apply returns_generate_integer_default|]. intros n Hn.
    apply returns_ret. exists (VInt n). split; [reflexivity|]. exists n. auto. }
  destruct (str_eqb ft (py "float")) eqn:E3.
  { rewrite (in_palette_true ft (py "float")); [|simpl; tauto | exact E3].
    eapply returns_bind; [apply returns_generate_float_default|]. intros f _.
    apply returns_ret. exists (VFloat f). split; [reflexivity|]. exists f. reflexivity. }
  destruct (str_eqb ft (py "boolean")) eqn:E4.
  { rewrite (in_palette_true ft (py "boolean")); [|simpl; tauto | exact E4].
    eapply returns_bind; [apply returns_generate_boolean|]. intros b _.
    apply returns_ret. exists (VBool b). split; [reflexivity|]. exists b. reflexivity. }
  destruct (str_eqb ft (py "null")) eqn:E5.
  { rewrite (in_palette_true ft (py "null")); [|simpl; tauto | exact E5].
    unfold generate_null.
    eapply returns_bind; [apply returns_ret with (P := eq VNone); reflexivity|].
    intros v <-. apply returns_ret. exists VNone. split; reflexivity. }
  destruct (str_eqb ft (py "object")) eqn:E6.
  { rewrite (in_palette_true ft (py "object")); [|simpl; tauto | exact E6].
    eapply returns_bind; [apply returns_randint; lia|]. intros d Hd.
    eapply returns_bind; [apply returns_generate_object|]. intros o Ho.
    apply returns_ret. exists (VDict o). split; [reflexivity|]. exists o, d. auto. }
  destruct (str_eqb ft (py "array")) eqn:E7.
  { rewrite (in_palette_true ft (py "array")); [|simpl; tauto | exact E7].
    eapply returns_bind; [apply returns_choice; discriminate|]. intros n Hn.
    eapply returns_bind; [apply returns_generate_array|]. intros a [Hlen Hall].
    apply returns_ret. exists (VList a). split; [reflexivity|]. exists a, n.
    split; [reflexivity|]. split; [exact Hn|]. split; [exact Hlen|].
    apply Forall_impl with (2 := Hall). intros v Hv. exact Hv. }
  rewrite (in_palette_false ft E1 E2 E3 E4 E5 E6 E7). apply returns_ret. reflexivity.
Qed.

(** X11. Every field of a generated record has the type asked for at its
    position: for every list of field types, [generate_record] returns a
    record in which [field_i] holds a JSON value of the i-th type, within the
    ranges of its generator, when that type is in the palette, and in which
    [field_i] is absent when it is not. *)
Theorem generate_record_fields_typed : forall field_types (w : world G),
  exists record w',
    generate_record field_types w = Ok (record, w')
    /\ forall i field_type,
         nth_error field_types i = Some field_type ->
         if in_palette field_type
         then exists v, dict_get (field_name (Z.of_nat i)) record = Some v
                        /\ json_type v = field_type /\ field_ok field_type v
         else dict_get (field_name (Z.of_nat i)) record = None.
Proof.
  intros field_types. unfold generate_record.
  pose (Q := fun (record : dict) (i : nat) (field_type : pystr) =>
               if in_palette field_type
               then exists v, dict_get (field_name (Z.of_nat i)) record = Some v
                              /\ json_type v = field_type /\ field_ok field_type v
               else dict_get (field_name (Z.of_nat i)) record = None).
  pose (Inv := fun (j : Z) (record : dict) =>
                 (forall i ft, Z.of_nat i < j -> nth_error field_types i = Some ft ->
                               Q record i ft)
                 /\ (forall i, j <= i -> dict_get (field_name i) record = None)).
  apply returns_impl with (P := Inv (0 + Z.of_nat (length field_types))).
  2:{ intros record [H _] i ft Hi. apply (H i ft); [|exact Hi].
      assert (i < length field_types)%nat by (apply nth_error_Some; congruence). lia. }
  apply (returns_for_enumerate Inv).
  { split; [intros i ft Hi; lia | reflexivity]. }
  intros k ft record Hk [Hdone Hfresh]. cbv beta.
  fold (field_name (0 + Z.of_nat k)).
  apply returns_impl
    with (1 := generate_record_body_typed (field_name (0 + Z.of_nat k)) ft record).
  intros r Hr.
  assert (Hother : forall i, i <> 0 + Z.of_nat k ->
            dict_get (field_name i) r = dict_get (field_name i) record).
  { intros i Hi. destruct (in_palette ft); [|subst r; reflexivity].
    destruct Hr as (v & -> & _). apply dict_get_set_other.
    intros E. apply field_name_inj in E. contradiction. }
  split.
  - intros i ft' Hi Hnth. unfold Q.
    destruct (Z.eq_dec (Z.of_nat i) (0 + Z.of_nat k)) as [Eik | Nik].
    + assert (i = k) by lia. subst i. rewrite Hk in Hnth. injection Hnth as <-.
      replace (Z.of_nat k) with (0 + Z.of_nat k) by lia.
      destruct (in_palette ft).
      * destruct Hr as (v & -> & Hv). exists v.
        split; [apply dict_get_set_same|]. split; [apply field_ok_json_type|]; exact Hv.
      * subst r. apply Hfresh. lia.
    + rewrite (Hother _ Nik). apply (Hdone i ft'); [lia | exact Hnth].
  - intros i Hi. rewrite Hother by lia. apply Hfresh. lia.
Qed.

End GeneratorProperties.

(** ** The output side at concrete inputs *)

Lemma toy_float_repr_printable :
  forall f, Forall printable (@float_repr ToyPlatform f).
Proof.
  intros f. cbn [float_repr ToyPlatform].
  repeat (constructor; [unfold printable; vm_compute; split; discriminate|]). constructor.
Qed.

(** A dataset with a lone surrogate, a line feed and a quote in its strings. *)
Definition awkward_records : list value :=
  [VDict [(py "message", VStr [104; 10; 34; 55296]); (py "n", VInt (-3))]; VDict []].

(** X4 at a dataset whose text cannot be encoded unless escaped. *)
Lemma generate_metadata_never_fails_witness :
  exists metadata w',
    generate_metadata 42 (py "1.0.0") awkward_records (VDict [])
      (tape_world (rand_seed 42) (ticking 0)) = Ok (metadata, w')
    /\ encode (dumps (VList awkward_records)) = Ok (dumps (VList awkward_records))
    /\ dict_get (py "data_hash") metadata
       = Some (VStr (sha256_hexdigest (dumps (VList awkward_records))))
    /\ dict_get (py "record_count") metadata = Some (VInt 2)
    /\ dict_get (py "generator_seed") metadata = Some (VInt 42)
    /\ dict_get (py "generated_at") metadata = Some (VStr (isoformat (ticking 0 0)))
    /\ rng w' = rand_seed 42 /\ reads w' = 2%nat.
Proof.
  apply (@generate_metadata_never_fails (list Z) ToyPlatform toy_float_repr_printable
           42 (py "1.0.0") awkward_records (VDict [])
           (tape_world (rand_seed 42) (ticking 0))).
Defined.


(** The same run, call by call: the directory, the file, one write per
    record, the close. *)
Example save_data_calls :
  save_data awkward_records [py "testdata"; py "unit"; py "small"; py "t.ndjson"]
    (py "ndjson") []
  = (Ok tt,
     [Mkdir [py "testdata"; py "unit"; py "small"];
      OpenW [py "testdata"; py "unit"; py "small"; py "t.ndjson"];
      Write [py "testdata"; py "unit"; py "small"; py "t.ndjson"]
        (dumps_plain (VDict [(py "message", VStr [104; 10; 34; 55296]); (py "n", VInt (-3))])
         ++ [10]);
      Write [py "testdata"; py "unit"; py "small"; py "t.ndjson"] (py "{}" ++ [10]);
      Close [py "testdata"; py "unit"; py "small"; py "t.ndjson"]]).
Proof. vm_compute. reflexivity. Qed.

(** A file system on which no directory can be made. *)
Definition ReadOnlyPlatform : Platform := {|
  float_repr := @float_repr ToyPlatform;
  sha256_hexdigest := @sha256_hexdigest ToyPlatform;
  sys_version := @sys_version ToyPlatform;
  posix_float := @posix_float ToyPlatform;
  stat_size := fun _ => None;
  stat_error := fun _ => FileNotFoundError;
  read_text := fun _ => None;
  read_error := fun _ => FileNotFoundError;
  json_loads := fun _ => None;
  fs_raises := fun _ call =>
                 match call with
                 | Mkdir _ => Some PermissionError
                 | _ => None
                 end
|}.

(** There a supported format raises, and an unsupported one raises the same
    [PermissionError], not [ValueError]; on the toy platform the unsupported
    format raises [ValueError] after the directory was made. *)
Example save_data_on_failing_file_system :
  @save_data ReadOnlyPlatform awkward_records [py "out"; py "t.ndjson"] (py "ndjson") []
  = (Raise PermissionError, [])
  /\ @save_data ReadOnlyPlatform awkward_records [py "out"; py "t.xml"] (py "xml") []
     = (Raise PermissionError, [])
  /\ @save_data ToyPlatform awkward_records [py "out"; py "t.xml"] (py "xml") []
     = (Raise ValueError, [Mkdir [py "out"]]).
Proof. repeat split; vm_compute; reflexivity. Qed.

(** The text [save_data] writes for the dataset above. *)
Definition saved_text : pystr :=
  flat_map (fun record => @dumps_plain ToyPlatform record ++ [10]) awkward_records.

(** The toy platform with a file system in which every path reads [text]. *)
Definition SavedPlatform (text : pystr) : Platform := {|
  float_repr := @float_repr ToyPlatform;
  sha256_hexdigest := @sha256_hexdigest ToyPlatform;
  sys_version := @sys_version ToyPlatform;
  posix_float := @posix_float ToyPlatform;
  stat_size := fun _ => Some (Z.of_nat (length text));
  stat_error := fun _ => FileNotFoundError;
  read_text := fun _ => Some text;
  read_error := fun _ => FileNotFoundError;
  json_loads := fun _ => None;
  fs_raises := fun _ _ => None
|}.

(** X6 on the file of a performance run saved under [testdata]. *)
Lemma count_records_of_saved_ndjson_witness :
  @count_records (SavedPlatform saved_text) (output_file [py "testdata"] log_args) = 2.
Proof.
  apply (@count_records_of_saved_ndjson (SavedPlatform saved_text) toy_float_repr_printable
           [py "testdata"] log_args awkward_records saved_text);
    reflexivity.
Defined.

(** X7 on the default output directory. *)
Lemma output_file_tags_witness :
  extract_tags (output_file [py "testdata"] log_args)
  = [VStr (py "performance"); VStr (py "small")].
Proof.
  apply (output_file_tags [py "testdata"] log_args).
  intros n Hn. unfold TAG_NAMES in Hn. cbn [In] in Hn.
  repeat destruct Hn as [Hn|Hn]; try contradiction; subst n; reflexivity.
Defined.

(** The line feed of a string is written as an escape, so the two records
    are two lines. *)
Example saved_text_lines :
  saved_text
  = py "{" ++ [34] ++ py "message" ++ [34] ++ py ": " ++ [34]
    ++ py "h\n" ++ [92; 34] ++ py "\ud800" ++ [34] ++ py ", " ++ [34] ++ py "n" ++ [34]
    ++ py ": -3}" ++ [10] ++ py "{}" ++ [10].
Proof. vm_compute. reflexivity. Qed.

(** X13 on the same file: the provenance of the saved performance run. *)
Lemma provenance_of_saved_output_witness :
  exists doc w',
    @generate_provenance (list Z) (SavedPlatform saved_text)
      (output_file [py "testdata"] log_args) (VDict [(py "type", VStr (py "synthetic"))])
      (tape_world (rand_seed 42) (ticking 0)) = Ok (doc, w')
    /\ value_at [py "provenance"; py "tags"] (VDict doc)
       = Some (VList [VStr (py "performance"); VStr (py "small")])
    /\ value_at [py "quality"; py "metrics"; py "record_count"] (VDict doc)
       = Some (VInt 2)
    /\ value_at [py "quality"; py "metrics"; py "file_size_bytes"] (VDict doc)
       = Some (VInt (Z.of_nat (length saved_text)))
    /\ value_at [py "provenance"; py "id"] (VDict doc)
       = Some (VStr (firstn 16 (@sha256_hexdigest (SavedPlatform saved_text)
                                  (py "testdata/performance/small/test_data_performance_small_1.ndjson"))))
    /\ value_at [py "source"] (VDict doc) = Some (VDict [(py "type", VStr (py "synthetic"))])
    /\ validate_document (VDict doc) = Ok REPORT_VALID.
Proof.
  apply (@provenance_of_saved_output (list Z) (SavedPlatform saved_text)
           toy_float_repr_printable [py "testdata"] log_args awkward_records saved_text
           (Z.of_nat (length saved_text))
           (py "testdata/performance/small/test_data_performance_small_1.ndjson")
           (VDict [(py "type", VStr (py "synthetic"))])
           (tape_world (rand_seed 42) (ticking 0))); try reflexivity.
  intros n Hn. unfold TAG_NAMES in Hn. cbn [In] in Hn.
  repeat destruct Hn as [Hn|Hn]; try contradiction; subst n; reflexivity.
Defined.
